(** * Couchbase client core: remove, touch and collection lookups

    A shallow embedding of the request builders of libcouchbase as vendored by
    couchbase-rs:

    - [operations/remove.cc]: [lcb_remove] and the [lcb_respremove_*] accessors,
    - [operations/touch.cc]:  [lcb_touch] and the [lcb_resptouch_*] accessors,
    - [collections.cc]:       [lcb_getmanifest] and [lcb_getcid].

    A C object is modelled by its value: an unsigned [w]-bit integer is a [Z]
    reduced modulo [2^w] where C converts, a buffer is the list of its bytes, a
    struct is a record.  A function that mutates the client instance takes the
    instance and returns its status together with the instance afterwards.

    The three files include [internal.h]; the structures, macros and packet
    helpers ([mcreq_*]) they use are declared and defined in files that are
    not among the sources.  Each such piece is marked where it is modelled. *)

From Stdlib Require Import ZArith List Bool Lia.
From Stdlib Require String.
Import ListNotations.
Local Open Scope Z_scope.

(** ** Bytes, byte order and buffers *)

Definition byte := Z.

(** Conversion to an unsigned integer type of [bits] bits. *)
Definition wrap (bits : Z) (x : Z) : Z := x mod 2 ^ bits.

(** The [n] low-order bytes of [x], least significant first. *)
Fixpoint le_bytes (n : nat) (x : Z) : list byte :=
  match n with
  | O => []
  | S n' => x mod 256 :: le_bytes n' (x / 256)
  end.

(** The same bytes, most significant first (network order). *)
Definition be_bytes (n : nat) (x : Z) : list byte := rev (le_bytes n x).

Fixpoint le_val (bs : list byte) : Z :=
  match bs with
  | [] => 0
  | b :: rest => b + 256 * le_val rest
  end.

Definition be_val (bs : list byte) : Z := le_val (rev bs).

(** [memcpy(dst, src, n)]: the first [n] bytes of [dst] are replaced by the
    first [n] bytes of [src].  C leaves the call undefined when either buffer
    is shorter than [n]; the builders below never get there. *)
Definition memcpy (dst src : list byte) (n : nat) : list byte :=
  firstn n src ++ skipn n dst.

(** The [len] bytes of [buf] that start at offset [off]. *)
Definition span (off len : nat) (buf : list byte) : list byte :=
  firstn len (skipn off buf).

(** A store of the bytes [bs] at offset [off] of a union member area; an area
    shorter than the store is taken to be followed by further bytes. *)
Definition poke (off : nat) (bs : list byte) (area : list byte) : list byte :=
  firstn off (area ++ repeat 0 off) ++ bs ++ skipn (off + length bs) area.

Fixpoint list_set {A : Type} (l : list A) (i : nat) (x : A) : list A :=
  match l, i with
  | [], _ => []
  | _ :: t, O => x :: t
  | h :: t, S j => h :: list_set t j x
  end.

(** ** Status codes and protocol constants *)

(** Modelled from the spec: [lcb_STATUS] is declared in the public headers,
    not among the sources (spec 7 names the scheduling errors).  These are
    the members that the modelled functions return. *)
Inductive lcb_STATUS : Type :=
| LCB_SUCCESS
| LCB_EINVAL
| LCB_CLIENT_ENOMEM
| LCB_CLIENT_ETMPFAIL
| LCB_KEY_ENOENT
| LCB_NOT_SUPPORTED
| LCB_NO_MATCHING_SERVER
| LCB_EMPTY_KEY.

Definition lcb_STATUS_eqb (a b : lcb_STATUS) : bool :=
  match a, b with
  | LCB_SUCCESS, LCB_SUCCESS
  | LCB_EINVAL, LCB_EINVAL
  | LCB_CLIENT_ENOMEM, LCB_CLIENT_ENOMEM
  | LCB_CLIENT_ETMPFAIL, LCB_CLIENT_ETMPFAIL
  | LCB_KEY_ENOENT, LCB_KEY_ENOENT
  | LCB_NOT_SUPPORTED, LCB_NOT_SUPPORTED
  | LCB_NO_MATCHING_SERVER, LCB_NO_MATCHING_SERVER
  | LCB_EMPTY_KEY, LCB_EMPTY_KEY => true
  | _, _ => false
  end.

(** Modelled from the spec: the magic bytes, opcodes and data type of the
    binary protocol (spec 4.1 and 6) are declared in
    [memcached/protocol_binary.h], which is not among the sources; the values
    are those of the memcached binary protocol. *)
Definition PROTOCOL_BINARY_REQ : Z := 0x80.
Definition PROTOCOL_BINARY_AREQ : Z := 0x08.
Definition PROTOCOL_BINARY_CMD_DELETE : Z := 0x04.
Definition PROTOCOL_BINARY_CMD_TOUCH : Z := 0x1c.
Definition PROTOCOL_BINARY_CMD_COLLECTIONS_GET_MANIFEST : Z := 0xba.
Definition PROTOCOL_BINARY_CMD_COLLECTIONS_GET_CID : Z := 0xbb.
Definition PROTOCOL_BINARY_RAW_BYTES : Z := 0x00.

(** Modelled from the spec: [MCREQ_PKT_BASESIZE] is the size of the fixed
    header, 24 bytes (spec 6); it is also [sizeof] of the header union. *)
Definition MCREQ_PKT_BASESIZE : Z := 24.
Definition sizeof_header : Z := 24.

(** Modelled from the spec: [lcb_DURABILITY_LEVEL] is declared in the public
    header, not among the sources.  It is a C enumeration whose zero member
    means that no durability is requested; the level travels in one byte
    (spec 4.1). *)
Inductive lcb_DURABILITY_LEVEL : Type :=
| LCB_DURABILITYLEVEL_NONE
| LCB_DURABILITYLEVEL_MAJORITY
| LCB_DURABILITYLEVEL_MAJORITY_AND_PERSIST_ON_MASTER
| LCB_DURABILITYLEVEL_PERSIST_TO_MAJORITY.

Definition level_value (l : lcb_DURABILITY_LEVEL) : Z :=
  match l with
  | LCB_DURABILITYLEVEL_NONE => 0
  | LCB_DURABILITYLEVEL_MAJORITY => 1
  | LCB_DURABILITYLEVEL_MAJORITY_AND_PERSIST_ON_MASTER => 2
  | LCB_DURABILITYLEVEL_PERSIST_TO_MAJORITY => 3
  end.

(** ** Data model *)

(** Modelled from the spec: [protocol_binary_request_header]
    ([memcached/protocol_binary.h], not among the sources) is the fixed header
    of spec 6: magic, opcode, key length, extras length, data type, vbucket,
    total body length, opaque, CAS.  This is the [request] view of the union;
    each field holds the value of the C object, and [hdr_bytes] below is the
    [bytes] view. *)
Record protocol_binary_request_header : Type := mk_header {
  request_magic : Z;      (* uint8_t  *)
  request_opcode : Z;     (* uint8_t  *)
  request_keylen : Z;     (* uint16_t *)
  request_extlen : Z;     (* uint8_t  *)
  request_datatype : Z;   (* uint8_t  *)
  request_vbucket : Z;    (* uint16_t *)
  request_bodylen : Z;    (* uint32_t *)
  request_opaque : Z;     (* uint32_t *)
  request_cas : Z         (* uint64_t *)
}.

(** [= {0}] *)
Definition header_zero : protocol_binary_request_header :=
  mk_header 0 0 0 0 0 0 0 0 0.

(** Assignments to the fields; the value is converted to the field's type. *)
Definition set_magic (v : Z) (h : protocol_binary_request_header) :=
  mk_header (wrap 8 v) (request_opcode h) (request_keylen h) (request_extlen h)
    (request_datatype h) (request_vbucket h) (request_bodylen h)
    (request_opaque h) (request_cas h).
Definition set_opcode (v : Z) (h : protocol_binary_request_header) :=
  mk_header (request_magic h) (wrap 8 v) (request_keylen h) (request_extlen h)
    (request_datatype h) (request_vbucket h) (request_bodylen h)
    (request_opaque h) (request_cas h).
Definition set_keylen (v : Z) (h : protocol_binary_request_header) :=
  mk_header (request_magic h) (request_opcode h) (wrap 16 v) (request_extlen h)
    (request_datatype h) (request_vbucket h) (request_bodylen h)
    (request_opaque h) (request_cas h).
Definition set_extlen (v : Z) (h : protocol_binary_request_header) :=
  mk_header (request_magic h) (request_opcode h) (request_keylen h) (wrap 8 v)
    (request_datatype h) (request_vbucket h) (request_bodylen h)
    (request_opaque h) (request_cas h).
Definition set_datatype (v : Z) (h : protocol_binary_request_header) :=
  mk_header (request_magic h) (request_opcode h) (request_keylen h)
    (request_extlen h) (wrap 8 v) (request_vbucket h) (request_bodylen h)
    (request_opaque h) (request_cas h).
Definition set_vbucket (v : Z) (h : protocol_binary_request_header) :=
  mk_header (request_magic h) (request_opcode h) (request_keylen h)
    (request_extlen h) (request_datatype h) (wrap 16 v) (request_bodylen h)
    (request_opaque h) (request_cas h).
Definition set_bodylen (v : Z) (h : protocol_binary_request_header) :=
  mk_header (request_magic h) (request_opcode h) (request_keylen h)
    (request_extlen h) (request_datatype h) (request_vbucket h) (wrap 32 v)
    (request_opaque h) (request_cas h).
Definition set_opaque (v : Z) (h : protocol_binary_request_header) :=
  mk_header (request_magic h) (request_opcode h) (request_keylen h)
    (request_extlen h) (request_datatype h) (request_vbucket h)
    (request_bodylen h) (wrap 32 v) (request_cas h).
Definition set_cas (v : Z) (h : protocol_binary_request_header) :=
  mk_header (request_magic h) (request_opcode h) (request_keylen h)
    (request_extlen h) (request_datatype h) (request_vbucket h)
    (request_bodylen h) (request_opaque h) (wrap 64 v).

(** Modelled from the spec: [protocol_binary_request_delete] and
    [protocol_binary_request_touch] (same header file) are a header followed
    by the [body] union, kept here as the bytes of its storage.  The members
    lie in the order of the durability framing of spec 4.1: [alt.meta] at
    offset 0, [alt.level] at 1, [alt.timeout] at 2, and for touch
    [alt.expiration] at 4; [norm.expiration] of touch is at 0. *)
Record protocol_binary_request : Type := mk_request {
  message_header : protocol_binary_request_header;
  message_body : list byte
}.

Definition with_header (f : protocol_binary_request_header ->
                            protocol_binary_request_header)
    (r : protocol_binary_request) : protocol_binary_request :=
  mk_request (f (message_header r)) (message_body r).

Definition with_body (f : list byte -> list byte)
    (r : protocol_binary_request) : protocol_binary_request :=
  mk_request (message_header r) (f (message_body r)).

(** Modelled from the spec: [lcb_KEYBUF] and the macro [LCB_KEYBUF_IS_EMPTY]
    are declared in headers that are not among the sources.  A key is its
    bytes (spec 6); it is empty when it has none. *)
Definition lcb_KEYBUF := list byte.

Definition LCB_KEYBUF_IS_EMPTY (k : lcb_KEYBUF) : bool :=
  Z.of_nat (length k) =? 0.

(** The command structures are declared in [internal.h]; their fields are
    those that the builders read: [cmd->exptime], [cmd->cas], [cmd->cid],
    [cmd->key], [cmd->dur_level] and [cmd->dur_timeout]. *)
Record lcb_CMDBASE : Type := mk_cmdbase {
  cmd_exptime : Z;        (* lcb_U32 *)
  cmd_cas : Z;            (* lcb_U64 *)
  cmd_cid : Z;            (* lcb_U32 *)
  cmd_key : lcb_KEYBUF
}.

(** [lcb_CMDREMOVE] and [lcb_CMDTOUCH] share one layout: the command base and
    the durability request. *)
Record lcb_CMDDURABLE : Type := mk_cmd {
  cmd_base : lcb_CMDBASE;
  dur_level : lcb_DURABILITY_LEVEL;
  dur_timeout : Z
}.
Definition lcb_CMDREMOVE := lcb_CMDDURABLE.
Definition lcb_CMDTOUCH := lcb_CMDDURABLE.

(** [lcb_CMDGETCID]: a name is the pair of a pointer and a byte count; [None]
    is the null pointer, [Some bs] a pointer to the [length bs] bytes [bs]. *)
Record lcb_CMDGETCID : Type := mk_cmdgetcid {
  scope : option (list byte);
  collection : option (list byte)
}.

Definition name_len (name : option (list byte)) : Z :=
  match name with
  | Some bs => Z.of_nat (length bs)
  | None => 0
  end.
Definition name_bytes (name : option (list byte)) : list byte :=
  match name with
  | Some bs => bs
  | None => []
  end.
Definition is_null {A : Type} (p : option A) : bool :=
  match p with
  | Some _ => false
  | None => true
  end.
Definition nscope (cmd : lcb_CMDGETCID) : Z := name_len (scope cmd).
Definition ncollection (cmd : lcb_CMDGETCID) : Z := name_len (collection cmd).

(** Modelled from the spec: [mc_PACKET] ([mcreq.h], not among the sources) is
    the Packet of spec 3: correlation id, flags, the buffer with header,
    frame, extras and key, the caller's cookie and the creation time. *)
Record mc_PACKET : Type := mk_packet {
  pkt_opaque : Z;               (* correlation id *)
  pkt_flags : Z;
  pkt_extlen : Z;
  kh_span : list byte;          (* header, frame, extras and key *)
  reqdata_cookie : Z;
  reqdata_start : Z
}.

(** Modelled from the spec: [mc_PIPELINE] is the Pipeline of spec 3: the
    packets scheduled on it in submission order, the ids of the packets that
    await a reply, the id counter, and whether its packet pool is exhausted. *)
Record mc_PIPELINE : Type := mk_pipeline {
  ctxqueued : list mc_PACKET;
  pending : list Z;
  next_opaque : Z;
  pool_exhausted : bool
}.

(** Modelled from the spec: the cluster topology (spec 4.4) maps a key to its
    vbucket and to the index of the server that owns it (negative when there
    is none); routing is a function of key and topology. *)
Record lcbvb_CONFIG : Type := mk_config {
  lcbvb_map_key : lcb_KEYBUF -> Z * Z
}.

(** Modelled from the spec: [mc_CMDQUEUE] is the Command Queue of spec 3: the
    topology, the pipelines and the fallback pipeline; [npipelines] is the
    length of [pipelines]. *)
Record mc_CMDQUEUE : Type := mk_cmdqueue {
  config : option lcbvb_CONFIG;
  pipelines : list mc_PIPELINE;
  fallback : option mc_PIPELINE
}.

Definition npipelines (cq : mc_CMDQUEUE) : Z := Z.of_nat (length (pipelines cq)).

Record lcb_settings : Type := mk_settings {
  use_collections : bool
}.

(** Modelled from the spec: [lcb_INSTANCE] holds the command queue and the
    settings; [supports_syncreplication] is what the macro
    [LCBT_SUPPORT_SYNCREPLICATION] reads (whether the cluster carries
    durability frames), [hrtime] what [gethrtime()] returns (the monotonic
    clock of spec 3). *)
Record lcb_INSTANCE : Type := mk_instance {
  cmdq : mc_CMDQUEUE;
  settings : lcb_settings;
  supports_syncreplication : bool;
  hrtime : Z
}.

Definition LCBT_SUPPORT_SYNCREPLICATION (instance : lcb_INSTANCE) : bool :=
  supports_syncreplication instance.
Definition gethrtime (instance : lcb_INSTANCE) : Z := hrtime instance.

Definition with_cmdq (cq : mc_CMDQUEUE) (instance : lcb_INSTANCE) : lcb_INSTANCE :=
  mk_instance cq (settings instance) (supports_syncreplication instance)
    (hrtime instance).

(** A [mc_PIPELINE *] into the queue: one of [pipelines] or the fallback. *)
Inductive pl_ref : Type :=
| PL_server (ix : nat)
| PL_fallback.

Definition pl_get (cq : mc_CMDQUEUE) (r : pl_ref) : option mc_PIPELINE :=
  match r with
  | PL_server ix => nth_error (pipelines cq) ix
  | PL_fallback => fallback cq
  end.

Definition pl_set (cq : mc_CMDQUEUE) (r : pl_ref) (pl : mc_PIPELINE) : mc_CMDQUEUE :=
  match r with
  | PL_server ix => mk_cmdqueue (config cq) (list_set (pipelines cq) ix pl) (fallback cq)
  | PL_fallback =>
      mk_cmdqueue (config cq) (pipelines cq)
        (match fallback cq with Some _ => Some pl | None => None end)
  end.

(** The packets scheduled on a pipeline of the queue. *)
Definition queued_on (cq : mc_CMDQUEUE) (r : pl_ref) : list mc_PACKET :=
  match pl_get cq r with
  | Some pl => ctxqueued pl
  | None => []
  end.

(** [lcb_RESPBASE], the common prefix of [lcb_RESPREMOVE] and
    [lcb_RESPTOUCH]: the fields that the accessors of remove.cc and touch.cc
    read. *)
Record lcb_RESPBASE : Type := mk_resp {
  rc : lcb_STATUS;
  rflags : Z;
  resp_cookie : Z;
  resp_key : list byte;
  resp_cas : Z
}.
Definition lcb_RESPREMOVE := lcb_RESPBASE.
Definition lcb_RESPTOUCH := lcb_RESPBASE.

Inductive lcb_CALLBACK_TYPE : Type :=
| LCB_CALLBACK_REMOVE
| LCB_CALLBACK_TOUCH.

(** A [const char *] and the [size_t] next to it, as a caller holds them. *)
Definition out_string : Type := (option String.string * Z)%type.

(** Two strings for the samples further down. *)
Module SampleStrings.
Import String.
Local Open Scope string_scope.
Definition cas_mismatch : string := "CAS mismatch".
Definition untouched : string := "untouched".
End SampleStrings.

(** ** Packet allocation *)

(** The first id from [c] on, counting modulo [2^32], that is not in [ids]. *)
Fixpoint skip_pending (fuel : nat) (ids : list Z) (c : Z) : Z :=
  match fuel with
  | O => c
  | S fuel' =>
      if existsb (Z.eqb c) ids then skip_pending fuel' ids (wrap 32 (c + 1)) else c
  end.

(** Modelled from the spec: [mcreq_allocate_packet] (mcreq.c) is not among the
    sources.  Spec 4.2: it reserves a correlation id from a counter that
    increases with wraparound and skips the ids still pending, and an empty
    buffer; it fails (a null pointer) when memory is exhausted. *)
Definition mcreq_allocate_packet (pl : mc_PIPELINE) : option (mc_PACKET * mc_PIPELINE) :=
  if pool_exhausted pl then None
  else
    let id := skip_pending (length (pending pl)) (pending pl) (next_opaque pl) in
    Some (mk_packet id 0 0 [] 0 0,
          mk_pipeline (ctxqueued pl) (pending pl) (wrap 32 (id + 1))
            (pool_exhausted pl)).

(** Modelled from the spec: [mcreq_reserve_header] (mcreq.c) is not among the
    sources.  Spec 4.2: it grows the packet's buffer to the header size; the
    reserved bytes are not initialised, zero stands for them. *)
Definition mcreq_reserve_header (pkt : mc_PACKET) (hdrsize : Z) : mc_PACKET :=
  mk_packet (pkt_opaque pkt) (pkt_flags pkt) (hdrsize - MCREQ_PKT_BASESIZE)
    (repeat 0 (Z.to_nat hdrsize)) (reqdata_cookie pkt) (reqdata_start pkt).

(** Modelled from the spec: the variable-length tag that carries a collection
    id in front of a key (spec 4.2): seven bits a byte, least significant
    first, the high bit set on every byte but the last. *)
Fixpoint cid_tag (fuel : nat) (cid : Z) : list byte :=
  match fuel with
  | O => []
  | S fuel' =>
      if cid <? 128 then [cid]
      else Z.lor (cid mod 128) 128 :: cid_tag fuel' (cid / 128)
  end.

(** Modelled from the spec: [mcreq_sched_add], the first half of the macro
    [LCB_SCHED_ADD] (spec 4.4, submit): the packet joins the packets scheduled
    on its pipeline, behind those already there. *)
Definition mcreq_sched_add (pl : mc_PIPELINE) (pkt : mc_PACKET) : mc_PIPELINE :=
  mk_pipeline (ctxqueued pl ++ [pkt]) (pending pl) (next_opaque pl)
    (pool_exhausted pl).

(** Modelled from the spec: the macro [LCB_SCHED_ADD] ([internal.h]) adds the
    packet to the pipeline it was allocated on; a batch that is open is not
    modelled. *)
Definition LCB_SCHED_ADD (instance : lcb_INSTANCE) (pl : pl_ref) (pkt : mc_PACKET)
    : lcb_INSTANCE :=
  match pl_get (cmdq instance) pl with
  | Some p => with_cmdq (pl_set (cmdq instance) pl (mcreq_sched_add p pkt)) instance
  | None => instance
  end.

(** Assignments to the fields of a packet. *)
Definition set_flags (v : Z) (pkt : mc_PACKET) : mc_PACKET :=
  mk_packet (pkt_opaque pkt) v (pkt_extlen pkt) (kh_span pkt)
    (reqdata_cookie pkt) (reqdata_start pkt).
Definition set_kh_span (v : list byte) (pkt : mc_PACKET) : mc_PACKET :=
  mk_packet (pkt_opaque pkt) (pkt_flags pkt) (pkt_extlen pkt) v
    (reqdata_cookie pkt) (reqdata_start pkt).
Definition set_cookie (v : Z) (pkt : mc_PACKET) : mc_PACKET :=
  mk_packet (pkt_opaque pkt) (pkt_flags pkt) (pkt_extlen pkt) (kh_span pkt)
    v (reqdata_start pkt).
Definition set_start (v : Z) (pkt : mc_PACKET) : mc_PACKET :=
  mk_packet (pkt_opaque pkt) (pkt_flags pkt) (pkt_extlen pkt) (kh_span pkt)
    (reqdata_cookie pkt) v.

(** What [mcreq_basic_packet] hands back: a status other than success, or the
    filled header, the packet, its pipeline and the queue afterwards. *)
Inductive basic_packet_result : Type :=
| BP_fail (err : lcb_STATUS)
| BP_ok (req : protocol_binary_request_header) (packet : mc_PACKET)
        (pipeline : pl_ref) (queue : mc_CMDQUEUE).

(** [lcb_CMDGETMANIFEST] has no field that [lcb_getmanifest] reads. *)
Definition lcb_CMDGETMANIFEST := unit.

Section Client.

(** Byte order of the machine the client runs on. *)
Variable host_little_endian : bool.

(** Bit positions of three flag constants whose declarations ([mcreq.h],
    [couchbase.h]) are not among the sources. *)
Variable NOCID_bit ERRINFO_bit FALLBACKOK_bit : nat.

(** [lcb_resp_get_error_context] and [lcb_resp_get_error_ref] (not among the
    sources): the string attached to a response, or a null pointer. *)
Variable lcb_resp_get_error_context lcb_resp_get_error_ref :
  lcb_CALLBACK_TYPE -> lcb_RESPBASE -> option String.string.

(** [lcb_touch] declares its request without an initialiser: on entry the
    object holds whatever its storage held. *)
Variable tcmd_indeterminate : protocol_binary_request.

Definition MCREQ_F_NOCID : Z := Z.shiftl 1 (Z.of_nat NOCID_bit).
Definition LCB_RESP_F_ERRINFO : Z := Z.shiftl 1 (Z.of_nat ERRINFO_bit).
Definition MCREQ_BASICPACKET_F_FALLBACKOK : Z := Z.shiftl 1 (Z.of_nat FALLBACKOK_bit).

(** The bytes of an [n]-byte unsigned object in memory, and back. *)
Definition host_bytes (n : nat) (x : Z) : list byte :=
  if host_little_endian then le_bytes n x else be_bytes n x.
Definition host_val (bs : list byte) : Z :=
  if host_little_endian then le_val bs else be_val bs.

(** [htons], [htonl], [lcb_htonll]: the value whose bytes in memory are the
    network-order bytes of the argument; [ntohs] reads the bytes in memory of
    its argument in network order. *)
Definition htons (x : Z) : Z := host_val (be_bytes 2 x).
Definition ntohs (x : Z) : Z := be_val (host_bytes 2 x).
Definition htonl (x : Z) : Z := host_val (be_bytes 4 x).
Definition lcb_htonll (x : Z) : Z := host_val (be_bytes 8 x).

(** The [bytes] view of the header union. *)
Definition hdr_bytes (h : protocol_binary_request_header) : list byte :=
  host_bytes 1 (request_magic h) ++ host_bytes 1 (request_opcode h) ++
  host_bytes 2 (request_keylen h) ++ host_bytes 1 (request_extlen h) ++
  host_bytes 1 (request_datatype h) ++ host_bytes 2 (request_vbucket h) ++
  host_bytes 4 (request_bodylen h) ++ host_bytes 4 (request_opaque h) ++
  host_bytes 8 (request_cas h).

(** The [bytes] view of a request: the header, then the body. *)
Definition request_bytes (r : protocol_binary_request) : list byte :=
  hdr_bytes (message_header r) ++ message_body r.

(** Assignments to the members of the [body] union. *)
Definition set_alt_meta (v : Z) := with_body (poke 0 (host_bytes 1 v)).
Definition set_alt_level (v : Z) := with_body (poke 1 (host_bytes 1 v)).
Definition set_alt_timeout (v : Z) := with_body (poke 2 (host_bytes 2 v)).
Definition set_alt_expiration (v : Z) := with_body (poke 4 (host_bytes 4 v)).
Definition set_norm_expiration (v : Z) := with_body (poke 0 (host_bytes 4 v)).

(** Modelled from the spec: [mcreq_reserve_key] (mcreq.c) is not among the
    sources.  Spec 4.2: the buffer holds [hdrsize] bytes for the header, frame
    and extras, then the key; the key is prefixed by the collection id tag
    when collections are in use, unless the packet is flagged
    [MCREQ_F_NOCID], in which case the key goes out as it is. *)
Definition mcreq_reserve_key (st : lcb_settings) (pkt : mc_PACKET) (hdrsize : Z)
    (key : lcb_KEYBUF) (cid : Z) : mc_PACKET :=
  let tag :=
    if use_collections st && (Z.land (pkt_flags pkt) MCREQ_F_NOCID =? 0)
    then cid_tag 5 (wrap 32 cid) else [] in
  mk_packet (pkt_opaque pkt) (pkt_flags pkt) (hdrsize - MCREQ_PKT_BASESIZE)
    (repeat 0 (Z.to_nat hdrsize) ++ tag ++ key)
    (reqdata_cookie pkt) (reqdata_start pkt).

(** Modelled from the spec: [mcreq_write_hdr] is a macro of [mcreq.h], not
    among the sources.  Spec 4.2: the header placeholder at the start of the
    buffer is filled in last; [lcb_getmanifest] does it with [memcpy] in so
    many words. *)
Definition mcreq_write_hdr (pkt : mc_PACKET) (hdr : protocol_binary_request_header)
    : mc_PACKET :=
  set_kh_span (memcpy (kh_span pkt) (hdr_bytes hdr) (Z.to_nat sizeof_header)) pkt.

(** Modelled from the spec: [mcreq_basic_packet] (mcreq.c) is not among the
    sources.  Spec 4.4: without a topology nothing can be routed; the key is
    mapped to a server index, and when no pipeline has that index the call
    fails with [LCB_NO_MATCHING_SERVER], unless the caller allows the fallback
    pipeline and there is one.  Spec 4.2: a packet is allocated on the
    pipeline and the key reserved behind [sizeof header + extlen + ffextlen]
    bytes.  The key length, the vbucket and the extras length of the header
    are filled in, which [lcb_remove] and [lcb_touch] read back.  Nothing is
    changed when the call fails. *)
Definition mcreq_basic_packet (st : lcb_settings) (queue : mc_CMDQUEUE)
    (cmd : lcb_CMDBASE) (req : protocol_binary_request_header)
    (extlen ffextlen : Z) (options : Z) : basic_packet_result :=
  match config queue with
  | None => BP_fail LCB_CLIENT_ETMPFAIL
  | Some cfg =>
      let '(vb, srvix) := lcbvb_map_key cfg (cmd_key cmd) in
      let target :=
        if (-1 <? srvix) && (srvix <? npipelines queue)
        then Some (PL_server (Z.to_nat srvix))
        else if negb (Z.land options MCREQ_BASICPACKET_F_FALLBACKOK =? 0)
                && negb (is_null (fallback queue))
             then Some PL_fallback
             else None in
      match target with
      | None => BP_fail LCB_NO_MATCHING_SERVER
      | Some pipeline =>
          match pl_get queue pipeline with
          | None => BP_fail LCB_NO_MATCHING_SERVER
          | Some pl =>
              match mcreq_allocate_packet pl with
              | None => BP_fail LCB_CLIENT_ENOMEM
              | Some (packet, pl') =>
                  let hdrsize := sizeof_header + extlen + ffextlen in
                  let packet :=
                    mcreq_reserve_key st packet hdrsize (cmd_key cmd) (cmd_cid cmd) in
                  let klen := Z.of_nat (length (kh_span packet)) - hdrsize in
                  let req := set_keylen (htons klen) req in
                  let req := set_vbucket (htons vb) req in
                  let req := set_extlen extlen req in
                  BP_ok req packet pipeline (pl_set queue pipeline pl')
              end
          end
      end
  end.

(** ** operations/remove.cc *)

Definition lcb_respremove_error_context (resp : lcb_RESPREMOVE) (out : out_string)
    : lcb_STATUS * out_string :=
  if Z.land (rflags resp) LCB_RESP_F_ERRINFO =? 0 then (LCB_KEY_ENOENT, out)
  else
    match lcb_resp_get_error_context LCB_CALLBACK_REMOVE resp with
    | Some val => (LCB_SUCCESS, (Some val, Z.of_nat (String.length val)))
    | None => (LCB_SUCCESS, out)
    end.

Definition lcb_respremove_error_ref (resp : lcb_RESPREMOVE) (out : out_string)
    : lcb_STATUS * out_string :=
  if Z.land (rflags resp) LCB_RESP_F_ERRINFO =? 0 then (LCB_KEY_ENOENT, out)
  else
    match lcb_resp_get_error_ref LCB_CALLBACK_REMOVE resp with
    | Some val => (LCB_SUCCESS, (Some val, Z.of_nat (String.length val)))
    | None => (LCB_SUCCESS, out)
    end.

(** [if (cmd->dur_level)] *)
Definition durability_requested (cmd : lcb_CMDDURABLE) : bool :=
  negb (level_value (dur_level cmd) =? 0).

(** The tracing macros ([LCBTRACE_KV_START], [TRACE_REMOVE_BEGIN]) only fill
    the packet's span handle and are left out. *)
Definition lcb_remove (instance : lcb_INSTANCE) (cookie : Z) (cmd : lcb_CMDREMOVE)
    : lcb_STATUS * lcb_INSTANCE :=
  let cq := cmdq instance in
  let req := mk_request header_zero (repeat 0 4) in
  let new_durability_supported := LCBT_SUPPORT_SYNCREPLICATION instance in
  if LCB_KEYBUF_IS_EMPTY (cmd_key (cmd_base cmd)) then (LCB_EMPTY_KEY, instance)
  else
    match
      (if durability_requested cmd then
         if new_durability_supported
         then Some (with_header (set_magic PROTOCOL_BINARY_AREQ) req, 4)
         else None
       else Some (req, 0))
    with
    | None => (LCB_NOT_SUPPORTED, instance)
    | Some (req, ffextlen) =>
        match mcreq_basic_packet (settings instance) cq (cmd_base cmd)
                (message_header req) 0 ffextlen MCREQ_BASICPACKET_F_FALLBACKOK with
        | BP_fail err => (err, instance)
        | BP_ok hdr pkt pl cq' =>
            let req := with_header (fun _ => hdr) req in
            let hsize := request_extlen hdr + sizeof_header + ffextlen in
            let req := with_header (set_datatype PROTOCOL_BINARY_RAW_BYTES) req in
            let req := with_header (set_magic PROTOCOL_BINARY_REQ) req in
            let req := with_header (set_opcode PROTOCOL_BINARY_CMD_DELETE) req in
            let req := with_header (set_cas (lcb_htonll (cmd_cas (cmd_base cmd)))) req in
            let req := with_header (set_opaque (pkt_opaque pkt)) req in
            let req :=
              with_header
                (set_bodylen
                   (htonl (ffextlen + request_extlen hdr
                           + wrap 32 (ntohs (request_keylen hdr))))) req in
            let req :=
              if durability_requested cmd && new_durability_supported then
                let req := set_alt_meta (Z.lor (Z.shiftl 1 4) 3) req in
                let req := set_alt_level (level_value (dur_level cmd)) req in
                set_alt_timeout (htons (dur_timeout cmd)) req
              else req in
            let pkt := set_cookie cookie pkt in
            let pkt := set_start (gethrtime instance) pkt in
            let pkt :=
              set_kh_span
                (memcpy (kh_span pkt) (request_bytes req) (Z.to_nat hsize)) pkt in
            (LCB_SUCCESS, LCB_SCHED_ADD (with_cmdq cq' instance) pl pkt)
        end
    end.

(** ** operations/touch.cc *)

Definition lcb_resptouch_error_context (resp : lcb_RESPTOUCH) (out : out_string)
    : lcb_STATUS * out_string :=
  if Z.land (rflags resp) LCB_RESP_F_ERRINFO =? 0 then (LCB_KEY_ENOENT, out)
  else
    match lcb_resp_get_error_context LCB_CALLBACK_TOUCH resp with
    | Some val => (LCB_SUCCESS, (Some val, Z.of_nat (String.length val)))
    | None => (LCB_SUCCESS, out)
    end.

Definition lcb_resptouch_error_ref (resp : lcb_RESPTOUCH) (out : out_string)
    : lcb_STATUS * out_string :=
  if Z.land (rflags resp) LCB_RESP_F_ERRINFO =? 0 then (LCB_KEY_ENOENT, out)
  else
    match lcb_resp_get_error_ref LCB_CALLBACK_TOUCH resp with
    | Some val => (LCB_SUCCESS, (Some val, Z.of_nat (String.length val)))
    | None => (LCB_SUCCESS, out)
    end.

Definition lcb_touch (instance : lcb_INSTANCE) (cookie : Z) (cmd : lcb_CMDTOUCH)
    : lcb_STATUS * lcb_INSTANCE :=
  let tcmd := tcmd_indeterminate in
  let new_durability_supported := LCBT_SUPPORT_SYNCREPLICATION instance in
  if LCB_KEYBUF_IS_EMPTY (cmd_key (cmd_base cmd)) then (LCB_EMPTY_KEY, instance)
  else
    match
      (if durability_requested cmd then
         if new_durability_supported
         then Some (with_header (set_magic PROTOCOL_BINARY_AREQ) tcmd, 4)
         else None
       else Some (tcmd, 0))
    with
    | None => (LCB_NOT_SUPPORTED, instance)
    | Some (tcmd, ffextlen) =>
        match mcreq_basic_packet (settings instance) (cmdq instance) (cmd_base cmd)
                (message_header tcmd) 4 ffextlen MCREQ_BASICPACKET_F_FALLBACKOK with
        | BP_fail err => (err, instance)
        | BP_ok hdr pkt pl cq' =>
            let tcmd := with_header (fun _ => hdr) tcmd in
            let hsize := request_extlen hdr + sizeof_header + ffextlen in
            let tcmd := with_header (set_magic PROTOCOL_BINARY_REQ) tcmd in
            let tcmd := with_header (set_opcode PROTOCOL_BINARY_CMD_TOUCH) tcmd in
            let tcmd := with_header (set_cas 0) tcmd in
            let tcmd := with_header (set_datatype PROTOCOL_BINARY_RAW_BYTES) tcmd in
            let tcmd := with_header (set_opaque (pkt_opaque pkt)) tcmd in
            let tcmd :=
              with_header
                (set_bodylen (htonl (4 + ffextlen + ntohs (request_keylen hdr))))
                tcmd in
            let tcmd :=
              if durability_requested cmd && new_durability_supported then
                let tcmd := set_alt_meta (Z.lor (Z.shiftl 1 4) 3) tcmd in
                let tcmd := set_alt_level (level_value (dur_level cmd)) tcmd in
                let tcmd := set_alt_timeout (htons (dur_timeout cmd)) tcmd in
                set_alt_expiration (htonl (cmd_exptime (cmd_base cmd))) tcmd
              else
                set_norm_expiration (htonl (cmd_exptime (cmd_base cmd))) tcmd in
            let pkt :=
              set_kh_span
                (memcpy (kh_span pkt) (request_bytes tcmd) (Z.to_nat hsize)) pkt in
            let pkt := set_cookie cookie pkt in
            let pkt := set_start (gethrtime instance) pkt in
            (LCB_SUCCESS, LCB_SCHED_ADD (with_cmdq cq' instance) pl pkt)
        end
    end.

(** ** collections.cc *)

Definition lcb_getmanifest (instance : lcb_INSTANCE) (cookie : Z)
    (cmd : lcb_CMDGETMANIFEST) : lcb_STATUS * lcb_INSTANCE :=
  let cq := cmdq instance in
  if is_null (config cq) then (LCB_CLIENT_ETMPFAIL, instance)
  else if negb (use_collections (settings instance)) then (LCB_NOT_SUPPORTED, instance)
  else if npipelines cq <? 1 then (LCB_NO_MATCHING_SERVER, instance)
  else
    match pipelines cq with
    | [] => (LCB_NO_MATCHING_SERVER, instance)
    | pl :: _ =>
        match mcreq_allocate_packet pl with
        | None => (LCB_CLIENT_ENOMEM, instance)
        | Some (pkt, pl') =>
            let cq' := pl_set cq (PL_server 0) pl' in
            let pkt := mcreq_reserve_header pkt MCREQ_PKT_BASESIZE in
            let hdr := header_zero in
            let hdr := set_magic PROTOCOL_BINARY_REQ hdr in
            let hdr := set_opcode PROTOCOL_BINARY_CMD_COLLECTIONS_GET_MANIFEST hdr in
            let hdr := set_datatype PROTOCOL_BINARY_RAW_BYTES hdr in
            let hdr := set_opaque (pkt_opaque pkt) hdr in
            let pkt :=
              set_kh_span
                (memcpy (kh_span pkt) (hdr_bytes hdr) (Z.to_nat sizeof_header)) pkt in
            let pkt := set_cookie cookie pkt in
            let pkt := set_start (gethrtime instance) pkt in
            (LCB_SUCCESS, LCB_SCHED_ADD (with_cmdq cq' instance) (PL_server 0) pkt)
        end
    end.

(** The path that [lcb_getcid] builds in a [std::string]. *)
Definition getcid_path (cmd : lcb_CMDGETCID) : list byte :=
  (([] ++ name_bytes (scope cmd)) ++ [46]) ++ name_bytes (collection cmd).

Definition lcb_getcid (instance : lcb_INSTANCE) (cookie : Z) (cmd : lcb_CMDGETCID)
    : lcb_STATUS * lcb_INSTANCE :=
  let cq := cmdq instance in
  if is_null (config cq) then (LCB_CLIENT_ETMPFAIL, instance)
  else if negb (use_collections (settings instance)) then (LCB_NOT_SUPPORTED, instance)
  else if (nscope cmd =? 0) || is_null (scope cmd)
          || (ncollection cmd =? 0) || is_null (collection cmd)
  then (LCB_EINVAL, instance)
  else if npipelines cq <? 1 then (LCB_NO_MATCHING_SERVER, instance)
  else
    match pipelines cq with
    | [] => (LCB_NO_MATCHING_SERVER, instance)
    | pl :: _ =>
        match mcreq_allocate_packet pl with
        | None => (LCB_CLIENT_ENOMEM, instance)
        | Some (pkt, pl') =>
            let cq' := pl_set cq (PL_server 0) pl' in
            let pkt := mcreq_reserve_header pkt MCREQ_PKT_BASESIZE in
            let path := getcid_path cmd in
            let key : lcb_KEYBUF := path in
            let pkt := set_flags (Z.lor (pkt_flags pkt) MCREQ_F_NOCID) pkt in
            let pkt :=
              mcreq_reserve_key (settings instance) pkt MCREQ_PKT_BASESIZE key 0 in
            let hdr := header_zero in
            let hdr := set_magic PROTOCOL_BINARY_REQ hdr in
            let hdr := set_opcode PROTOCOL_BINARY_CMD_COLLECTIONS_GET_CID hdr in
            let hdr := set_datatype PROTOCOL_BINARY_RAW_BYTES hdr in
            let hdr := set_opaque (pkt_opaque pkt) hdr in
            let hdr := set_keylen (ntohs (wrap 16 (Z.of_nat (length path)))) hdr in
            let hdr := set_bodylen (htonl (wrap 32 (Z.of_nat (length path)))) hdr in
            let pkt := mcreq_write_hdr pkt hdr in
            let pkt := set_cookie cookie pkt in
            let pkt := set_start (gethrtime instance) pkt in
            (LCB_SUCCESS, LCB_SCHED_ADD (with_cmdq cq' instance) (PL_server 0) pkt)
        end
    end.

(** ** Vocabulary of the wire format *)

(** The durability frame in the words of the spec (4.1): a frame descriptor
    made of the frame type 1 and the frame length 3, the level in one byte,
    the timeout in two bytes, most significant first. *)
Definition durability_frame (level : lcb_DURABILITY_LEVEL) (timeout : Z)
    : list byte :=
  [Z.lor (Z.shiftl 1 4) 3; level_value level] ++ be_bytes 2 timeout.

(** The key as it sits in a packet that was not flagged [MCREQ_F_NOCID]:
    behind the collection id tag when collections are in use. *)
Definition key_area (st : lcb_settings) (cmd : lcb_CMDBASE) : list byte :=
  (if use_collections st then cid_tag 5 (wrap 32 (cmd_cid cmd)) else [])
  ++ cmd_key cmd.

(** What [lcb_touch] puts between the header and the key, in the words of
    the spec (4.1): the durability frame if there is one, then the expiry in
    four bytes, most significant first. *)
Definition touch_extras (cmd : lcb_CMDDURABLE) : list byte :=
  (if durability_requested cmd
   then durability_frame (dur_level cmd) (dur_timeout cmd) else [])
  ++ be_bytes 4 (cmd_exptime (cmd_base cmd)).

(** A call that took [before] to [after] scheduled one packet whose
    correlation id is the one allocation gave it, and the four bytes of the
    opaque field in its buffer are the bytes of that id in memory. *)
Definition opaque_tracked (before after : lcb_INSTANCE) : Prop :=
  exists pl p pkt0 p' pkt,
    pl_get (cmdq before) pl = Some p /\
    mcreq_allocate_packet p = Some (pkt0, p') /\
    queued_on (cmdq after) pl = queued_on (cmdq before) pl ++ [pkt] /\
    pkt_opaque pkt = pkt_opaque pkt0 /\
    span 12 4 (kh_span pkt) = host_bytes 4 (pkt_opaque pkt).

(** ** Sample data *)

(** A topology that sends every key to vbucket 5 on server 0. *)
Definition sample_config : lcbvb_CONFIG := mk_config (fun _ => (5, 0)).

(** A pipeline with one reply outstanding, for id 7, and the counter at 7. *)
Definition sample_pipeline : mc_PIPELINE := mk_pipeline [] [7] 7 false.

Definition sample_instance : lcb_INSTANCE :=
  mk_instance (mk_cmdqueue (Some sample_config) [sample_pipeline] None)
    (mk_settings true) true 1000.

(** A client that has no configuration yet: no topology, no pipeline. *)
Definition unconfigured_instance : lcb_INSTANCE :=
  mk_instance (mk_cmdqueue None [] None) (mk_settings false) false 1000.

(** A configured client with collections switched off. *)
Definition plain_instance : lcb_INSTANCE :=
  mk_instance (mk_cmdqueue (Some sample_config) [sample_pipeline] None)
    (mk_settings false) true 1000.

(** Configured clients whose queue has no pipeline, with collections on and
    off. *)
Definition empty_queue_instance : lcb_INSTANCE :=
  mk_instance (mk_cmdqueue (Some sample_config) [] None)
    (mk_settings true) true 1000.
Definition empty_queue_plain_instance : lcb_INSTANCE :=
  mk_instance (mk_cmdqueue (Some sample_config) [] None)
    (mk_settings false) true 1000.

(** A cluster without synchronous replication. *)
Definition legacy_instance : lcb_INSTANCE :=
  mk_instance (mk_cmdqueue (Some sample_config) [sample_pipeline] None)
    (mk_settings true) false 1000.

(** A client whose pipeline cannot allocate. *)
Definition starved_instance : lcb_INSTANCE :=
  mk_instance
    (mk_cmdqueue (Some sample_config) [mk_pipeline [] [7] 7 true] None)
    (mk_settings true) true 1000.

(** Key "k", expiry 300, majority durability. *)
Definition sample_durable_cmd : lcb_CMDDURABLE :=
  mk_cmd (mk_cmdbase 300 0 0 [107]) LCB_DURABILITYLEVEL_MAJORITY 0.
Definition sample_plain_cmd : lcb_CMDDURABLE :=
  mk_cmd (mk_cmdbase 300 0 0 [107]) LCB_DURABILITYLEVEL_NONE 0.
Definition sample_empty_key_cmd : lcb_CMDDURABLE :=
  mk_cmd (mk_cmdbase 300 0 0 []) LCB_DURABILITYLEVEL_MAJORITY 0.

(** Scope "app", collection "users". *)
Definition sample_getcid_cmd : lcb_CMDGETCID :=
  mk_cmdgetcid (Some [97; 112; 112]) (Some [117; 115; 101; 114; 115]).
Definition sample_empty_getcid_cmd : lcb_CMDGETCID :=
  mk_cmdgetcid (Some []) None.
(** A scope of 65534 bytes: with the dot and a one-byte collection the path
    has 65536 bytes. *)
Definition long_getcid_cmd : lcb_CMDGETCID :=
  mk_cmdgetcid (Some (repeat 97 (Z.to_nat 65534))) (Some [98]).

(** What the request object of [lcb_touch] may hold on entry. *)
Definition sample_garbage : protocol_binary_request :=
  mk_request (mk_header 255 255 65535 255 255 65535 7 7 7) [170; 187; 204].

(** A response that arrived without error information, and a lookup that
    would find a string if it were asked. *)
Definition sample_resp : lcb_RESPBASE := mk_resp LCB_SUCCESS 0 0 [107] 0.
Definition sample_error_string (_ : lcb_CALLBACK_TYPE) (_ : lcb_RESPBASE)
    : option String.string := Some SampleStrings.cas_mismatch.
Definition sample_out : out_string := (Some SampleStrings.untouched, 9).

(** ** The command and response interface of remove.cc, touch.cc and
    collections.cc

    A setter takes the command and returns its status with the command
    afterwards; an accessor returns its status with the value it stores
    through its out-parameter.  A buffer argument, pointer and length, is the
    list of its bytes.  The span setters and the mutation token accessors
    belong to tracing and to mutation tokens, which are left out. *)

Definition lcb_respremove_status (resp : lcb_RESPREMOVE) : lcb_STATUS := rc resp.
Definition lcb_respremove_cookie (resp : lcb_RESPREMOVE) : lcb_STATUS * Z :=
  (LCB_SUCCESS, resp_cookie resp).
Definition lcb_respremove_cas (resp : lcb_RESPREMOVE) : lcb_STATUS * Z :=
  (LCB_SUCCESS, resp_cas resp).
Definition lcb_respremove_key (resp : lcb_RESPREMOVE) : lcb_STATUS * list byte :=
  (LCB_SUCCESS, resp_key resp).

Definition lcb_resptouch_status (resp : lcb_RESPTOUCH) : lcb_STATUS := rc resp.
Definition lcb_resptouch_cookie (resp : lcb_RESPTOUCH) : lcb_STATUS * Z :=
  (LCB_SUCCESS, resp_cookie resp).
Definition lcb_resptouch_cas (resp : lcb_RESPTOUCH) : lcb_STATUS * Z :=
  (LCB_SUCCESS, resp_cas resp).
Definition lcb_resptouch_key (resp : lcb_RESPTOUCH) : lcb_STATUS * list byte :=
  (LCB_SUCCESS, resp_key resp).

(** What [calloc] hands out: every field zero. *)
Definition cmd_zero : lcb_CMDDURABLE :=
  mk_cmd (mk_cmdbase 0 0 0 []) LCB_DURABILITYLEVEL_NONE 0.

Definition set_cmd_exptime (v : Z) (cmd : lcb_CMDDURABLE) : lcb_CMDDURABLE :=
  mk_cmd (mk_cmdbase (wrap 32 v) (cmd_cas (cmd_base cmd)) (cmd_cid (cmd_base cmd))
            (cmd_key (cmd_base cmd)))
    (dur_level cmd) (dur_timeout cmd).
Definition set_cmd_cas (v : Z) (cmd : lcb_CMDDURABLE) : lcb_CMDDURABLE :=
  mk_cmd (mk_cmdbase (cmd_exptime (cmd_base cmd)) (wrap 64 v) (cmd_cid (cmd_base cmd))
            (cmd_key (cmd_base cmd)))
    (dur_level cmd) (dur_timeout cmd).
Definition set_cmd_cid (v : Z) (cmd : lcb_CMDDURABLE) : lcb_CMDDURABLE :=
  mk_cmd (mk_cmdbase (cmd_exptime (cmd_base cmd)) (cmd_cas (cmd_base cmd)) (wrap 32 v)
            (cmd_key (cmd_base cmd)))
    (dur_level cmd) (dur_timeout cmd).
(** [LCB_CMD_SET_KEY]: the key of the command is the caller's buffer. *)
Definition LCB_CMD_SET_KEY (key : list byte) (cmd : lcb_CMDDURABLE) : lcb_CMDDURABLE :=
  mk_cmd (mk_cmdbase (cmd_exptime (cmd_base cmd)) (cmd_cas (cmd_base cmd))
            (cmd_cid (cmd_base cmd)) key)
    (dur_level cmd) (dur_timeout cmd).

(** [lcb_cmdremove_create] does not look at what [calloc] returned: the
    command is a null pointer when the allocation failed. *)
Definition lcb_cmdremove_create (calloc_ok : bool) : lcb_STATUS * option lcb_CMDREMOVE :=
  (LCB_SUCCESS, if calloc_ok then Some cmd_zero else None).
Definition lcb_cmdremove_destroy (cmd : option lcb_CMDREMOVE) : lcb_STATUS := LCB_SUCCESS.
Definition lcb_cmdremove_timeout (cmd : lcb_CMDREMOVE) (timeout : Z)
    : lcb_STATUS * lcb_CMDREMOVE := (LCB_SUCCESS, cmd).
Definition lcb_cmdremove_collection_id (cmd : lcb_CMDREMOVE) (cid : Z)
    : lcb_STATUS * lcb_CMDREMOVE := (LCB_SUCCESS, set_cmd_cid cid cmd).
Definition lcb_cmdremove_collection (cmd : lcb_CMDREMOVE)
    (scope_name collection_name : option (list byte))
    : lcb_STATUS * lcb_CMDREMOVE := (LCB_SUCCESS, cmd).
Definition lcb_cmdremove_key (cmd : lcb_CMDREMOVE) (key : list byte)
    : lcb_STATUS * lcb_CMDREMOVE := (LCB_SUCCESS, LCB_CMD_SET_KEY key cmd).
Definition lcb_cmdremove_cas (cmd : lcb_CMDREMOVE) (cas : Z)
    : lcb_STATUS * lcb_CMDREMOVE := (LCB_SUCCESS, set_cmd_cas cas cmd).
Definition lcb_cmdremove_durability (cmd : lcb_CMDREMOVE) (level : lcb_DURABILITY_LEVEL)
    : lcb_STATUS * lcb_CMDREMOVE := (LCB_SUCCESS, mk_cmd (cmd_base cmd) level 0).

Definition lcb_cmdtouch_create (calloc_ok : bool) : lcb_STATUS * option lcb_CMDTOUCH :=
  (LCB_SUCCESS, if calloc_ok then Some cmd_zero else None).
Definition lcb_cmdtouch_destroy (cmd : option lcb_CMDTOUCH) : lcb_STATUS := LCB_SUCCESS.
Definition lcb_cmdtouch_timeout (cmd : lcb_CMDTOUCH) (timeout : Z)
    : lcb_STATUS * lcb_CMDTOUCH := (LCB_SUCCESS, cmd).
Definition lcb_cmdtouch_collection_id (cmd : lcb_CMDTOUCH) (cid : Z)
    : lcb_STATUS * lcb_CMDTOUCH := (LCB_SUCCESS, set_cmd_cid cid cmd).
Definition lcb_cmdtouch_collection (cmd : lcb_CMDTOUCH)
    (scope_name collection_name : option (list byte))
    : lcb_STATUS * lcb_CMDTOUCH := (LCB_SUCCESS, cmd).
Definition lcb_cmdtouch_key (cmd : lcb_CMDTOUCH) (key : list byte)
    : lcb_STATUS * lcb_CMDTOUCH := (LCB_SUCCESS, LCB_CMD_SET_KEY key cmd).
Definition lcb_cmdtouch_expiration (cmd : lcb_CMDTOUCH) (expiration : Z)
    : lcb_STATUS * lcb_CMDTOUCH := (LCB_SUCCESS, set_cmd_exptime expiration cmd).
Definition lcb_cmdtouch_durability (cmd : lcb_CMDTOUCH) (level : lcb_DURABILITY_LEVEL)
    : lcb_STATUS * lcb_CMDTOUCH := (LCB_SUCCESS, mk_cmd (cmd_base cmd) level 0).

Definition lcb_cmdgetcid_create (calloc_ok : bool) : lcb_STATUS * option lcb_CMDGETCID :=
  (LCB_SUCCESS, if calloc_ok then Some (mk_cmdgetcid None None) else None).
Definition lcb_cmdgetcid_timeout (cmd : lcb_CMDGETCID) (timeout : Z)
    : lcb_STATUS * lcb_CMDGETCID := (LCB_SUCCESS, cmd).
Definition lcb_cmdgetcid_scope (cmd : lcb_CMDGETCID) (scope_name : option (list byte))
    : lcb_STATUS * lcb_CMDGETCID :=
  (LCB_SUCCESS, mk_cmdgetcid scope_name (collection cmd)).
Definition lcb_cmdgetcid_collection (cmd : lcb_CMDGETCID)
    (collection_name : option (list byte)) : lcb_STATUS * lcb_CMDGETCID :=
  (LCB_SUCCESS, mk_cmdgetcid (scope cmd) collection_name).

(** The pipeline that [mcreq_basic_packet] picks for a server index, as it
    is written out there. *)
Definition basic_packet_target (queue : mc_CMDQUEUE) (srvix options : Z)
    : option pl_ref :=
  if (-1 <? srvix) && (srvix <? npipelines queue)
  then Some (PL_server (Z.to_nat srvix))
  else if negb (Z.land options MCREQ_BASICPACKET_F_FALLBACKOK =? 0)
          && negb (is_null (fallback queue))
       then Some PL_fallback
       else None.

(** The frame length that [lcb_remove] and [lcb_touch] settle on. *)
Definition ffextlen_of (cmd : lcb_CMDDURABLE) : Z :=
  if durability_requested cmd then 4 else 0.

(** The bytes of a request as the four builders lay them out, field by field
    in the order of the fixed header (spec 6): magic, opcode, key length,
    extras length, data type, vbucket, total body length, opaque, CAS; then
    the frame, the extras and the key area.  The lengths are those of the
    sections that follow the header. *)
Definition request_wire (opcode vb : Z) (opaque_field : list byte) (cas : Z)
    (frame extras keyarea : list byte) : list byte :=
  [PROTOCOL_BINARY_REQ; opcode]
  ++ be_bytes 2 (Z.of_nat (length keyarea))
  ++ [Z.of_nat (length extras); PROTOCOL_BINARY_RAW_BYTES]
  ++ be_bytes 2 vb
  ++ be_bytes 4 (Z.of_nat (length frame + length extras + length keyarea))
  ++ opaque_field
  ++ be_bytes 8 cas
  ++ frame ++ extras ++ keyarea.

(** The frame of a command: the durability frame when a level is asked for. *)
Definition frame_of (cmd : lcb_CMDDURABLE) : list byte :=
  if durability_requested cmd
  then durability_frame (dur_level cmd) (dur_timeout cmd) else [].

(** The instance after one allocation on a pipeline and one packet scheduled
    there: that pipeline has the packet last, every other pipeline and the
    rest of the instance are as before. *)
Definition one_packet_added (before after : lcb_INSTANCE) (pl : pl_ref)
    (pkt : mc_PACKET) : Prop :=
  queued_on (cmdq after) pl = queued_on (cmdq before) pl ++ [pkt] /\
  (forall r, r <> pl -> pl_get (cmdq after) r = pl_get (cmdq before) r) /\
  config (cmdq after) = config (cmdq before) /\
  length (pipelines (cmdq after)) = length (pipelines (cmdq before)) /\
  settings after = settings before /\
  supports_syncreplication after = supports_syncreplication before /\
  hrtime after = hrtime before.


(** The length fields of a request buffer agree with the buffer: the body
    length is what follows the header, the key length is what follows the
    header and the extras the packet accounts for. *)
Definition self_describing (pkt : mc_PACKET) : Prop :=
  be_val (span 8 4 (kh_span pkt))
  = Z.of_nat (length (kh_span pkt)) - sizeof_header /\
  be_val (span 2 2 (kh_span pkt))
  = Z.of_nat (length (kh_span pkt)) - sizeof_header - pkt_extlen pkt.


(** ** Commands as a client builds them

    A client creates a command and calls setters on it, in any order and any
    number of times, before it passes the command to [lcb_remove] or
    [lcb_touch].  A call is named by its setter and arguments; the parent
    span setters belong to tracing. *)
Inductive cmdremove_call : Type :=
| Remove_timeout (timeout : Z)
| Remove_collection_id (cid : Z)
| Remove_collection (scope_name collection_name : option (list byte))
| Remove_key (key : list byte)
| Remove_cas (cas : Z)
| Remove_durability (level : lcb_DURABILITY_LEVEL).

Definition cmdremove_call_run (cmd : lcb_CMDREMOVE) (c : cmdremove_call)
    : lcb_CMDREMOVE :=
  snd match c with
      | Remove_timeout timeout => lcb_cmdremove_timeout cmd timeout
      | Remove_collection_id cid => lcb_cmdremove_collection_id cmd cid
      | Remove_collection s c => lcb_cmdremove_collection cmd s c
      | Remove_key key => lcb_cmdremove_key cmd key
      | Remove_cas cas => lcb_cmdremove_cas cmd cas
      | Remove_durability level => lcb_cmdremove_durability cmd level
      end.

(** The command after [lcb_cmdremove_create] and the calls, in order. *)
Definition cmdremove_built (calls : list cmdremove_call) : lcb_CMDREMOVE :=
  fold_left cmdremove_call_run calls cmd_zero.

Inductive cmdtouch_call : Type :=
| Touch_timeout (timeout : Z)
| Touch_collection_id (cid : Z)
| Touch_collection (scope_name collection_name : option (list byte))
| Touch_key (key : list byte)
| Touch_expiration (expiration : Z)
| Touch_durability (level : lcb_DURABILITY_LEVEL).

Definition cmdtouch_call_run (cmd : lcb_CMDTOUCH) (c : cmdtouch_call)
    : lcb_CMDTOUCH :=
  snd match c with
      | Touch_timeout timeout => lcb_cmdtouch_timeout cmd timeout
      | Touch_collection_id cid => lcb_cmdtouch_collection_id cmd cid
      | Touch_collection s c => lcb_cmdtouch_collection cmd s c
      | Touch_key key => lcb_cmdtouch_key cmd key
      | Touch_expiration expiration => lcb_cmdtouch_expiration cmd expiration
      | Touch_durability level => lcb_cmdtouch_durability cmd level
      end.

(** The command after [lcb_cmdtouch_create] and the calls, in order. *)
Definition cmdtouch_built (calls : list cmdtouch_call) : lcb_CMDTOUCH :=
  fold_left cmdtouch_call_run calls cmd_zero.

(** Key "k", then majority durability, then CAS 5 or expiry 300. *)
Definition sample_remove_calls : list cmdremove_call :=
  [Remove_key [107]; Remove_durability LCB_DURABILITYLEVEL_MAJORITY; Remove_cas 5].
Definition sample_touch_calls : list cmdtouch_call :=
  [Touch_key [107]; Touch_durability LCB_DURABILITYLEVEL_MAJORITY;
   Touch_expiration 300].
(** Calls that never give a key. *)
Definition keyless_remove_calls : list cmdremove_call :=
  [Remove_durability LCB_DURABILITYLEVEL_MAJORITY; Remove_cas 5; Remove_key []].
Definition keyless_touch_calls : list cmdtouch_call :=
  [Touch_expiration 300; Touch_collection_id 8].


(** ** tests/iotests/t_smoke.cc

    The smoke tests pass the address of an [rvbuf] as the cookie of each
    request; the callbacks find it again through the response.  The test
    state holds the [rvbuf]s by address, the number of expectations
    ([EXPECT_GT], [EXPECT_EQ]) that have failed, and the number of lines
    written to the standard error stream. *)

(** The status and the store operation that the file names and the status
    type above does not list. *)
Variable LCB_ERR_TIMEOUT : lcb_STATUS.
Variable LCB_STORE_UPSERT : Z.

(** A [w]-bit two's complement integer.  Overflow of an [int32_t] is
    undefined in the source; the properties below keep the counter in
    range. *)
Definition swrap (bits x : Z) : Z :=
  (x + 2 ^ (bits - 1)) mod 2 ^ bits - 2 ^ (bits - 1).

Record rvbuf : Type := mk_rvbuf {
  rv_error : lcb_STATUS;
  rv_operation : Z;
  rv_bytes : list byte;
  rv_key : list byte;
  rv_cas : Z;
  rv_flags : Z;
  rv_counter : Z;
  rv_errorCount : Z
}.

Definition rvbuf_reset (rv : rvbuf) : rvbuf :=
  mk_rvbuf LCB_SUCCESS LCB_STORE_UPSERT [] [] 0 0 0 0%Z.

(** [setKey] at a touch response. *)
Definition rvbuf_setKey (resp : lcb_RESPTOUCH) (rv : rvbuf) : rvbuf :=
  let ktmp := snd (lcb_resptouch_key resp) in
  mk_rvbuf (rv_error rv) (rv_operation rv) (rv_bytes rv) ktmp (rv_cas rv)
    (rv_flags rv) (rv_counter rv) (rv_errorCount rv).

(** [setError]: whether the expectation [EXPECT_GT(counter, 0)] held, and the
    [rvbuf] afterwards. *)
Definition rvbuf_setError (err : lcb_STATUS) (rv : rvbuf) : bool * rvbuf :=
  let expect_gt := 0 <? rv_counter rv in
  let counter := swrap 32 (rv_counter rv - 1) in
  if negb (lcb_STATUS_eqb err LCB_SUCCESS)
  then (expect_gt,
        mk_rvbuf err (rv_operation rv) (rv_bytes rv) (rv_key rv) (rv_cas rv)
          (rv_flags rv) counter (wrap 32 (rv_errorCount rv + 1)))
  else (expect_gt,
        mk_rvbuf (rv_error rv) (rv_operation rv) (rv_bytes rv) (rv_key rv)
          (rv_cas rv) (rv_flags rv) counter (rv_errorCount rv)).

Definition rvbuf_incRemaining (rv : rvbuf) : rvbuf :=
  mk_rvbuf (rv_error rv) (rv_operation rv) (rv_bytes rv) (rv_key rv) (rv_cas rv)
    (rv_flags rv) (swrap 32 (rv_counter rv + 1)) (rv_errorCount rv).

Record smoke_state : Type := mk_smoke {
  rvbufs : Z -> rvbuf;
  failed_expectations : nat;
  stderr_lines : nat
}.

Definition expectation (holds : bool) (failed : nat) : nat :=
  if holds then failed else S failed.

Definition touch_callback (resp : lcb_RESPTOUCH) (st : smoke_state) : smoke_state :=
  let rv := snd (lcb_resptouch_cookie resp) in
  let rc := lcb_resptouch_status resp in
  let '(expect_gt, buf) := rvbuf_setError rc (rvbufs st rv) in
  let failed := expectation expect_gt (failed_expectations st) in
  let buf := rvbuf_setKey resp buf in
  let lines :=
    if lcb_STATUS_eqb rc LCB_ERR_TIMEOUT then S (stderr_lines st)
    else stderr_lines st in
  let failed := expectation (lcb_STATUS_eqb LCB_SUCCESS rc) failed in
  mk_smoke (fun a => if a =? rv then buf else rvbufs st a) failed lines.

(** The responses of a run that did not succeed, and the callbacks of a run
    one after the other. *)
Definition failed_responses (resps : list lcb_RESPTOUCH) : list lcb_RESPTOUCH :=
  filter (fun r => negb (lcb_STATUS_eqb (rc r) LCB_SUCCESS)) resps.
Definition touch_callbacks (resps : list lcb_RESPTOUCH) (st : smoke_state)
    : smoke_state :=
  fold_left (fun s r => touch_callback r s) resps st.

(** A test with three requests outstanding on the [rvbuf] at address 64, and
    the three responses: for "a", for "b" with a failure, for "c". *)
Definition sample_smoke_state : smoke_state :=
  mk_smoke (fun _ => mk_rvbuf LCB_SUCCESS 0 [] [] 0 0 3 0) 0 0%nat.
Definition sample_responses : list lcb_RESPTOUCH :=
  [mk_resp LCB_SUCCESS 0 64 [97] 1; mk_resp LCB_KEY_ENOENT 0 64 [98] 0;
   mk_resp LCB_SUCCESS 0 64 [99] 2].


(** ** couchbase/src/io/utils.c

    [wrapped_vsnprintf] formats into the caller's buffer and falls back to
    buffers from the heap.  What the C library does is taken as given:
    [vsnprintf n ptr size] is what the call number [n] of [vsnprintf] returns
    when it is handed the buffer [ptr] and the size [size] (the source passes
    the same [va_list] to every call, so nothing is assumed to relate the
    results of two calls); [malloc size] and [realloc n ptr size] are the
    pointers the allocator returns, 0 for [NULL].  The member [out_size] is a
    [char]: [char_is_signed] tells whether [char] is signed, and a value
    stored into it is reduced modulo 256 into its range, as compilers do.
    [size_t] has [size_bits] bits.  A run is the list of the calls into the C
    library, in order, and the return value with the buffer descriptor if
    the function returns. *)
Variable char_is_signed : bool.
Variable size_bits : Z.
Variable vsnprintf : nat -> Z -> Z -> Z.
Variable malloc : Z -> Z.
Variable realloc : nat -> Z -> Z -> Z.

Record print_buf : Type := mk_print_buf {
  in_ptr : Z;
  in_size : Z;
  out_ptr : Z;
  out_size : Z;
  need_free : Z
}.

Definition to_char (x : Z) : Z := if char_is_signed then swrap 8 x else wrap 8 x.
Definition to_size_t (x : Z) : Z := wrap size_bits x.

Definition set_out_ptr (v : Z) (buf : print_buf) : print_buf :=
  mk_print_buf (in_ptr buf) (in_size buf) v (out_size buf) (need_free buf).
Definition set_out_size (v : Z) (buf : print_buf) : print_buf :=
  mk_print_buf (in_ptr buf) (in_size buf) (out_ptr buf) (to_char v) (need_free buf).
Definition set_need_free (v : Z) (buf : print_buf) : print_buf :=
  mk_print_buf (in_ptr buf) (in_size buf) (out_ptr buf) (out_size buf) v.

Inductive libc_call : Type :=
| Vsnprintf (ptr size : Z)
| Malloc (size : Z)
| Realloc (ptr size : Z)
| Free (ptr : Z).

Definition run : Type := list libc_call * option (Z * print_buf).

(** The [do ... while (1)] loop, entered for the call number [n] of
    [vsnprintf]; [fuel] bounds the number of iterations. *)
Fixpoint wrapped_vsnprintf_loop (fuel n : nat) (buf : print_buf)
    (calls : list libc_call) : run :=
  match fuel with
  | O => (calls, None)
  | S fuel =>
      let rc := vsnprintf n (out_ptr buf) (to_size_t (out_size buf)) in
      let calls := calls ++ [Vsnprintf (out_ptr buf) (to_size_t (out_size buf))] in
      if rc <? 0 then
        let calls := calls ++ [Free (out_ptr buf)] in
        let buf := set_out_ptr 0 buf in
        let buf := set_out_size 0 buf in
        (calls, Some (rc, buf))
      else if rc <? out_size buf then
        let buf := set_need_free 1 buf in
        (calls, Some (rc, buf))
      else
        let buf := set_out_size (out_size buf * 2) buf in
        let new_ptr := realloc n (out_ptr buf) (to_size_t (out_size buf)) in
        let calls := calls ++ [Realloc (out_ptr buf) (to_size_t (out_size buf))] in
        if new_ptr =? 0 then
          let calls := calls ++ [Free (out_ptr buf)] in
          let buf := set_out_ptr 0 buf in
          let buf := set_out_size 0 buf in
          (calls, Some (-1, buf))
        else
          let buf := set_out_ptr new_ptr buf in
          wrapped_vsnprintf_loop fuel (S n) buf calls
  end.

Definition wrapped_vsnprintf (fuel : nat) (buf : print_buf) : run :=
  let buf := set_out_ptr (in_ptr buf) buf in
  let buf := set_out_size (in_size buf) buf in
  let buf := set_need_free 0 buf in
  let rc := vsnprintf 0 (out_ptr buf) (to_size_t (out_size buf)) in
  let calls := [Vsnprintf (out_ptr buf) (to_size_t (out_size buf))] in
  if rc <? 0 then
    let buf := set_out_ptr 0 buf in
    let buf := set_out_size 0 buf in
    (calls, Some (rc, buf))
  else if rc <? out_size buf then (calls, Some (rc, buf))
  else
    let buf := set_out_size (to_size_t (in_size buf * 2)) buf in
    let buf := set_out_ptr (malloc (to_size_t (out_size buf))) buf in
    let calls := calls ++ [Malloc (to_size_t (out_size buf))] in
    if out_ptr buf =? 0 then
      let buf := set_out_size 0 buf in
      (calls, Some (-1, buf))
    else wrapped_vsnprintf_loop fuel 1 buf calls.

(** The largest value of a [char]. *)
Definition CHAR_MAX : Z := if char_is_signed then 127 else 255.

(** A C library for the samples: the formatted text has [len] characters,
    and the allocator hands out the address 4096, or fails. *)
Definition sample_vsnprintf (len : Z) (_ : nat) (_ _ : Z) : Z := len.
Definition sample_malloc (_ : Z) : Z := 4096.
Definition sample_realloc (_ : nat) (_ _ : Z) : Z := 4096.
Definition failing_realloc (_ : nat) (_ _ : Z) : Z := 0.
(** A caller's buffer of 100 bytes at address 512, one of 200 bytes. *)
Definition sample_print_buf : print_buf := mk_print_buf 512 100 0 0 0.
Definition wide_print_buf : print_buf := mk_print_buf 512 200 0 0 0.


(** ** tests/iotests/mock-environment.cc

    [statsCallback] reads the version of a real cluster off the "version"
    statistic.  The versions are the enumerators the file names.  A response
    has the status of its context, the cookie, the server (null or a name),
    the key and the value.  What the callback does to the world is the list
    of its effects, in order: an [ASSERT_EQ] that failed (which ends the
    callback), with the status it reports; the call of [setServerVersion]
    on the environment the cookie points to; and the lines it logs, each
    with the arguments its format is given: the precision [(int)nvalue] and
    the value for ["%.*s"], and for the second line the version for
    ["%d"].  The conversion of [nvalue] to [int] keeps the low 32 bits. *)
Inductive ServerVersion : Type :=
| VERSION_UNKNOWN
| VERSION_40
| VERSION_41
| VERSION_45
| VERSION_46
| VERSION_50
| VERSION_55
| VERSION_60
| VERSION_65
| VERSION_70.

Record lcb_RESPSTATS : Type := mk_respstats {
  stats_rc : lcb_STATUS;
  stats_cookie : Z;
  stats_server : option (list byte);
  stats_key : list byte;
  stats_value : list byte
}.

Inductive stats_effect : Type :=
| Assertion_failed (rc : lcb_STATUS)
| Set_server_version (me : Z) (version : ServerVersion)
| Log_error (precision : Z) (value : list byte)
| Log_info (precision : Z) (value : list byte) (version : ServerVersion).

(** "version" *)
Definition STAT_VERSION : list byte := [118; 101; 114; 115; 105; 111; 110].

(** [memcmp(a, b, n) != 0] *)
Fixpoint memcmp_differs (a b : list byte) (n : nat) : bool :=
  match n, a, b with
  | O, _, _ => false
  | S n, x :: a, y :: b => negb (x =? y) || memcmp_differs a b n
  | S _, _, _ => true
  end.

(** The two nested [switch] statements. *)
Definition version_of (major minor : Z) : ServerVersion :=
  if major =? 4 then
    if minor =? 0 then VERSION_40
    else if minor =? 1 then VERSION_41
    else if minor =? 5 then VERSION_45
    else if minor =? 6 then VERSION_46
    else VERSION_UNKNOWN
  else if major =? 5 then
    if minor =? 0 then VERSION_50
    else if minor =? 5 then VERSION_55
    else VERSION_UNKNOWN
  else if major =? 6 then
    if minor =? 0 then VERSION_60
    else if minor =? 5 then VERSION_65
    else if minor =? 6 then VERSION_65
    else VERSION_UNKNOWN
  else if major =? 7 then VERSION_70
  else VERSION_UNKNOWN.

Definition statsCallback (resp : lcb_RESPSTATS) : list stats_effect :=
  let me := stats_cookie resp in
  if negb (lcb_STATUS_eqb LCB_SUCCESS (stats_rc resp))
  then [Assertion_failed (stats_rc resp)]
  else if is_null (stats_server resp) then []
  else if Z.of_nat (length (stats_key resp)) =? 0 then []
  else if negb (Z.of_nat (length (stats_key resp)) =? 8 - 1)
          || memcmp_differs (stats_key resp) STAT_VERSION (Z.to_nat (8 - 1))
  then []
  else
    let version :=
      if 2 <? Z.of_nat (length (stats_value resp)) then
        let major := to_char (nth 0 (stats_value resp) 0) - 48 in
        let minor := to_char (nth 2 (stats_value resp) 0) - 48 in
        version_of major minor
      else VERSION_UNKNOWN in
    let precision := swrap 32 (Z.of_nat (length (stats_value resp))) in
    match version with
    | VERSION_UNKNOWN =>
        [Log_error precision (stats_value resp);
         Set_server_version me VERSION_40;
         Log_info precision (stats_value resp) VERSION_40]
    | _ =>
        [Set_server_version me version;
         Log_info precision (stats_value resp) version]
    end.

(** The calls of [setServerVersion] among the effects: the environment and
    the version of each, in order. *)
Fixpoint versions_set (effects : list stats_effect) : list (Z * ServerVersion) :=
  match effects with
  | [] => []
  | Set_server_version me version :: rest => (me, version) :: versions_set rest
  | _ :: rest => versions_set rest
  end.

(** The statistic "version" = "6.6.0" from the server "n1", for the
    environment at address 32; the same with the value "6x6". *)
Definition sample_stats : lcb_RESPSTATS :=
  mk_respstats LCB_SUCCESS 32 (Some [110; 49]) STAT_VERSION [54; 46; 54; 46; 48].
Definition sample_stats_short : lcb_RESPSTATS :=
  mk_respstats LCB_SUCCESS 32 (Some [110; 49]) STAT_VERSION [54; 120; 54].


(** A caller's buffer of 50 bytes at address 512. *)
Definition small_print_buf : print_buf := mk_print_buf 512 50 0 0 0.


(** ** A client at work

    A client calls the four operations one after the other on its instance,
    whatever they return. *)
Inductive operation : Type :=
| Op_remove (cookie : Z) (cmd : lcb_CMDREMOVE)
| Op_touch (cookie : Z) (cmd : lcb_CMDTOUCH)
| Op_getcid (cookie : Z) (cmd : lcb_CMDGETCID)
| Op_getmanifest (cookie : Z) (cmd : lcb_CMDGETMANIFEST).

Definition operation_run (instance : lcb_INSTANCE) (op : operation)
    : lcb_STATUS * lcb_INSTANCE :=
  match op with
  | Op_remove cookie cmd => lcb_remove instance cookie cmd
  | Op_touch cookie cmd => lcb_touch instance cookie cmd
  | Op_getcid cookie cmd => lcb_getcid instance cookie cmd
  | Op_getmanifest cookie cmd => lcb_getmanifest instance cookie cmd
  end.

Definition operations_run (instance : lcb_INSTANCE) (ops : list operation)
    : lcb_INSTANCE :=
  fold_left (fun i op => snd (operation_run i op)) ops instance.

(** A remove that is turned down for its empty key between two requests
    that go through. *)
Definition sample_operations : list operation :=
  [Op_touch 77 sample_plain_cmd; Op_remove 78 sample_empty_key_cmd;
   Op_getcid 79 sample_getcid_cmd].


(** The predicate "every element is a byte value". *)
Definition bytes_ok (bs : list byte) : Prop := Forall (fun b => 0 <= b < 256) bs.

(** * Properties *)

(** ** Byte order *)

Lemma le_bytes_length (n : nat) (x : Z) : length (le_bytes n x) = n.
Proof.
  revert x; induction n as [|n IH]; intros x; simpl; [reflexivity|].
  now rewrite IH.
Qed.

Lemma be_bytes_length (n : nat) (x : Z) : length (be_bytes n x) = n.
Proof. unfold be_bytes. now rewrite length_rev, le_bytes_length. Qed.

Lemma le_bytes_ok (n : nat) (x : Z) : bytes_ok (le_bytes n x).
Proof.
  revert x; induction n as [|n IH]; intros x; simpl; constructor.
  - apply Z.mod_pos_bound; lia.
  - apply IH.
Qed.

Lemma be_bytes_ok (n : nat) (x : Z) : bytes_ok (be_bytes n x).
Proof. apply Forall_rev, le_bytes_ok. Qed.

Lemma le_val_le_bytes (n : nat) (x : Z) :
  le_val (le_bytes n x) = x mod 256 ^ Z.of_nat n.
Proof.
  revert x; induction n as [|n IH]; intros x.
  - simpl. now rewrite Z.mod_1_r.
  - cbn [le_bytes le_val]. rewrite IH, Nat2Z.inj_succ, Z.pow_succ_r by lia.
    rewrite Z.rem_mul_r; [reflexivity | lia | apply Z.pow_pos_nonneg; lia].
Qed.

Lemma le_bytes_le_val (bs : list byte) :
  bytes_ok bs -> le_bytes (length bs) (le_val bs) = bs.
Proof.
  induction 1 as [|b bs Hb _ IH]; [reflexivity|].
  cbn [length le_bytes le_val].
  replace (b + 256 * le_val bs) with (b + le_val bs * 256) by lia.
  rewrite Z.mod_add, Z.div_add by lia.
  rewrite Z.mod_small, Z.div_small by lia. simpl. now rewrite IH.
Qed.

Lemma be_val_be_bytes (n : nat) (x : Z) :
  be_val (be_bytes n x) = x mod 256 ^ Z.of_nat n.
Proof. unfold be_val, be_bytes. rewrite rev_involutive. apply le_val_le_bytes. Qed.

Lemma le_bytes_mod (n : nat) (x : Z) :
  le_bytes n (x mod 256 ^ Z.of_nat n) = le_bytes n x.
Proof.
  rewrite <- le_val_le_bytes.
  rewrite <- (le_bytes_length n x) at 1.
  apply le_bytes_le_val, le_bytes_ok.
Qed.

(** ** Buffers *)

Lemma span_firstn (off len n : nat) (l : list byte) :
  (off + len <= n)%nat -> span off len (firstn n l) = span off len l.
Proof.
  intros H. unfold span. rewrite skipn_firstn_comm, firstn_firstn.
  now replace (Nat.min len (n - off)) with len by lia.
Qed.

Lemma span_app_l (off len : nat) (a b : list byte) :
  (off + len <= length a)%nat -> span off len (a ++ b) = span off len a.
Proof.
  intros H. unfold span. rewrite skipn_app, firstn_app, length_skipn.
  replace (len - (length a - off))%nat with O by lia.
  now rewrite firstn_O, app_nil_r.
Qed.

Lemma span_memcpy (off len n : nat) (dst src : list byte) :
  (off + len <= n)%nat -> (off + len <= length src)%nat ->
  span off len (memcpy dst src n) = span off len src.
Proof.
  intros Hn Hs. unfold memcpy. rewrite span_app_l.
  - now apply span_firstn.
  - rewrite length_firstn. lia.
Qed.

Lemma list_set_length {A : Type} (l : list A) (i : nat) (x : A) :
  length (list_set l i x) = length l.
Proof.
  revert i; induction l as [|h t IH]; intros [|i]; simpl; auto.
Qed.

Lemma nth_error_list_set {A : Type} (l : list A) (i : nat) (x y : A) :
  nth_error l i = Some y -> nth_error (list_set l i x) i = Some x.
Proof.
  revert i; induction l as [|h t IH]; intros [|i]; simpl; try discriminate; auto.
Qed.

Lemma pl_get_pl_set (cq : mc_CMDQUEUE) (r : pl_ref) (p p' : mc_PIPELINE) :
  pl_get cq r = Some p -> pl_get (pl_set cq r p') r = Some p'.
Proof.
  destruct r as [ix|]; simpl.
  - apply nth_error_list_set.
  - now intros ->.
Qed.

Lemma queued_on_sched_add (instance : lcb_INSTANCE) (r : pl_ref)
    (p : mc_PIPELINE) (pkt : mc_PACKET) :
  pl_get (cmdq instance) r = Some p ->
  queued_on (cmdq (LCB_SCHED_ADD instance r pkt)) r = ctxqueued p ++ [pkt].
Proof.
  intros H. unfold LCB_SCHED_ADD, queued_on. rewrite H. simpl.
  now rewrite (pl_get_pl_set _ _ _ _ H).
Qed.

Lemma allocate_keeps_queue (pl pl' : mc_PIPELINE) (pkt : mc_PACKET) :
  mcreq_allocate_packet pl = Some (pkt, pl') -> ctxqueued pl' = ctxqueued pl.
Proof.
  unfold mcreq_allocate_packet. destruct (pool_exhausted pl); [discriminate|].
  intros H; inversion H; reflexivity.
Qed.
(** ** Objects in memory *)

Lemma host_bytes_length (n : nat) (x : Z) : length (host_bytes n x) = n.
Proof.
  unfold host_bytes. destruct host_little_endian;
    [apply le_bytes_length | apply be_bytes_length].
Qed.

Lemma host_bytes_host_val (bs : list byte) :
  bytes_ok bs -> host_bytes (length bs) (host_val bs) = bs.
Proof.
  intros H. unfold host_bytes, host_val. destruct host_little_endian.
  - now apply le_bytes_le_val.
  - unfold be_bytes, be_val. rewrite <- (length_rev bs).
    rewrite le_bytes_le_val by now apply Forall_rev.
    apply rev_involutive.
Qed.

Lemma host_bytes_mod (n : nat) (x : Z) :
  host_bytes n (x mod 256 ^ Z.of_nat n) = host_bytes n x.
Proof.
  unfold host_bytes, be_bytes. now rewrite le_bytes_mod.
Qed.

Lemma host_bytes_wrap (n : nat) (x : Z) :
  host_bytes n (wrap (8 * Z.of_nat n) x) = host_bytes n x.
Proof.
  unfold wrap. rewrite Z.pow_mul_r by lia. apply host_bytes_mod.
Qed.

(** What [htons], [htonl] and [ntohs] leave in memory is the argument in
    network order, whatever the byte order of the host. *)
Lemma host_bytes_htons (x : Z) : host_bytes 2 (htons x) = be_bytes 2 x.
Proof.
  unfold htons. rewrite <- (be_bytes_length 2 x) at 1.
  apply host_bytes_host_val, be_bytes_ok.
Qed.

Lemma host_bytes_htonl (x : Z) : host_bytes 4 (htonl x) = be_bytes 4 x.
Proof.
  unfold htonl. rewrite <- (be_bytes_length 4 x) at 1.
  apply host_bytes_host_val, be_bytes_ok.
Qed.

Lemma host_bytes_ntohs (x : Z) : host_bytes 2 (ntohs x) = be_bytes 2 x.
Proof.
  unfold ntohs, host_bytes. destruct host_little_endian.
  - unfold be_val. rewrite <- (le_bytes_length 2 x) at 1.
    rewrite <- length_rev. apply le_bytes_le_val, Forall_rev, le_bytes_ok.
  - rewrite be_val_be_bytes. unfold be_bytes. now rewrite le_bytes_mod.
Qed.

(** ** Layout of the header *)

Lemma hdr_bytes_length (h : protocol_binary_request_header) :
  length (hdr_bytes h) = 24%nat.
Proof.
  unfold hdr_bytes. repeat rewrite length_app. now rewrite !host_bytes_length.
Qed.

Lemma hdr_bytes_magic (h : protocol_binary_request_header) :
  span 0 1 (hdr_bytes h) = host_bytes 1 (request_magic h).
Proof. unfold hdr_bytes, host_bytes. now destruct host_little_endian. Qed.

Lemma hdr_bytes_keylen (h : protocol_binary_request_header) :
  span 2 2 (hdr_bytes h) = host_bytes 2 (request_keylen h).
Proof. unfold hdr_bytes, host_bytes. now destruct host_little_endian. Qed.

Lemma hdr_bytes_bodylen (h : protocol_binary_request_header) :
  span 8 4 (hdr_bytes h) = host_bytes 4 (request_bodylen h).
Proof. unfold hdr_bytes, host_bytes. now destruct host_little_endian. Qed.

Lemma hdr_bytes_opaque (h : protocol_binary_request_header) :
  span 12 4 (hdr_bytes h) = host_bytes 4 (request_opaque h).
Proof. unfold hdr_bytes, host_bytes. now destruct host_little_endian. Qed.

(** A span inside the header of a request does not see the body. *)
Lemma span_request_header (off len : nat) (r : protocol_binary_request) :
  (off + len <= 24)%nat ->
  span off len (request_bytes r) = span off len (hdr_bytes (message_header r)).
Proof.
  intros H. unfold request_bytes. apply span_app_l.
  rewrite hdr_bytes_length. exact H.
Qed.

(** The bytes of a request behind its header are those of the body. *)
Lemma span_request_body (len : nat) (r : protocol_binary_request) :
  span 24 len (request_bytes r) = firstn len (message_body r).
Proof.
  unfold span, request_bytes. rewrite skipn_app, hdr_bytes_length.
  rewrite skipn_all2 by (rewrite hdr_bytes_length; lia).
  reflexivity.
Qed.
(** ** The packet helpers *)

Lemma basic_packet_fail (st : lcb_settings) (cq : mc_CMDQUEUE) (cmd : lcb_CMDBASE)
    (req : protocol_binary_request_header) (extlen ffextlen options : Z)
    (err : lcb_STATUS) :
  mcreq_basic_packet st cq cmd req extlen ffextlen options = BP_fail err ->
  err <> LCB_SUCCESS.
Proof.
  unfold mcreq_basic_packet.
  destruct (config cq) as [cfg|]; [|intros H; inversion H; discriminate].
  destruct (lcbvb_map_key cfg (cmd_key cmd)) as [vb srvix].
  match goal with
  | |- context [match ?t with Some _ => _ | None => _ end] => destruct t as [r|]
  end; [|intros H; inversion H; discriminate].
  destruct (pl_get cq r) as [p|]; [|intros H; inversion H; discriminate].
  destruct (mcreq_allocate_packet p) as [[pkt p']|]; intros H; inversion H;
    discriminate.
Qed.

Lemma basic_packet_ok (st : lcb_settings) (cq cq' : mc_CMDQUEUE) (cmd : lcb_CMDBASE)
    (req hdr : protocol_binary_request_header) (extlen ffextlen options : Z)
    (pkt : mc_PACKET) (pl : pl_ref) :
  mcreq_basic_packet st cq cmd req extlen ffextlen options = BP_ok hdr pkt pl cq' ->
  exists p pkt0 p',
    pl_get cq pl = Some p /\
    mcreq_allocate_packet p = Some (pkt0, p') /\
    cq' = pl_set cq pl p' /\
    pkt = mcreq_reserve_key st pkt0 (sizeof_header + extlen + ffextlen)
            (cmd_key cmd) (cmd_cid cmd) /\
    request_extlen hdr = wrap 8 extlen.
Proof.
  unfold mcreq_basic_packet.
  destruct (config cq) as [cfg|]; [|discriminate].
  destruct (lcbvb_map_key cfg (cmd_key cmd)) as [vb srvix].
  match goal with
  | |- context [match ?t with Some _ => _ | None => _ end] => destruct t as [r|]
  end; [|discriminate].
  destruct (pl_get cq r) as [p|] eqn:Hp; [|discriminate].
  destruct (mcreq_allocate_packet p) as [[pkt0 p']|] eqn:Ha; [|discriminate].
  intros H; inversion H; subst. exists p, pkt0, p'. repeat split; auto.
Qed.

(** A packet scheduled on the pipeline that [mcreq_basic_packet] chose comes
    right behind the packets that were scheduled there before the call. *)
Lemma sched_after_basic_packet (instance : lcb_INSTANCE) (cq' : mc_CMDQUEUE)
    (cmd : lcb_CMDBASE) (req hdr : protocol_binary_request_header)
    (extlen ffextlen options : Z) (pkt pkt' : mc_PACKET) (pl : pl_ref) :
  mcreq_basic_packet (settings instance) (cmdq instance) cmd req extlen ffextlen
    options = BP_ok hdr pkt pl cq' ->
  queued_on (cmdq (LCB_SCHED_ADD (with_cmdq cq' instance) pl pkt')) pl
  = queued_on (cmdq instance) pl ++ [pkt'].
Proof.
  intros H. apply basic_packet_ok in H as (p & pkt0 & p' & Hp & Ha & -> & _ & _).
  rewrite (queued_on_sched_add _ _ p').
  - unfold queued_on. rewrite Hp. now rewrite (allocate_keeps_queue _ _ _ Ha).
  - simpl. now apply pl_get_pl_set with (p := p).
Qed.

Lemma allocate_flags (pl pl' : mc_PIPELINE) (pkt : mc_PACKET) :
  mcreq_allocate_packet pl = Some (pkt, pl') -> pkt_flags pkt = 0.
Proof.
  unfold mcreq_allocate_packet. destruct (pool_exhausted pl); [discriminate|].
  intros H; inversion H; reflexivity.
Qed.

Lemma MCREQ_F_NOCID_nonzero : MCREQ_F_NOCID <> 0.
Proof.
  unfold MCREQ_F_NOCID. rewrite Z.shiftl_1_l.
  apply Z.pow_nonzero; lia.
Qed.

Lemma land_lor_same (a m : Z) : Z.land (Z.lor a m) m = m.
Proof.
  apply Z.bits_inj'. intros n Hn.
  rewrite Z.land_spec, Z.lor_spec.
  destruct (Z.testbit a n), (Z.testbit m n); reflexivity.
Qed.
(** ** Rejections at scheduling time *)

(** Case analysis along the guards of a builder. *)
Ltac guards :=
  repeat match goal with
  | |- context [if ?c then _ else _] => destruct c eqn:?
  | |- context [match mcreq_basic_packet ?a ?b ?c ?d ?e ?f ?g with _ => _ end] =>
      destruct (mcreq_basic_packet a b c d e f g) eqn:?
  | |- context [match mcreq_allocate_packet ?p with _ => _ end] =>
      destruct (mcreq_allocate_packet p) as [[? ?]|] eqn:?
  | |- context [match pipelines ?q with _ => _ end] =>
      destruct (pipelines q) eqn:?
  end.

Lemma lcb_remove_failure (instance : lcb_INSTANCE) (cookie : Z) (cmd : lcb_CMDREMOVE) :
  fst (lcb_remove instance cookie cmd) <> LCB_SUCCESS ->
  snd (lcb_remove instance cookie cmd) = instance.
Proof.
  unfold lcb_remove, LCBT_SUPPORT_SYNCREPLICATION.
  guards; simpl; intros H; try reflexivity; now elim H.
Qed.

Lemma lcb_touch_failure (instance : lcb_INSTANCE) (cookie : Z) (cmd : lcb_CMDTOUCH) :
  fst (lcb_touch instance cookie cmd) <> LCB_SUCCESS ->
  snd (lcb_touch instance cookie cmd) = instance.
Proof.
  unfold lcb_touch, LCBT_SUPPORT_SYNCREPLICATION.
  guards; simpl; intros H; try reflexivity; now elim H.
Qed.

Lemma lcb_getcid_failure (instance : lcb_INSTANCE) (cookie : Z) (cmd : lcb_CMDGETCID) :
  fst (lcb_getcid instance cookie cmd) <> LCB_SUCCESS ->
  snd (lcb_getcid instance cookie cmd) = instance.
Proof.
  unfold lcb_getcid.
  guards; simpl; intros H; try reflexivity; now elim H.
Qed.

Lemma lcb_getmanifest_failure (instance : lcb_INSTANCE) (cookie : Z)
    (cmd : lcb_CMDGETMANIFEST) :
  fst (lcb_getmanifest instance cookie cmd) <> LCB_SUCCESS ->
  snd (lcb_getmanifest instance cookie cmd) = instance.
Proof.
  unfold lcb_getmanifest.
  guards; simpl; intros H; try reflexivity; now elim H.
Qed.

Lemma durability_unsupported (instance : lcb_INSTANCE) (cookie : Z)
    (cmd : lcb_CMDDURABLE) :
  LCB_KEYBUF_IS_EMPTY (cmd_key (cmd_base cmd)) = false ->
  durability_requested cmd = true ->
  LCBT_SUPPORT_SYNCREPLICATION instance = false ->
  lcb_remove instance cookie cmd = (LCB_NOT_SUPPORTED, instance) /\
  lcb_touch instance cookie cmd = (LCB_NOT_SUPPORTED, instance).
Proof.
  intros Hk Hd Hs. unfold lcb_remove, lcb_touch. rewrite Hk, Hd, Hs.
  now split.
Qed.

(** C7: a status other than success is returned with nothing done.  Whenever
    [lcb_remove], [lcb_touch], [lcb_getcid] or [lcb_getmanifest] returns a
    status other than [LCB_SUCCESS], the instance, and with it every pipeline
    and its scheduled packets, is what it was before the call: no packet was
    added anywhere, so no completion can come of the call.  Among these
    returns is [LCB_NOT_SUPPORTED] from [lcb_remove] and [lcb_touch] for a
    command that asks for a durability level on a cluster without synchronous
    replication. *)
Theorem scheduling_errors_are_atomic (instance : lcb_INSTANCE) (cookie : Z) :
  (forall cmd, fst (lcb_remove instance cookie cmd) <> LCB_SUCCESS ->
               snd (lcb_remove instance cookie cmd) = instance) /\
  (forall cmd, fst (lcb_touch instance cookie cmd) <> LCB_SUCCESS ->
               snd (lcb_touch instance cookie cmd) = instance) /\
  (forall cmd, fst (lcb_getcid instance cookie cmd) <> LCB_SUCCESS ->
               snd (lcb_getcid instance cookie cmd) = instance) /\
  (forall cmd, fst (lcb_getmanifest instance cookie cmd) <> LCB_SUCCESS ->
               snd (lcb_getmanifest instance cookie cmd) = instance) /\
  (forall cmd, LCB_KEYBUF_IS_EMPTY (cmd_key (cmd_base cmd)) = false ->
               durability_requested cmd = true ->
               LCBT_SUPPORT_SYNCREPLICATION instance = false ->
               lcb_remove instance cookie cmd = (LCB_NOT_SUPPORTED, instance) /\
               lcb_touch instance cookie cmd = (LCB_NOT_SUPPORTED, instance)).
Proof.
  repeat apply conj; intros cmd.
  - apply lcb_remove_failure.
  - apply lcb_touch_failure.
  - apply lcb_getcid_failure.
  - apply lcb_getmanifest_failure.
  - apply durability_unsupported.
Qed.

(** C9: a remove or touch command whose key is empty is turned down with
    [LCB_EMPTY_KEY], whatever its durability level and whether or not the
    cluster replicates synchronously, and the instance is left as it was: no
    packet is allocated or scheduled. *)
Theorem empty_key_rejected (instance : lcb_INSTANCE) (cookie : Z)
    (cmd : lcb_CMDDURABLE) :
  cmd_key (cmd_base cmd) = [] ->
  lcb_remove instance cookie cmd = (LCB_EMPTY_KEY, instance) /\
  lcb_touch instance cookie cmd = (LCB_EMPTY_KEY, instance).
Proof.
  intros Hk. unfold lcb_remove, lcb_touch. rewrite Hk. now split.
Qed.

(** C10: on a remove or touch response without the error-info flag the four
    accessors return [LCB_KEY_ENOENT] and hand the caller's string and length
    back as they were; an accessor returns [LCB_SUCCESS] exactly when the flag
    is present. *)
Theorem error_accessors_need_errinfo (resp : lcb_RESPBASE) (out : out_string) :
  (Z.land (rflags resp) LCB_RESP_F_ERRINFO = 0 ->
   lcb_respremove_error_context resp out = (LCB_KEY_ENOENT, out) /\
   lcb_respremove_error_ref resp out = (LCB_KEY_ENOENT, out) /\
   lcb_resptouch_error_context resp out = (LCB_KEY_ENOENT, out) /\
   lcb_resptouch_error_ref resp out = (LCB_KEY_ENOENT, out)) /\
  (Z.land (rflags resp) LCB_RESP_F_ERRINFO <> 0 <->
   fst (lcb_respremove_error_context resp out) = LCB_SUCCESS) /\
  (Z.land (rflags resp) LCB_RESP_F_ERRINFO <> 0 <->
   fst (lcb_respremove_error_ref resp out) = LCB_SUCCESS) /\
  (Z.land (rflags resp) LCB_RESP_F_ERRINFO <> 0 <->
   fst (lcb_resptouch_error_context resp out) = LCB_SUCCESS) /\
  (Z.land (rflags resp) LCB_RESP_F_ERRINFO <> 0 <->
   fst (lcb_resptouch_error_ref resp out) = LCB_SUCCESS).
Proof.
  unfold lcb_respremove_error_context, lcb_respremove_error_ref,
    lcb_resptouch_error_context, lcb_resptouch_error_ref.
  destruct (Z.eqb_spec (Z.land (rflags resp) LCB_RESP_F_ERRINFO) 0) as [E|E].
  - repeat split; auto; simpl; intros; try discriminate; congruence.
  - repeat split; try (intros; congruence);
      repeat match goal with
      | |- context [match ?t with Some _ => _ | None => _ end] => destruct t
      end; reflexivity.
Qed.
(** C4, as the code has it: on an instance that has a configuration and has
    collections enabled, [lcb_getcid] with both names empty or null returns
    [LCB_EINVAL] and leaves the instance as it was: no packet is allocated. *)
Theorem getcid_empty_names_einval (instance : lcb_INSTANCE) (cookie : Z)
    (cmd : lcb_CMDGETCID) :
  is_null (config (cmdq instance)) = false ->
  use_collections (settings instance) = true ->
  nscope cmd = 0 ->
  ncollection cmd = 0 ->
  lcb_getcid instance cookie cmd = (LCB_EINVAL, instance).
Proof.
  intros Hc Hu Hs _. unfold lcb_getcid. now rewrite Hc, Hu, Hs.
Qed.

(** C5, as the code has it: with a configuration present and collections
    enabled, a submission by [lcb_getmanifest] or [lcb_getcid] to a queue
    without pipelines returns [LCB_NO_MATCHING_SERVER] and leaves the
    instance as it was; for [lcb_getcid] the two names must be non-empty as
    well.  The property is about these two functions: [lcb_remove] and
    [lcb_touch] do not test the number of pipelines themselves. *)
Theorem zero_pipelines_no_matching_server (instance : lcb_INSTANCE) (cookie : Z) :
  is_null (config (cmdq instance)) = false ->
  use_collections (settings instance) = true ->
  npipelines (cmdq instance) = 0 ->
  (forall cmd,
     lcb_getmanifest instance cookie cmd = (LCB_NO_MATCHING_SERVER, instance)) /\
  (forall cmd,
     0 < nscope cmd -> 0 < ncollection cmd ->
     lcb_getcid instance cookie cmd = (LCB_NO_MATCHING_SERVER, instance)).
Proof.
  intros Hc Hu Hn. split; intros cmd.
  - unfold lcb_getmanifest. now rewrite Hc, Hu, Hn.
  - intros Hs Hl. unfold lcb_getcid, nscope, ncollection in *.
    rewrite Hc, Hu, Hn.
    destruct (scope cmd) as [s|]; [|simpl in Hs; lia].
    destruct (collection cmd) as [c|]; [|simpl in Hl; lia].
    destruct (Z.eqb_spec (name_len (Some s)) 0); [lia|].
    destruct (Z.eqb_spec (name_len (Some c)) 0); [lia|].
    reflexivity.
Qed.

(** C6, as the code has it: with a configuration present and collections
    disabled, [lcb_getcid] and [lcb_getmanifest] return [LCB_NOT_SUPPORTED]
    and leave the instance as it was: no packet is built. *)
Theorem collections_disabled_not_supported (instance : lcb_INSTANCE) (cookie : Z) :
  is_null (config (cmdq instance)) = false ->
  use_collections (settings instance) = false ->
  (forall cmd, lcb_getcid instance cookie cmd = (LCB_NOT_SUPPORTED, instance)) /\
  (forall cmd, lcb_getmanifest instance cookie cmd = (LCB_NOT_SUPPORTED, instance)).
Proof.
  intros Hc Hu. unfold lcb_getcid, lcb_getmanifest. rewrite Hc, Hu. now split.
Qed.
(** ** The packets that are scheduled *)

Lemma host_bytes_1 (x : Z) : host_bytes 1 x = [x mod 256].
Proof. unfold host_bytes. now destruct host_little_endian. Qed.

Lemma level_value_byte (l : lcb_DURABILITY_LEVEL) : level_value l mod 256 = level_value l.
Proof. now destruct l. Qed.

(** Copying the header and [n] bytes of body over a buffer reserved for
    them leaves what follows in the buffer alone. *)
Lemma memcpy_request (n : nat) (rest : list byte) (r : protocol_binary_request) :
  memcpy (repeat 0 (24 + n) ++ rest) (request_bytes r) (24 + n)
  = hdr_bytes (message_header r) ++ firstn n (message_body r) ++ rest.
Proof.
  unfold memcpy, request_bytes.
  rewrite <- (hdr_bytes_length (message_header r)) at 1.
  rewrite firstn_app_2, <- app_assoc. do 2 f_equal.
  rewrite skipn_app, repeat_length, Nat.sub_diag.
  rewrite skipn_all2 by (rewrite repeat_length; lia).
  reflexivity.
Qed.

Lemma reserve_key_unflagged (st : lcb_settings) (pl pl' : mc_PIPELINE)
    (pkt0 : mc_PACKET) (hdrsize : Z) (cmd : lcb_CMDBASE) :
  mcreq_allocate_packet pl = Some (pkt0, pl') ->
  kh_span (mcreq_reserve_key st pkt0 hdrsize (cmd_key cmd) (cmd_cid cmd))
  = repeat 0 (Z.to_nat hdrsize) ++ key_area st cmd.
Proof.
  intros Ha. unfold mcreq_reserve_key, key_area. simpl.
  rewrite (allocate_flags _ _ _ Ha), Z.land_0_l, andb_true_r.
  reflexivity.
Qed.

(** What a successful [lcb_remove] has done: a packet was allocated on one
    pipeline and scheduled there; its buffer holds the header, the durability
    frame if one was asked for, and the key. *)
Lemma lcb_remove_success (instance instance' : lcb_INSTANCE) (cookie : Z)
    (cmd : lcb_CMDREMOVE) :
  lcb_remove instance cookie cmd = (LCB_SUCCESS, instance') ->
  exists pl p pkt0 p' pkt hdr,
    pl_get (cmdq instance) pl = Some p /\
    mcreq_allocate_packet p = Some (pkt0, p') /\
    queued_on (cmdq instance') pl = queued_on (cmdq instance) pl ++ [pkt] /\
    pkt_opaque pkt = pkt_opaque pkt0 /\
    kh_span pkt
    = hdr_bytes hdr
      ++ (if durability_requested cmd
          then durability_frame (dur_level cmd) (dur_timeout cmd) else [])
      ++ key_area (settings instance) (cmd_base cmd) /\
    request_magic hdr = PROTOCOL_BINARY_REQ /\
    request_opaque hdr = wrap 32 (pkt_opaque pkt0).
Proof.
  unfold lcb_remove.
  destruct (LCB_KEYBUF_IS_EMPTY _); [discriminate|].
  destruct (durability_requested cmd) eqn:Hd;
    destruct (LCBT_SUPPORT_SYNCREPLICATION instance) eqn:Hs; try discriminate;
    match goal with
    | |- context [match ?t with BP_fail _ => _ | BP_ok _ _ _ _ => _ end] =>
        destruct t as [err|hdr pkt pl cq'] eqn:Hbp
    end;
    try (intros H; inversion H; subst; apply basic_packet_fail in Hbp;
         now elim Hbp);
    intros H; inversion H; subst; clear H;
    destruct (basic_packet_ok _ _ _ _ _ _ _ _ _ _ _ Hbp)
      as (p & pkt0 & p' & Hp & Ha & Hcq & Hpkt & Hext);
    eexists pl, p, pkt0, p', _, _;
    (split; [exact Hp|]); (split; [exact Ha|]);
    (split; [exact (sched_after_basic_packet _ _ _ _ _ _ _ _ _ _ _ Hbp)|]);
    subst pkt; rewrite Hext;
    (split; [reflexivity|]).
  all: cbn [kh_span set_kh_span set_start set_cookie].
  all: rewrite (reserve_key_unflagged _ _ _ _ _ _ Ha).
  - change (Z.to_nat (sizeof_header + 0 + 4)) with (24 + 4)%nat.
    change (Z.to_nat (wrap 8 0 + sizeof_header + 4)) with (24 + 4)%nat.
    rewrite memcpy_request.
    cbn [message_header with_header message_body with_body set_alt_meta
         set_alt_level set_alt_timeout andb].
    rewrite !host_bytes_1, host_bytes_htons, level_value_byte.
    split; [reflexivity|]. split; reflexivity.
  - change (Z.to_nat (sizeof_header + 0 + 0)) with (24 + 0)%nat.
    change (Z.to_nat (wrap 8 0 + sizeof_header + 0)) with (24 + 0)%nat.
    rewrite memcpy_request.
    split; [reflexivity|]. split; reflexivity.
  - change (Z.to_nat (sizeof_header + 0 + 0)) with (24 + 0)%nat.
    change (Z.to_nat (wrap 8 0 + sizeof_header + 0)) with (24 + 0)%nat.
    rewrite memcpy_request.
    split; [reflexivity|]. split; reflexivity.
Qed.
(** What a successful [lcb_touch] has done; the result owes nothing to what
    the request object held on entry. *)
Lemma lcb_touch_success (instance instance' : lcb_INSTANCE) (cookie : Z)
    (cmd : lcb_CMDTOUCH) :
  lcb_touch instance cookie cmd = (LCB_SUCCESS, instance') ->
  exists pl p pkt0 p' pkt hdr,
    pl_get (cmdq instance) pl = Some p /\
    mcreq_allocate_packet p = Some (pkt0, p') /\
    queued_on (cmdq instance') pl = queued_on (cmdq instance) pl ++ [pkt] /\
    pkt_opaque pkt = pkt_opaque pkt0 /\
    kh_span pkt
    = hdr_bytes hdr ++ touch_extras cmd
      ++ key_area (settings instance) (cmd_base cmd) /\
    request_magic hdr = PROTOCOL_BINARY_REQ /\
    request_opaque hdr = wrap 32 (pkt_opaque pkt0).
Proof.
  unfold lcb_touch, touch_extras.
  destruct (LCB_KEYBUF_IS_EMPTY _); [discriminate|].
  destruct (durability_requested cmd) eqn:Hd;
    destruct (LCBT_SUPPORT_SYNCREPLICATION instance) eqn:Hs; try discriminate;
    match goal with
    | |- context [match ?t with BP_fail _ => _ | BP_ok _ _ _ _ => _ end] =>
        destruct t as [err|hdr pkt pl cq'] eqn:Hbp
    end;
    try (intros H; inversion H; subst; apply basic_packet_fail in Hbp;
         now elim Hbp);
    intros H; inversion H; subst; clear H;
    destruct (basic_packet_ok _ _ _ _ _ _ _ _ _ _ _ Hbp)
      as (p & pkt0 & p' & Hp & Ha & Hcq & Hpkt & Hext);
    eexists pl, p, pkt0, p', _, _;
    (split; [exact Hp|]); (split; [exact Ha|]);
    (split; [exact (sched_after_basic_packet _ _ _ _ _ _ _ _ _ _ _ Hbp)|]);
    subst pkt; rewrite Hext;
    (split; [reflexivity|]).
  all: cbn [kh_span set_kh_span set_start set_cookie].
  all: rewrite (reserve_key_unflagged _ _ _ _ _ _ Ha).
  - change (Z.to_nat (sizeof_header + 4 + 4)) with (24 + 8)%nat.
    change (Z.to_nat (wrap 8 4 + sizeof_header + 4)) with (24 + 8)%nat.
    rewrite memcpy_request.
    cbn [message_header with_header message_body with_body set_alt_meta
         set_alt_level set_alt_timeout set_alt_expiration andb].
    rewrite !host_bytes_1, host_bytes_htons, host_bytes_htonl, level_value_byte.
    split; [reflexivity|]. split; reflexivity.
  - change (Z.to_nat (sizeof_header + 4 + 0)) with (24 + 4)%nat.
    change (Z.to_nat (wrap 8 4 + sizeof_header + 0)) with (24 + 4)%nat.
    rewrite memcpy_request.
    cbn [message_header with_header message_body with_body
         set_norm_expiration andb].
    rewrite host_bytes_htonl.
    split; [reflexivity|]. split; reflexivity.
  - change (Z.to_nat (sizeof_header + 4 + 0)) with (24 + 4)%nat.
    change (Z.to_nat (wrap 8 4 + sizeof_header + 0)) with (24 + 4)%nat.
    rewrite memcpy_request.
    cbn [message_header with_header message_body with_body
         set_norm_expiration andb].
    rewrite host_bytes_htonl.
    split; [reflexivity|]. split; reflexivity.
Qed.
Lemma be_bytes_wrap (n : nat) (x : Z) :
  be_bytes n (wrap (8 * Z.of_nat n) x) = be_bytes n x.
Proof.
  unfold wrap, be_bytes. rewrite Z.pow_mul_r by lia. now rewrite le_bytes_mod.
Qed.

Lemma memcpy_header (rest : list byte) (h : protocol_binary_request_header) :
  memcpy (repeat 0 24 ++ rest) (hdr_bytes h) 24 = hdr_bytes h ++ rest.
Proof.
  unfold memcpy. rewrite firstn_all2 by (rewrite hdr_bytes_length; lia).
  reflexivity.
Qed.

(** What a successful [lcb_getcid] has done: a packet was allocated on the
    first pipeline and scheduled there, flagged [MCREQ_F_NOCID]; its buffer
    holds the header and the path. *)
Lemma lcb_getcid_success (instance instance' : lcb_INSTANCE) (cookie : Z)
    (cmd : lcb_CMDGETCID) :
  lcb_getcid instance cookie cmd = (LCB_SUCCESS, instance') ->
  exists p rest pkt0 p' pkt hdr,
    pipelines (cmdq instance) = p :: rest /\
    mcreq_allocate_packet p = Some (pkt0, p') /\
    queued_on (cmdq instance') (PL_server 0)
    = queued_on (cmdq instance) (PL_server 0) ++ [pkt] /\
    pkt_opaque pkt = pkt_opaque pkt0 /\
    pkt_flags pkt = Z.lor (pkt_flags pkt0) MCREQ_F_NOCID /\
    kh_span pkt = hdr_bytes hdr ++ getcid_path cmd /\
    request_opaque hdr = wrap 32 (pkt_opaque pkt0) /\
    host_bytes 2 (request_keylen hdr)
    = be_bytes 2 (Z.of_nat (length (getcid_path cmd))) /\
    host_bytes 4 (request_bodylen hdr)
    = be_bytes 4 (Z.of_nat (length (getcid_path cmd))).
Proof.
  unfold lcb_getcid.
  destruct (is_null (config (cmdq instance))); [discriminate|].
  destruct (use_collections (settings instance)) eqn:Hu; [|discriminate].
  cbn [negb].
  match goal with
  | |- context [if ?c then (LCB_EINVAL, _) else _] => destruct c; [discriminate|]
  end.
  destruct (npipelines (cmdq instance) <? 1); [discriminate|].
  destruct (pipelines (cmdq instance)) as [|p rest] eqn:Hpl; [discriminate|].
  destruct (mcreq_allocate_packet p) as [[pkt0 p']|] eqn:Ha; [|discriminate].
  intros H; inversion H; subst; clear H.
  eexists p, rest, pkt0, p', _, _.
  split; [reflexivity|]. split; [exact Ha|].
  split.
  { rewrite (queued_on_sched_add _ _ p').
    - unfold queued_on, pl_get. rewrite Hpl. simpl.
      now rewrite (allocate_keeps_queue _ _ _ Ha).
    - simpl. rewrite Hpl. reflexivity. }
  split; [reflexivity|]. split; [reflexivity|].
  split.
  { unfold mcreq_write_hdr, mcreq_reserve_key.
    cbn [kh_span set_kh_span set_start set_cookie set_flags pkt_flags
         mcreq_reserve_header].
    rewrite Hu, land_lor_same.
    destruct (Z.eqb_spec MCREQ_F_NOCID 0) as [E|_];
      [now elim MCREQ_F_NOCID_nonzero|].
    cbn [andb app].
    change (Z.to_nat MCREQ_PKT_BASESIZE) with 24%nat.
    change (Z.to_nat sizeof_header) with 24%nat.
    apply memcpy_header. }
  cbn [request_opaque request_keylen request_bodylen set_bodylen set_keylen
       set_opaque set_datatype set_opcode set_magic header_zero].
  split; [reflexivity|]. split.
  - change 16 with (8 * Z.of_nat 2).
    now rewrite host_bytes_wrap, host_bytes_ntohs, be_bytes_wrap.
  - change 32 with (8 * Z.of_nat 4).
    now rewrite host_bytes_wrap, host_bytes_htonl, be_bytes_wrap.
Qed.
Lemma span_packet_header (off len : nat) (h : protocol_binary_request_header)
    (rest : list byte) :
  (off + len <= 24)%nat ->
  span off len (hdr_bytes h ++ rest) = span off len (hdr_bytes h).
Proof. intros H. apply span_app_l. now rewrite hdr_bytes_length. Qed.

Lemma skipn_packet_header (h : protocol_binary_request_header) (rest : list byte) :
  skipn 24 (hdr_bytes h ++ rest) = rest.
Proof.
  rewrite skipn_app, hdr_bytes_length.
  now rewrite skipn_all2 by (rewrite hdr_bytes_length; lia).
Qed.

Lemma name_len_nonneg (name : option (list byte)) : 0 <= name_len name.
Proof. destruct name; simpl; lia. Qed.

Lemma getcid_path_length (cmd : lcb_CMDGETCID) :
  Z.of_nat (length (getcid_path cmd)) = nscope cmd + 1 + ncollection cmd.
Proof.
  unfold getcid_path, nscope, ncollection, name_len.
  rewrite !length_app.
  destruct (scope cmd), (collection cmd); cbn [name_bytes length app]; lia.
Qed.

(** ** The claims about wire bytes *)

(** C1, what the code does: every packet that [lcb_remove] or [lcb_touch]
    schedules, with or without a durability level, starts with the magic byte
    [PROTOCOL_BINARY_REQ]; it is never [PROTOCOL_BINARY_AREQ].  The magic set
    for a durable command before [mcreq_basic_packet] is overwritten once the
    call has returned. *)
Theorem scheduled_magic_is_REQ (instance instance' : lcb_INSTANCE) (cookie : Z)
    (cmd : lcb_CMDDURABLE) :
  lcb_remove instance cookie cmd = (LCB_SUCCESS, instance') \/
  lcb_touch instance cookie cmd = (LCB_SUCCESS, instance') ->
  exists pl pkt,
    queued_on (cmdq instance') pl = queued_on (cmdq instance) pl ++ [pkt] /\
    span 0 1 (kh_span pkt) = [PROTOCOL_BINARY_REQ] /\
    span 0 1 (kh_span pkt) <> [PROTOCOL_BINARY_AREQ].
Proof.
  intros [H|H];
    [apply lcb_remove_success in H | apply lcb_touch_success in H];
    destruct H as (pl & p & pkt0 & p' & pkt & hdr & _ & _ & Hq & _ & Hk & Hm & _);
    exists pl, pkt; (split; [exact Hq|]);
    rewrite Hk, span_packet_header by lia;
    rewrite hdr_bytes_magic, host_bytes_1, Hm;
    (split; [reflexivity | discriminate]).
Qed.

(** C2: when a durability level is requested (and the cluster replicates
    synchronously, or the call would not succeed), the bytes that [lcb_remove]
    writes behind the 24-byte header are the frame descriptor
    [(1 << 4) | 3], the level, and the timeout in two bytes, most significant
    first; the key area follows.  [lcb_touch] writes the same frame and then
    the expiry in four bytes, most significant first; without a durability
    level it writes the four bytes of the expiry alone. *)
Theorem durability_frame_on_wire (instance instance' : lcb_INSTANCE) (cookie : Z)
    (cmd : lcb_CMDDURABLE) :
  (durability_requested cmd = true ->
   lcb_remove instance cookie cmd = (LCB_SUCCESS, instance') ->
   exists pl pkt hdr,
     queued_on (cmdq instance') pl = queued_on (cmdq instance) pl ++ [pkt] /\
     length hdr = 24%nat /\
     kh_span pkt
     = hdr ++ [Z.lor (Z.shiftl 1 4) 3; level_value (dur_level cmd)]
           ++ be_bytes 2 (dur_timeout cmd)
           ++ key_area (settings instance) (cmd_base cmd)) /\
  (durability_requested cmd = true ->
   lcb_touch instance cookie cmd = (LCB_SUCCESS, instance') ->
   exists pl pkt hdr,
     queued_on (cmdq instance') pl = queued_on (cmdq instance) pl ++ [pkt] /\
     length hdr = 24%nat /\
     kh_span pkt
     = hdr ++ [Z.lor (Z.shiftl 1 4) 3; level_value (dur_level cmd)]
           ++ be_bytes 2 (dur_timeout cmd)
           ++ be_bytes 4 (cmd_exptime (cmd_base cmd))
           ++ key_area (settings instance) (cmd_base cmd)) /\
  (durability_requested cmd = false ->
   lcb_touch instance cookie cmd = (LCB_SUCCESS, instance') ->
   exists pl pkt hdr,
     queued_on (cmdq instance') pl = queued_on (cmdq instance) pl ++ [pkt] /\
     length hdr = 24%nat /\
     kh_span pkt
     = hdr ++ be_bytes 4 (cmd_exptime (cmd_base cmd))
           ++ key_area (settings instance) (cmd_base cmd)).
Proof.
  repeat apply conj; intros Hd H;
    [apply lcb_remove_success in H | apply lcb_touch_success in H
     | apply lcb_touch_success in H];
    destruct H as (pl & p & pkt0 & p' & pkt & hdr & _ & _ & Hq & _ & Hk & _);
    exists pl, pkt, (hdr_bytes hdr);
    (split; [exact Hq|]); (split; [apply hdr_bytes_length|]);
    rewrite Hk; unfold touch_extras; rewrite Hd; unfold durability_frame;
    now rewrite <- ?app_assoc.
Qed.

(** C3, as the code has it: when [lcb_getcid] succeeds and the path, that is
    the scope, a dot and the collection, is shorter than 65536 bytes, the
    scheduled packet has exactly the path as its key behind the 24-byte
    header, it carries the flag [MCREQ_F_NOCID], and both the key length
    field and the body length field hold the length of the path in network
    byte order. *)
Theorem getcid_packet_carries_path (instance instance' : lcb_INSTANCE)
    (cookie : Z) (cmd : lcb_CMDGETCID) :
  lcb_getcid instance cookie cmd = (LCB_SUCCESS, instance') ->
  nscope cmd + 1 + ncollection cmd < 65536 ->
  exists pkt,
    queued_on (cmdq instance') (PL_server 0)
    = queued_on (cmdq instance) (PL_server 0) ++ [pkt] /\
    skipn 24 (kh_span pkt)
    = name_bytes (scope cmd) ++ [46] ++ name_bytes (collection cmd) /\
    Z.land (pkt_flags pkt) MCREQ_F_NOCID = MCREQ_F_NOCID /\
    MCREQ_F_NOCID <> 0 /\
    be_val (span 2 2 (kh_span pkt)) = nscope cmd + 1 + ncollection cmd /\
    be_val (span 8 4 (kh_span pkt)) = nscope cmd + 1 + ncollection cmd.
Proof.
  intros H Hlen. pose proof (getcid_path_length cmd) as Hl.
  apply lcb_getcid_success in H
    as (p & rest & pkt0 & p' & pkt & hdr & _ & _ & Hq & _ & Hf & Hk & _ & Hkl & Hbl).
  exists pkt. split; [exact Hq|].
  rewrite Hk, skipn_packet_header, !span_packet_header by lia.
  rewrite hdr_bytes_keylen, hdr_bytes_bodylen, Hkl, Hbl, !be_val_be_bytes, Hl, Hf.
  repeat apply conj.
  - unfold getcid_path. now rewrite <- app_assoc.
  - apply land_lor_same.
  - apply MCREQ_F_NOCID_nonzero.
  - apply Z.mod_small. change (256 ^ Z.of_nat 2) with 65536.
    pose proof (name_len_nonneg (scope cmd)).
    pose proof (name_len_nonneg (collection cmd)).
    unfold nscope, ncollection in *. lia.
  - apply Z.mod_small. change (256 ^ Z.of_nat 4) with 4294967296.
    pose proof (name_len_nonneg (scope cmd)).
    pose proof (name_len_nonneg (collection cmd)).
    unfold nscope, ncollection in *. lia.
Qed.

(** C8: for every packet that [lcb_getcid], [lcb_remove] or [lcb_touch]
    schedules, the four bytes of the opaque field in the packet's buffer are
    the bytes in memory of the packet's own correlation id, which is the id
    that packet allocation assigned. *)
Theorem opaque_on_wire (instance instance' : lcb_INSTANCE) (cookie : Z) :
  (forall cmd, lcb_getcid instance cookie cmd = (LCB_SUCCESS, instance') ->
               opaque_tracked instance instance') /\
  (forall cmd, lcb_remove instance cookie cmd = (LCB_SUCCESS, instance') ->
               opaque_tracked instance instance') /\
  (forall cmd, lcb_touch instance cookie cmd = (LCB_SUCCESS, instance') ->
               opaque_tracked instance instance').
Proof.
  repeat apply conj; intros cmd H; unfold opaque_tracked.
  - apply lcb_getcid_success in H
      as (p & rest & pkt0 & p' & pkt & hdr & Hpl & Ha & Hq & Ho & _ & Hk & Hop & _).
    exists (PL_server 0), p, pkt0, p', pkt.
    repeat apply conj; auto.
    + simpl. now rewrite Hpl.
    + rewrite Hk, span_packet_header, hdr_bytes_opaque, Hop, Ho by lia.
      change 32 with (8 * Z.of_nat 4). apply host_bytes_wrap.
  - apply lcb_remove_success in H
      as (pl & p & pkt0 & p' & pkt & hdr & Hp & Ha & Hq & Ho & Hk & _ & Hop).
    exists pl, p, pkt0, p', pkt. repeat apply conj; auto.
    rewrite Hk, span_packet_header, hdr_bytes_opaque, Hop, Ho by lia.
    change 32 with (8 * Z.of_nat 4). apply host_bytes_wrap.
  - apply lcb_touch_success in H
      as (pl & p & pkt0 & p' & pkt & hdr & Hp & Ha & Hq & Ho & Hk & _ & Hop).
    exists pl, p, pkt0, p', pkt. repeat apply conj; auto.
    rewrite Hk, span_packet_header, hdr_bytes_opaque, Hop, Ho by lia.
    change 32 with (8 * Z.of_nat 4). apply host_bytes_wrap.
Qed.
(** * More of the sources *)

(** ** What the builders schedule, in full *)

Lemma host_bytes_lcb_htonll (x : Z) : host_bytes 8 (lcb_htonll x) = be_bytes 8 x.
Proof.
  unfold lcb_htonll. rewrite <- (be_bytes_length 8 x) at 1.
  apply host_bytes_host_val, be_bytes_ok.
Qed.

Lemma ntohs_htons (x : Z) : ntohs (wrap 16 (htons x)) = x mod 65536.
Proof.
  unfold ntohs. change 16 with (8 * Z.of_nat 2).
  now rewrite host_bytes_wrap, host_bytes_htons, be_val_be_bytes.
Qed.

Lemma basic_packet_ok_full (st : lcb_settings) (cq cq' : mc_CMDQUEUE)
    (cmd : lcb_CMDBASE) (req hdr : protocol_binary_request_header)
    (extlen ffextlen options : Z) (pkt : mc_PACKET) (pl : pl_ref) :
  mcreq_basic_packet st cq cmd req extlen ffextlen options = BP_ok hdr pkt pl cq' ->
  exists cfg vb srvix p pkt0 p',
    config cq = Some cfg /\
    lcbvb_map_key cfg (cmd_key cmd) = (vb, srvix) /\
    basic_packet_target cq srvix options = Some pl /\
    pl_get cq pl = Some p /\
    mcreq_allocate_packet p = Some (pkt0, p') /\
    cq' = pl_set cq pl p' /\
    pkt = mcreq_reserve_key st pkt0 (sizeof_header + extlen + ffextlen)
            (cmd_key cmd) (cmd_cid cmd) /\
    hdr = set_extlen extlen
            (set_vbucket (htons vb)
               (set_keylen
                  (htons (Z.of_nat (length (kh_span pkt))
                          - (sizeof_header + extlen + ffextlen))) req)).
Proof.
  unfold mcreq_basic_packet, basic_packet_target.
  destruct (config cq) as [cfg|]; [|discriminate].
  destruct (lcbvb_map_key cfg (cmd_key cmd)) as [vb srvix] eqn:Hmap.
  match goal with
  | |- context [match ?t with Some _ => _ | None => _ end] =>
      destruct t as [r|] eqn:Ht
  end; [|discriminate].
  destruct (pl_get cq r) as [p|] eqn:Hp; [|discriminate].
  destruct (mcreq_allocate_packet p) as [[pkt0 p']|] eqn:Ha; [|discriminate].
  intros H; inversion H; subst.
  exists cfg, vb, srvix, p, pkt0, p'. repeat apply conj; auto.
Qed.

Lemma key_area_reserved (st : lcb_settings) (pl pl' : mc_PIPELINE) (pkt0 : mc_PACKET)
    (hdrsize : Z) (cmd : lcb_CMDBASE) :
  mcreq_allocate_packet pl = Some (pkt0, pl') ->
  0 <= hdrsize ->
  Z.of_nat (length (kh_span (mcreq_reserve_key st pkt0 hdrsize (cmd_key cmd)
                               (cmd_cid cmd)))) - hdrsize
  = Z.of_nat (length (key_area st cmd)).
Proof.
  intros Ha Hh. rewrite (reserve_key_unflagged _ _ _ _ _ _ Ha).
  rewrite length_app, repeat_length, Nat2Z.inj_add, Z2Nat.id by exact Hh.
  unfold byte. lia.
Qed.

Lemma durability_frame_length (l : lcb_DURABILITY_LEVEL) (t : Z) :
  length (durability_frame l t) = 4%nat.
Proof. reflexivity. Qed.

Lemma frame_of_length (cmd : lcb_CMDDURABLE) :
  Z.of_nat (length (frame_of cmd)) = ffextlen_of cmd.
Proof. unfold frame_of, ffextlen_of. now destruct (durability_requested cmd). Qed.

Lemma wrap_small (bits x : Z) : 0 <= x < 2 ^ bits -> wrap bits x = x.
Proof. intros H. unfold wrap. now apply Z.mod_small. Qed.

Lemma host_bytes_8_zero : host_bytes 8 (wrap 64 0) = be_bytes 8 0.
Proof. unfold host_bytes. now destruct host_little_endian. Qed.

(** The header bytes once every field is known in network order. *)
Lemma hdr_bytes_network (h : protocol_binary_request_header)
    (m o k e d v b q : Z) (c : list byte) :
  request_magic h = wrap 8 m ->
  request_opcode h = wrap 8 o ->
  request_keylen h = wrap 16 (htons k) ->
  request_extlen h = wrap 8 e ->
  request_datatype h = wrap 8 d ->
  request_vbucket h = wrap 16 (htons v) ->
  request_bodylen h = wrap 32 (htonl b) ->
  request_opaque h = wrap 32 q ->
  host_bytes 8 (request_cas h) = c ->
  hdr_bytes h
  = [m mod 256; o mod 256] ++ be_bytes 2 k ++ [e mod 256; d mod 256]
    ++ be_bytes 2 v ++ be_bytes 4 b ++ host_bytes 4 q ++ c.
Proof.
  intros Hm Ho Hk He Hd Hv Hb Hq Hc. unfold hdr_bytes.
  rewrite Hm, Ho, Hk, He, Hd, Hv, Hb, Hq, Hc.
  change 8 with (8 * Z.of_nat 1) at 1 2 3 4.
  change 16 with (8 * Z.of_nat 2).
  change 32 with (8 * Z.of_nat 4).
  rewrite !host_bytes_wrap, !host_bytes_htons, host_bytes_htonl, !host_bytes_1.
  reflexivity.
Qed.

(** What a successful [lcb_remove] leaves behind, in full: the pipeline the
    key routes to has allocated one packet and has it scheduled last; the
    packet holds the caller's cookie, the clock reading and the request
    bytes. *)
Lemma lcb_remove_scheduled (instance instance' : lcb_INSTANCE) (cookie : Z)
    (cmd : lcb_CMDREMOVE) :
  lcb_remove instance cookie cmd = (LCB_SUCCESS, instance') ->
  Z.of_nat (length (key_area (settings instance) (cmd_base cmd))) < 65536 ->
  exists cfg vb srvix pl p pkt0 p',
    config (cmdq instance) = Some cfg /\
    lcbvb_map_key cfg (cmd_key (cmd_base cmd)) = (vb, srvix) /\
    basic_packet_target (cmdq instance) srvix MCREQ_BASICPACKET_F_FALLBACKOK
    = Some pl /\
    pl_get (cmdq instance) pl = Some p /\
    mcreq_allocate_packet p = Some (pkt0, p') /\
    instance'
    = LCB_SCHED_ADD (with_cmdq (pl_set (cmdq instance) pl p') instance) pl
        (mk_packet (pkt_opaque pkt0) (pkt_flags pkt0) (ffextlen_of cmd)
           (request_wire PROTOCOL_BINARY_CMD_DELETE vb
              (host_bytes 4 (pkt_opaque pkt0)) (cmd_cas (cmd_base cmd))
              (frame_of cmd) [] (key_area (settings instance) (cmd_base cmd)))
           cookie (hrtime instance)).
Proof.
  unfold lcb_remove, frame_of, ffextlen_of.
  destruct (LCB_KEYBUF_IS_EMPTY _); [discriminate|].
  destruct (durability_requested cmd) eqn:Hd;
    destruct (LCBT_SUPPORT_SYNCREPLICATION instance) eqn:Hs; try discriminate;
    match goal with
    | |- context [match ?t with BP_fail _ => _ | BP_ok _ _ _ _ => _ end] =>
        destruct t as [err|hdr pkt pl cq'] eqn:Hbp
    end;
    try (intros H; inversion H; subst; apply basic_packet_fail in Hbp;
         now elim Hbp);
    intros H Hlen; inversion H; subst; clear H;
    destruct (basic_packet_ok_full _ _ _ _ _ _ _ _ _ _ _ Hbp)
      as (cfg & vb & srvix & p & pkt0 & p' & Hc & Hm & Ht & Hp & Ha & Hcq & Hpkt & Hh);
    exists cfg, vb, srvix, pl, p, pkt0, p';
    repeat (split; [assumption|]);
    rewrite Hcq; f_equal; clear Hbp Hcq;
    subst pkt;
    rewrite (key_area_reserved _ _ _ _ _ _ Ha) in Hh by (vm_compute; discriminate);
    set (klen := Z.of_nat (length (key_area (settings instance) (cmd_base cmd)))) in *;
    assert (Hk0 : 0 <= klen) by apply Nat2Z.is_nonneg;
    assert (Hext : request_extlen hdr = wrap 8 0) by (rewrite Hh; reflexivity);
    assert (Hkl : request_keylen hdr = wrap 16 (htons klen)) by (rewrite Hh; reflexivity);
    assert (Hvb : request_vbucket hdr = wrap 16 (htons vb)) by (rewrite Hh; reflexivity);
    clear Hh;
    unfold set_kh_span, set_start, set_cookie, gethrtime;
    rewrite Hext, (reserve_key_unflagged _ _ _ _ _ _ Ha);
    unfold mcreq_reserve_key;
    cbn [pkt_opaque pkt_flags pkt_extlen kh_span reqdata_cookie reqdata_start];
    f_equal.
  - change (Z.to_nat (sizeof_header + 0 + 4)) with (24 + 4)%nat.
    change (Z.to_nat (wrap 8 0 + sizeof_header + 4)) with (24 + 4)%nat.
    rewrite memcpy_request, Hkl, ntohs_htons.
    set (B := 4 + wrap 8 0 + wrap 32 (klen mod 65536)).
    cbn [message_header with_header message_body with_body set_alt_meta
         set_alt_level set_alt_timeout andb].
    rewrite !host_bytes_1, host_bytes_htons, level_value_byte.
    rewrite (hdr_bytes_network _ PROTOCOL_BINARY_REQ PROTOCOL_BINARY_CMD_DELETE
               klen 0 PROTOCOL_BINARY_RAW_BYTES vb B (pkt_opaque pkt0)
               (be_bytes 8 (cmd_cas (cmd_base cmd))));
      [| reflexivity | reflexivity | exact Hkl | exact Hext | reflexivity
       | exact Hvb | reflexivity | reflexivity
       | transitivity (host_bytes 8 (wrap 64 (lcb_htonll (cmd_cas (cmd_base cmd)))));
         [reflexivity|];
         change 64 with (8 * Z.of_nat 8);
         rewrite host_bytes_wrap; apply host_bytes_lcb_htonll].
    replace B with (Z.of_nat (length (durability_frame (dur_level cmd) (dur_timeout cmd))
                              + length (@nil byte)
                              + length (key_area (settings instance) (cmd_base cmd)))).
    2:{ subst B. change (wrap 8 0) with 0.
        rewrite Z.mod_small, wrap_small
          by (change (2 ^ 32) with 4294967296; lia).
        rewrite durability_frame_length. cbn [length]. unfold klen, byte. lia. }
    unfold request_wire. rewrite <- !app_assoc. reflexivity.
  - change (Z.to_nat (sizeof_header + 0 + 0)) with (24 + 0)%nat.
    change (Z.to_nat (wrap 8 0 + sizeof_header + 0)) with (24 + 0)%nat.
    rewrite memcpy_request, Hkl, ntohs_htons.
    set (B := 0 + wrap 8 0 + wrap 32 (klen mod 65536)).
    cbn [message_header with_header message_body with_body andb firstn].
    rewrite (hdr_bytes_network _ PROTOCOL_BINARY_REQ PROTOCOL_BINARY_CMD_DELETE
               klen 0 PROTOCOL_BINARY_RAW_BYTES vb B (pkt_opaque pkt0)
               (be_bytes 8 (cmd_cas (cmd_base cmd))));
      [| reflexivity | reflexivity | exact Hkl | exact Hext | reflexivity
       | exact Hvb | reflexivity | reflexivity
       | transitivity (host_bytes 8 (wrap 64 (lcb_htonll (cmd_cas (cmd_base cmd)))));
         [reflexivity|];
         change 64 with (8 * Z.of_nat 8);
         rewrite host_bytes_wrap; apply host_bytes_lcb_htonll].
    replace B with (Z.of_nat (length (@nil byte) + length (@nil byte)
                              + length (key_area (settings instance) (cmd_base cmd)))).
    2:{ subst B. change (wrap 8 0) with 0.
        rewrite Z.mod_small, wrap_small
          by (change (2 ^ 32) with 4294967296; lia).
        cbn [length]. unfold klen, byte. lia. }
    unfold request_wire. rewrite <- !app_assoc. reflexivity.
  - change (Z.to_nat (sizeof_header + 0 + 0)) with (24 + 0)%nat.
    change (Z.to_nat (wrap 8 0 + sizeof_header + 0)) with (24 + 0)%nat.
    rewrite memcpy_request, Hkl, ntohs_htons.
    set (B := 0 + wrap 8 0 + wrap 32 (klen mod 65536)).
    cbn [message_header with_header message_body with_body andb firstn].
    rewrite (hdr_bytes_network _ PROTOCOL_BINARY_REQ PROTOCOL_BINARY_CMD_DELETE
               klen 0 PROTOCOL_BINARY_RAW_BYTES vb B (pkt_opaque pkt0)
               (be_bytes 8 (cmd_cas (cmd_base cmd))));
      [| reflexivity | reflexivity | exact Hkl | exact Hext | reflexivity
       | exact Hvb | reflexivity | reflexivity
       | transitivity (host_bytes 8 (wrap 64 (lcb_htonll (cmd_cas (cmd_base cmd)))));
         [reflexivity|];
         change 64 with (8 * Z.of_nat 8);
         rewrite host_bytes_wrap; apply host_bytes_lcb_htonll].
    replace B with (Z.of_nat (length (@nil byte) + length (@nil byte)
                              + length (key_area (settings instance) (cmd_base cmd)))).
    2:{ subst B. change (wrap 8 0) with 0.
        rewrite Z.mod_small, wrap_small
          by (change (2 ^ 32) with 4294967296; lia).
        cbn [length]. unfold klen, byte. lia. }
    unfold request_wire. rewrite <- !app_assoc. reflexivity.
Qed.


(** The same for [lcb_touch]: the extras are the expiry, the CAS is zero. *)
Lemma lcb_touch_scheduled (instance instance' : lcb_INSTANCE) (cookie : Z)
    (cmd : lcb_CMDTOUCH) :
  lcb_touch instance cookie cmd = (LCB_SUCCESS, instance') ->
  Z.of_nat (length (key_area (settings instance) (cmd_base cmd))) < 65536 ->
  exists cfg vb srvix pl p pkt0 p',
    config (cmdq instance) = Some cfg /\
    lcbvb_map_key cfg (cmd_key (cmd_base cmd)) = (vb, srvix) /\
    basic_packet_target (cmdq instance) srvix MCREQ_BASICPACKET_F_FALLBACKOK
    = Some pl /\
    pl_get (cmdq instance) pl = Some p /\
    mcreq_allocate_packet p = Some (pkt0, p') /\
    instance'
    = LCB_SCHED_ADD (with_cmdq (pl_set (cmdq instance) pl p') instance) pl
        (mk_packet (pkt_opaque pkt0) (pkt_flags pkt0) (4 + ffextlen_of cmd)
           (request_wire PROTOCOL_BINARY_CMD_TOUCH vb
              (host_bytes 4 (pkt_opaque pkt0)) 0
              (frame_of cmd) (be_bytes 4 (cmd_exptime (cmd_base cmd)))
              (key_area (settings instance) (cmd_base cmd)))
           cookie (hrtime instance)).
Proof.
  unfold lcb_touch, frame_of, ffextlen_of.
  destruct (LCB_KEYBUF_IS_EMPTY _); [discriminate|].
  destruct (durability_requested cmd) eqn:Hd;
    destruct (LCBT_SUPPORT_SYNCREPLICATION instance) eqn:Hs; try discriminate;
    match goal with
    | |- context [match ?t with BP_fail _ => _ | BP_ok _ _ _ _ => _ end] =>
        destruct t as [err|hdr pkt pl cq'] eqn:Hbp
    end;
    try (intros H; inversion H; subst; apply basic_packet_fail in Hbp;
         now elim Hbp);
    intros H Hlen; inversion H; subst; clear H;
    destruct (basic_packet_ok_full _ _ _ _ _ _ _ _ _ _ _ Hbp)
      as (cfg & vb & srvix & p & pkt0 & p' & Hc & Hm & Ht & Hp & Ha & Hcq & Hpkt & Hh);
    exists cfg, vb, srvix, pl, p, pkt0, p';
    repeat (split; [assumption|]);
    rewrite Hcq; f_equal; clear Hbp Hcq;
    subst pkt;
    rewrite (key_area_reserved _ _ _ _ _ _ Ha) in Hh by (vm_compute; discriminate);
    set (klen := Z.of_nat (length (key_area (settings instance) (cmd_base cmd)))) in *;
    assert (Hk0 : 0 <= klen) by apply Nat2Z.is_nonneg;
    assert (Hext : request_extlen hdr = wrap 8 4) by (rewrite Hh; reflexivity);
    assert (Hkl : request_keylen hdr = wrap 16 (htons klen)) by (rewrite Hh; reflexivity);
    assert (Hvb : request_vbucket hdr = wrap 16 (htons vb)) by (rewrite Hh; reflexivity);
    clear Hh;
    unfold set_kh_span, set_start, set_cookie, gethrtime;
    rewrite Hext, (reserve_key_unflagged _ _ _ _ _ _ Ha);
    unfold mcreq_reserve_key;
    cbn [pkt_opaque pkt_flags pkt_extlen kh_span reqdata_cookie reqdata_start];
    f_equal.
  - change (Z.to_nat (sizeof_header + 4 + 4)) with (24 + 8)%nat.
    change (Z.to_nat (wrap 8 4 + sizeof_header + 4)) with (24 + 8)%nat.
    rewrite memcpy_request, Hkl, ntohs_htons.
    set (B := 4 + 4 + klen mod 65536).
    cbn [message_header with_header message_body with_body set_alt_meta
         set_alt_level set_alt_timeout set_alt_expiration andb].
    rewrite !host_bytes_1, host_bytes_htons, host_bytes_htonl, level_value_byte.
    rewrite (hdr_bytes_network _ PROTOCOL_BINARY_REQ PROTOCOL_BINARY_CMD_TOUCH
               klen 4 PROTOCOL_BINARY_RAW_BYTES vb B (pkt_opaque pkt0)
               (be_bytes 8 0));
      [| reflexivity | reflexivity | exact Hkl | exact Hext | reflexivity
       | exact Hvb | reflexivity | reflexivity | apply host_bytes_8_zero].
    replace B with (Z.of_nat (length (durability_frame (dur_level cmd) (dur_timeout cmd))
                              + length (be_bytes 4 (cmd_exptime (cmd_base cmd)))
                              + length (key_area (settings instance) (cmd_base cmd)))).
    2:{ subst B. rewrite Z.mod_small by lia.
        rewrite durability_frame_length, be_bytes_length. unfold klen, byte. lia. }
    unfold request_wire. rewrite be_bytes_length. rewrite <- !app_assoc. reflexivity.
  - change (Z.to_nat (sizeof_header + 4 + 0)) with (24 + 4)%nat.
    change (Z.to_nat (wrap 8 4 + sizeof_header + 0)) with (24 + 4)%nat.
    rewrite memcpy_request, Hkl, ntohs_htons.
    set (B := 4 + 0 + klen mod 65536).
    cbn [message_header with_header message_body with_body
         set_norm_expiration andb].
    rewrite host_bytes_htonl.
    rewrite (hdr_bytes_network _ PROTOCOL_BINARY_REQ PROTOCOL_BINARY_CMD_TOUCH
               klen 4 PROTOCOL_BINARY_RAW_BYTES vb B (pkt_opaque pkt0)
               (be_bytes 8 0));
      [| reflexivity | reflexivity | exact Hkl | exact Hext | reflexivity
       | exact Hvb | reflexivity | reflexivity | apply host_bytes_8_zero].
    replace B with (Z.of_nat (length (@nil byte)
                              + length (be_bytes 4 (cmd_exptime (cmd_base cmd)))
                              + length (key_area (settings instance) (cmd_base cmd)))).
    2:{ subst B. rewrite Z.mod_small by lia.
        rewrite be_bytes_length. cbn [length]. unfold klen, byte. lia. }
    unfold request_wire. rewrite be_bytes_length. rewrite <- !app_assoc. reflexivity.
  - change (Z.to_nat (sizeof_header + 4 + 0)) with (24 + 4)%nat.
    change (Z.to_nat (wrap 8 4 + sizeof_header + 0)) with (24 + 4)%nat.
    rewrite memcpy_request, Hkl, ntohs_htons.
    set (B := 4 + 0 + klen mod 65536).
    cbn [message_header with_header message_body with_body
         set_norm_expiration andb].
    rewrite host_bytes_htonl.
    rewrite (hdr_bytes_network _ PROTOCOL_BINARY_REQ PROTOCOL_BINARY_CMD_TOUCH
               klen 4 PROTOCOL_BINARY_RAW_BYTES vb B (pkt_opaque pkt0)
               (be_bytes 8 0));
      [| reflexivity | reflexivity | exact Hkl | exact Hext | reflexivity
       | exact Hvb | reflexivity | reflexivity | apply host_bytes_8_zero].
    replace B with (Z.of_nat (length (@nil byte)
                              + length (be_bytes 4 (cmd_exptime (cmd_base cmd)))
                              + length (key_area (settings instance) (cmd_base cmd)))).
    2:{ subst B. rewrite Z.mod_small by lia.
        rewrite be_bytes_length. cbn [length]. unfold klen, byte. lia. }
    unfold request_wire. rewrite be_bytes_length. rewrite <- !app_assoc. reflexivity.
Qed.

Lemma host_bytes_const (n : nat) : host_bytes n 0 = be_bytes n 0.
Proof.
  unfold host_bytes. destruct host_little_endian; [|reflexivity].
  unfold be_bytes. induction n as [|n IH]; [reflexivity|].
  cbn [le_bytes]. change (0 / 256) with 0. change (0 mod 256) with 0.
  cbn [rev]. rewrite <- IH. clear IH.
  induction n as [|n IH]; [reflexivity|].
  cbn [le_bytes app]. change (0 / 256) with 0. change (0 mod 256) with 0.
  now rewrite <- IH.
Qed.

(** What a successful [lcb_getcid] leaves behind, in full. *)
Lemma lcb_getcid_scheduled (instance instance' : lcb_INSTANCE) (cookie : Z)
    (cmd : lcb_CMDGETCID) :
  lcb_getcid instance cookie cmd = (LCB_SUCCESS, instance') ->
  Z.of_nat (length (getcid_path cmd)) < 65536 ->
  exists p rest pkt0 p',
    pipelines (cmdq instance) = p :: rest /\
    mcreq_allocate_packet p = Some (pkt0, p') /\
    instance'
    = LCB_SCHED_ADD (with_cmdq (pl_set (cmdq instance) (PL_server 0) p') instance)
        (PL_server 0)
        (mk_packet (pkt_opaque pkt0) (Z.lor (pkt_flags pkt0) MCREQ_F_NOCID) 0
           (request_wire PROTOCOL_BINARY_CMD_COLLECTIONS_GET_CID 0
              (host_bytes 4 (pkt_opaque pkt0)) 0 [] [] (getcid_path cmd))
           cookie (hrtime instance)).
Proof.
  unfold lcb_getcid.
  destruct (is_null (config (cmdq instance))); [discriminate|].
  destruct (use_collections (settings instance)) eqn:Hu; [|discriminate].
  cbn [negb].
  match goal with
  | |- context [if ?c then (LCB_EINVAL, _) else _] => destruct c; [discriminate|]
  end.
  destruct (npipelines (cmdq instance) <? 1); [discriminate|].
  destruct (pipelines (cmdq instance)) as [|p rest] eqn:Hpl; [discriminate|].
  destruct (mcreq_allocate_packet p) as [[pkt0 p']|] eqn:Ha; [|discriminate].
  intros H Hlen; inversion H; subst; clear H.
  exists p, rest, pkt0, p'.
  split; [reflexivity|]. split; [exact Ha|].
  f_equal.
  set (len := Z.of_nat (length (getcid_path cmd))) in *.
  assert (Hl0 : 0 <= len) by apply Nat2Z.is_nonneg.
  unfold mcreq_write_hdr, mcreq_reserve_key, set_kh_span, set_start, set_cookie,
    set_flags, mcreq_reserve_header, gethrtime.
  cbn [pkt_opaque pkt_flags pkt_extlen kh_span reqdata_cookie reqdata_start].
  rewrite Hu, land_lor_same.
  destruct (Z.eqb_spec MCREQ_F_NOCID 0) as [E|_];
    [now elim MCREQ_F_NOCID_nonzero|].
  cbn [andb app].
  change (Z.to_nat MCREQ_PKT_BASESIZE) with 24%nat.
  change (Z.to_nat sizeof_header) with 24%nat.
  rewrite memcpy_header.
  f_equal.
  unfold hdr_bytes, request_wire.
  cbn [request_magic request_opcode request_keylen request_extlen request_datatype
       request_vbucket request_bodylen request_opaque request_cas
       set_bodylen set_keylen set_opaque set_datatype set_opcode set_magic
       header_zero].
  change 16 with (8 * Z.of_nat 2). change 32 with (8 * Z.of_nat 4).
  rewrite !host_bytes_wrap, host_bytes_ntohs, host_bytes_htonl, !be_bytes_wrap.
  rewrite !host_bytes_1, !host_bytes_const.
  cbn [length Nat.add]. fold len.
  rewrite <- !app_assoc. reflexivity.
Qed.

(** What a successful [lcb_getmanifest] leaves behind, in full. *)
Lemma lcb_getmanifest_scheduled (instance instance' : lcb_INSTANCE) (cookie : Z)
    (cmd : lcb_CMDGETMANIFEST) :
  lcb_getmanifest instance cookie cmd = (LCB_SUCCESS, instance') ->
  exists p rest pkt0 p',
    pipelines (cmdq instance) = p :: rest /\
    mcreq_allocate_packet p = Some (pkt0, p') /\
    instance'
    = LCB_SCHED_ADD (with_cmdq (pl_set (cmdq instance) (PL_server 0) p') instance)
        (PL_server 0)
        (mk_packet (pkt_opaque pkt0) (pkt_flags pkt0) 0
           (request_wire PROTOCOL_BINARY_CMD_COLLECTIONS_GET_MANIFEST 0
              (host_bytes 4 (pkt_opaque pkt0)) 0 [] [] [])
           cookie (hrtime instance)).
Proof.
  unfold lcb_getmanifest.
  destruct (is_null (config (cmdq instance))); [discriminate|].
  destruct (use_collections (settings instance)) eqn:Hu; [|discriminate].
  cbn [negb].
  destruct (npipelines (cmdq instance) <? 1); [discriminate|].
  destruct (pipelines (cmdq instance)) as [|p rest] eqn:Hpl; [discriminate|].
  destruct (mcreq_allocate_packet p) as [[pkt0 p']|] eqn:Ha; [|discriminate].
  intros H; inversion H; subst; clear H.
  exists p, rest, pkt0, p'.
  split; [reflexivity|]. split; [exact Ha|].
  f_equal.
  unfold set_kh_span, set_start, set_cookie, mcreq_reserve_header, gethrtime.
  cbn [pkt_opaque pkt_flags pkt_extlen kh_span reqdata_cookie reqdata_start].
  f_equal.
  unfold memcpy.
  rewrite firstn_all2 by (rewrite hdr_bytes_length; apply Nat.le_refl).
  match goal with
  | |- _ ++ ?s = _ => change s with (@nil byte)
  end.
  rewrite app_nil_r.
  unfold hdr_bytes, request_wire.
  cbn [request_magic request_opcode request_keylen request_extlen request_datatype
       request_vbucket request_bodylen request_opaque request_cas
       set_opaque set_datatype set_opcode set_magic header_zero].
  change 32 with (8 * Z.of_nat 4).
  rewrite !host_bytes_wrap, !host_bytes_1, !host_bytes_const.
  reflexivity.
Qed.

(** ** What scheduling changes and what it leaves alone *)

Lemma nth_error_list_set_other {A : Type} (l : list A) (i j : nat) (x : A) :
  i <> j -> nth_error (list_set l i x) j = nth_error l j.
Proof.
  revert i j; induction l as [|h t IH]; intros [|i] [|j] H; simpl; auto;
    try (now elim H).
Qed.

Lemma pl_get_pl_set_other (cq : mc_CMDQUEUE) (pl r : pl_ref) (x : mc_PIPELINE) :
  r <> pl -> pl_get (pl_set cq pl x) r = pl_get cq r.
Proof.
  destruct pl as [i|], r as [j|]; simpl; intros H; auto.
  - apply nth_error_list_set_other. congruence.
  - now elim H.
Qed.

Lemma sched_add_one_packet (instance : lcb_INSTANCE) (pl : pl_ref)
    (p p' : mc_PIPELINE) (pkt0 pkt : mc_PACKET) :
  pl_get (cmdq instance) pl = Some p ->
  mcreq_allocate_packet p = Some (pkt0, p') ->
  one_packet_added instance
    (LCB_SCHED_ADD (with_cmdq (pl_set (cmdq instance) pl p') instance) pl pkt)
    pl pkt.
Proof.
  intros Hp Ha.
  assert (Hp' : pl_get (pl_set (cmdq instance) pl p') pl = Some p')
    by now apply pl_get_pl_set with (p := p).
  unfold one_packet_added.
  split.
  { rewrite (queued_on_sched_add _ _ p') by exact Hp'.
    unfold queued_on. now rewrite Hp, (allocate_keeps_queue _ _ _ Ha). }
  unfold LCB_SCHED_ADD. cbn [cmdq with_cmdq]. rewrite Hp'. cbn [cmdq with_cmdq].
  split.
  { intros r Hr. now rewrite !pl_get_pl_set_other. }
  destruct pl; cbn [pl_set config pipelines settings supports_syncreplication
                    hrtime with_cmdq]; rewrite ?list_set_length; repeat split.
Qed.

(** The packet a builder hands to the scheduler, next to the allocation it
    came from. *)
Lemma lcb_remove_frame (instance instance' : lcb_INSTANCE) (cookie : Z)
    (cmd : lcb_CMDREMOVE) :
  lcb_remove instance cookie cmd = (LCB_SUCCESS, instance') ->
  exists pl p pkt0 p' pkt,
    pl_get (cmdq instance) pl = Some p /\
    mcreq_allocate_packet p = Some (pkt0, p') /\
    instance'
    = LCB_SCHED_ADD (with_cmdq (pl_set (cmdq instance) pl p') instance) pl pkt /\
    reqdata_cookie pkt = cookie /\ reqdata_start pkt = hrtime instance.
Proof.
  unfold lcb_remove.
  destruct (LCB_KEYBUF_IS_EMPTY _); [discriminate|].
  destruct (durability_requested cmd) eqn:Hd;
    destruct (LCBT_SUPPORT_SYNCREPLICATION instance) eqn:Hs; try discriminate;
    match goal with
    | |- context [match ?t with BP_fail _ => _ | BP_ok _ _ _ _ => _ end] =>
        destruct t as [err|hdr pkt pl cq'] eqn:Hbp
    end;
    try (intros H; inversion H; subst; apply basic_packet_fail in Hbp;
         now elim Hbp);
    intros H; inversion H; subst; clear H;
    destruct (basic_packet_ok_full _ _ _ _ _ _ _ _ _ _ _ Hbp)
      as (cfg & vb & srvix & p & pkt0 & p' & Hc & Hm & Ht & Hp & Ha & Hcq & Hpkt & Hh);
    rewrite Hcq; clear Hbp Hcq Hh Hpkt;
    eexists pl, p, pkt0, p', _;
    (split; [exact Hp|]); (split; [exact Ha|]); (split; [reflexivity|]);
    split; reflexivity.
Qed.

Lemma lcb_touch_frame (instance instance' : lcb_INSTANCE) (cookie : Z)
    (cmd : lcb_CMDTOUCH) :
  lcb_touch instance cookie cmd = (LCB_SUCCESS, instance') ->
  exists pl p pkt0 p' pkt,
    pl_get (cmdq instance) pl = Some p /\
    mcreq_allocate_packet p = Some (pkt0, p') /\
    instance'
    = LCB_SCHED_ADD (with_cmdq (pl_set (cmdq instance) pl p') instance) pl pkt /\
    reqdata_cookie pkt = cookie /\ reqdata_start pkt = hrtime instance.
Proof.
  unfold lcb_touch.
  destruct (LCB_KEYBUF_IS_EMPTY _); [discriminate|].
  destruct (durability_requested cmd) eqn:Hd;
    destruct (LCBT_SUPPORT_SYNCREPLICATION instance) eqn:Hs; try discriminate;
    match goal with
    | |- context [match ?t with BP_fail _ => _ | BP_ok _ _ _ _ => _ end] =>
        destruct t as [err|hdr pkt pl cq'] eqn:Hbp
    end;
    try (intros H; inversion H; subst; apply basic_packet_fail in Hbp;
         now elim Hbp);
    intros H; inversion H; subst; clear H;
    destruct (basic_packet_ok_full _ _ _ _ _ _ _ _ _ _ _ Hbp)
      as (cfg & vb & srvix & p & pkt0 & p' & Hc & Hm & Ht & Hp & Ha & Hcq & Hpkt & Hh);
    rewrite Hcq; clear Hbp Hcq Hh Hpkt;
    eexists pl, p, pkt0, p', _;
    (split; [exact Hp|]); (split; [exact Ha|]); (split; [reflexivity|]);
    split; reflexivity.
Qed.

Lemma lcb_getcid_frame (instance instance' : lcb_INSTANCE) (cookie : Z)
    (cmd : lcb_CMDGETCID) :
  lcb_getcid instance cookie cmd = (LCB_SUCCESS, instance') ->
  exists p pkt0 p' pkt,
    pl_get (cmdq instance) (PL_server 0) = Some p /\
    mcreq_allocate_packet p = Some (pkt0, p') /\
    instance'
    = LCB_SCHED_ADD (with_cmdq (pl_set (cmdq instance) (PL_server 0) p') instance)
        (PL_server 0) pkt /\
    reqdata_cookie pkt = cookie /\ reqdata_start pkt = hrtime instance.
Proof.
  unfold lcb_getcid.
  destruct (is_null (config (cmdq instance))); [discriminate|].
  destruct (negb (use_collections (settings instance))); [discriminate|].
  destruct (_ || _); [discriminate|].
  destruct (npipelines (cmdq instance) <? 1); [discriminate|].
  destruct (pipelines (cmdq instance)) as [|p rest] eqn:Hpl; [discriminate|].
  destruct (mcreq_allocate_packet p) as [[pkt0 p']|] eqn:Ha; [|discriminate].
  intros H; inversion H; subst; clear H.
  eexists p, pkt0, p', _.
  split; [cbn [pl_get]; rewrite Hpl; reflexivity|].
  split; [exact Ha|]. split; [reflexivity|]. split; reflexivity.
Qed.

Lemma lcb_getmanifest_frame (instance instance' : lcb_INSTANCE) (cookie : Z)
    (cmd : lcb_CMDGETMANIFEST) :
  lcb_getmanifest instance cookie cmd = (LCB_SUCCESS, instance') ->
  exists p pkt0 p' pkt,
    pl_get (cmdq instance) (PL_server 0) = Some p /\
    mcreq_allocate_packet p = Some (pkt0, p') /\
    instance'
    = LCB_SCHED_ADD (with_cmdq (pl_set (cmdq instance) (PL_server 0) p') instance)
        (PL_server 0) pkt /\
    reqdata_cookie pkt = cookie /\ reqdata_start pkt = hrtime instance.
Proof.
  unfold lcb_getmanifest.
  destruct (is_null (config (cmdq instance))); [discriminate|].
  destruct (negb (use_collections (settings instance))); [discriminate|].
  destruct (npipelines (cmdq instance) <? 1); [discriminate|].
  destruct (pipelines (cmdq instance)) as [|p rest] eqn:Hpl; [discriminate|].
  destruct (mcreq_allocate_packet p) as [[pkt0 p']|] eqn:Ha; [|discriminate].
  intros H; inversion H; subst; clear H.
  eexists p, pkt0, p', _.
  split; [cbn [pl_get]; rewrite Hpl; reflexivity|].
  split; [exact Ha|]. split; [reflexivity|]. split; reflexivity.
Qed.

(** ** The layout of the scheduled requests *)

Lemma request_wire_length (opcode vb cas : Z) (q frame extras keyarea : list byte) :
  length q = 4%nat ->
  length (request_wire opcode vb q cas frame extras keyarea)
  = (24 + (length frame + length extras + length keyarea))%nat.
Proof.
  intros Hq. unfold request_wire.
  rewrite !length_app, !be_bytes_length, Hq. cbn [length]. lia.
Qed.

Lemma request_wire_keylen (opcode vb cas : Z) (q frame extras keyarea : list byte) :
  Z.of_nat (length keyarea) < 65536 ->
  be_val (span 2 2 (request_wire opcode vb q cas frame extras keyarea))
  = Z.of_nat (length keyarea).
Proof.
  intros Hk. unfold request_wire, span. cbn [app skipn].
  rewrite firstn_app, be_bytes_length, Nat.sub_diag, firstn_O, app_nil_r.
  rewrite firstn_all2 by (rewrite be_bytes_length; apply Nat.le_refl).
  rewrite be_val_be_bytes. apply Z.mod_small.
  change (256 ^ Z.of_nat 2) with 65536. lia.
Qed.

Lemma request_wire_bodylen (opcode vb cas : Z) (q frame extras keyarea : list byte) :
  Z.of_nat (length frame + length extras + length keyarea) < 4294967296 ->
  be_val (span 8 4 (request_wire opcode vb q cas frame extras keyarea))
  = Z.of_nat (length frame + length extras + length keyarea).
Proof.
  intros Hk. unfold request_wire, span.
  replace (skipn 8 _) with
    (be_bytes 4 (Z.of_nat (length frame + length extras + length keyarea))
     ++ q ++ be_bytes 8 cas ++ frame ++ extras ++ keyarea).
  2:{ cbn [app]. generalize (Z.of_nat (length keyarea)); intros k.
      assert (H2 : forall x, exists a b, be_bytes 2 x = [a; b]).
      { intros x. pose proof (be_bytes_length 2 x) as Hl.
        destruct (be_bytes 2 x) as [|a [|b [|c l]]]; try discriminate.
        now exists a, b. }
      destruct (H2 k) as (a & b & ->). destruct (H2 vb) as (c & d & ->).
      reflexivity. }
  rewrite firstn_app, be_bytes_length, Nat.sub_diag, firstn_O, app_nil_r.
  rewrite firstn_all2 by (rewrite be_bytes_length; apply Nat.le_refl).
  rewrite be_val_be_bytes. apply Z.mod_small.
  change (256 ^ Z.of_nat 4) with 4294967296. lia.
Qed.

(** X1: a successful [lcb_remove] leaves one more packet on one pipeline, and
    the buffer of that packet is, byte for byte: the magic
    [PROTOCOL_BINARY_REQ], the opcode [PROTOCOL_BINARY_CMD_DELETE], the length
    of the key area in two bytes, an extras length of zero, the raw datatype,
    the vbucket the topology maps the key to, the length of everything behind
    the header in four bytes, the opaque as it lies in memory, the command's
    CAS in eight bytes, then the durability frame if a level was asked for,
    then the key area.  All multi-byte fields but the opaque have the most
    significant byte first on either host.  The key area is taken to be
    shorter than 65536 bytes. *)
Theorem remove_request_layout (instance instance' : lcb_INSTANCE) (cookie : Z)
    (cmd : lcb_CMDREMOVE) :
  lcb_remove instance cookie cmd = (LCB_SUCCESS, instance') ->
  Z.of_nat (length (key_area (settings instance) (cmd_base cmd))) < 65536 ->
  exists cfg pl pkt,
    config (cmdq instance) = Some cfg /\
    queued_on (cmdq instance') pl = queued_on (cmdq instance) pl ++ [pkt] /\
    kh_span pkt
    = request_wire PROTOCOL_BINARY_CMD_DELETE
        (fst (lcbvb_map_key cfg (cmd_key (cmd_base cmd))))
        (host_bytes 4 (pkt_opaque pkt)) (cmd_cas (cmd_base cmd))
        (frame_of cmd) [] (key_area (settings instance) (cmd_base cmd)).
Proof.
  intros H Hlen.
  destruct (lcb_remove_scheduled _ _ _ _ H Hlen)
    as (cfg & vb & srvix & pl & p & pkt0 & p' & Hc & Hm & _ & Hp & Ha & ->).
  destruct (sched_add_one_packet instance pl p p' pkt0
              (mk_packet (pkt_opaque pkt0) (pkt_flags pkt0) (ffextlen_of cmd)
                 (request_wire PROTOCOL_BINARY_CMD_DELETE vb
                    (host_bytes 4 (pkt_opaque pkt0)) (cmd_cas (cmd_base cmd))
                    (frame_of cmd) [] (key_area (settings instance) (cmd_base cmd)))
                 cookie (hrtime instance)) Hp Ha) as (Hq & _).
  eexists cfg, pl, _. split; [exact Hc|]. split; [exact Hq|].
  rewrite Hm. reflexivity.
Qed.

(** X2: a successful [lcb_touch] leaves one more packet on one pipeline, and
    the buffer of that packet is, byte for byte: the magic
    [PROTOCOL_BINARY_REQ], the opcode [PROTOCOL_BINARY_CMD_TOUCH], the length
    of the key area, an extras length of four, the raw datatype, the vbucket
    of the key, the length of everything behind the header, the opaque as it
    lies in memory, a CAS of zero whatever the command's CAS is, then the
    durability frame if a level was asked for, then the expiry in four bytes,
    most significant first, then the key area.  Nothing of what the request
    object held on entry is left in the packet. *)
Theorem touch_request_layout (instance instance' : lcb_INSTANCE) (cookie : Z)
    (cmd : lcb_CMDTOUCH) :
  lcb_touch instance cookie cmd = (LCB_SUCCESS, instance') ->
  Z.of_nat (length (key_area (settings instance) (cmd_base cmd))) < 65536 ->
  exists cfg pl pkt,
    config (cmdq instance) = Some cfg /\
    queued_on (cmdq instance') pl = queued_on (cmdq instance) pl ++ [pkt] /\
    kh_span pkt
    = request_wire PROTOCOL_BINARY_CMD_TOUCH
        (fst (lcbvb_map_key cfg (cmd_key (cmd_base cmd))))
        (host_bytes 4 (pkt_opaque pkt)) 0
        (frame_of cmd) (be_bytes 4 (cmd_exptime (cmd_base cmd)))
        (key_area (settings instance) (cmd_base cmd)).
Proof.
  intros H Hlen.
  destruct (lcb_touch_scheduled _ _ _ _ H Hlen)
    as (cfg & vb & srvix & pl & p & pkt0 & p' & Hc & Hm & _ & Hp & Ha & ->).
  destruct (sched_add_one_packet instance pl p p' pkt0
              (mk_packet (pkt_opaque pkt0) (pkt_flags pkt0) (4 + ffextlen_of cmd)
                 (request_wire PROTOCOL_BINARY_CMD_TOUCH vb
                    (host_bytes 4 (pkt_opaque pkt0)) 0
                    (frame_of cmd) (be_bytes 4 (cmd_exptime (cmd_base cmd)))
                    (key_area (settings instance) (cmd_base cmd)))
                 cookie (hrtime instance)) Hp Ha) as (Hq & _).
  eexists cfg, pl, _. split; [exact Hc|]. split; [exact Hq|].
  rewrite Hm. reflexivity.
Qed.

(** X3: a successful [lcb_getcid] leaves one more packet on the first
    pipeline, and the buffer of that packet is, byte for byte: the magic
    [PROTOCOL_BINARY_REQ], the opcode [PROTOCOL_BINARY_CMD_COLLECTIONS_GET_CID],
    the length of the path in two bytes, no extras, the raw datatype, vbucket
    zero, the length of the path in four bytes, the opaque as it lies in
    memory, a CAS of zero, and the path: the scope, a dot, the collection.
    No collection id tag precedes the path, although collections are in use.
    The path is taken to be shorter than 65536 bytes. *)
Theorem getcid_request_layout (instance instance' : lcb_INSTANCE) (cookie : Z)
    (cmd : lcb_CMDGETCID) :
  lcb_getcid instance cookie cmd = (LCB_SUCCESS, instance') ->
  Z.of_nat (length (getcid_path cmd)) < 65536 ->
  exists pkt,
    queued_on (cmdq instance') (PL_server 0)
    = queued_on (cmdq instance) (PL_server 0) ++ [pkt] /\
    kh_span pkt
    = request_wire PROTOCOL_BINARY_CMD_COLLECTIONS_GET_CID 0
        (host_bytes 4 (pkt_opaque pkt)) 0 [] []
        (name_bytes (scope cmd) ++ [46] ++ name_bytes (collection cmd)).
Proof.
  intros H Hlen.
  destruct (lcb_getcid_scheduled _ _ _ _ H Hlen)
    as (p & rest & pkt0 & p' & Hpl & Ha & ->).
  assert (Hp : pl_get (cmdq instance) (PL_server 0) = Some p)
    by (cbn [pl_get]; now rewrite Hpl).
  destruct (sched_add_one_packet instance (PL_server 0) p p' pkt0
              (mk_packet (pkt_opaque pkt0) (Z.lor (pkt_flags pkt0) MCREQ_F_NOCID) 0
                 (request_wire PROTOCOL_BINARY_CMD_COLLECTIONS_GET_CID 0
                    (host_bytes 4 (pkt_opaque pkt0)) 0 [] [] (getcid_path cmd))
                 cookie (hrtime instance)) Hp Ha) as (Hq & _).
  eexists. split; [exact Hq|].
  cbn [kh_span pkt_opaque]. unfold getcid_path.
  now rewrite app_nil_l, <- app_assoc.
Qed.

(** X4: a successful [lcb_getmanifest] leaves one more packet on the first
    pipeline, and the buffer of that packet is the header alone, 24 bytes:
    the magic [PROTOCOL_BINARY_REQ], the opcode
    [PROTOCOL_BINARY_CMD_COLLECTIONS_GET_MANIFEST], the opaque as it lies in
    memory in bytes 12 to 15, and zero everywhere else. *)
Theorem getmanifest_request_layout (instance instance' : lcb_INSTANCE) (cookie : Z)
    (cmd : lcb_CMDGETMANIFEST) :
  lcb_getmanifest instance cookie cmd = (LCB_SUCCESS, instance') ->
  exists pkt,
    queued_on (cmdq instance') (PL_server 0)
    = queued_on (cmdq instance) (PL_server 0) ++ [pkt] /\
    length (kh_span pkt) = 24%nat /\
    kh_span pkt
    = [PROTOCOL_BINARY_REQ; PROTOCOL_BINARY_CMD_COLLECTIONS_GET_MANIFEST]
      ++ repeat 0 10 ++ host_bytes 4 (pkt_opaque pkt) ++ repeat 0 8.
Proof.
  intros H.
  destruct (lcb_getmanifest_scheduled _ _ _ _ H)
    as (p & rest & pkt0 & p' & Hpl & Ha & ->).
  assert (Hp : pl_get (cmdq instance) (PL_server 0) = Some p)
    by (cbn [pl_get]; now rewrite Hpl).
  destruct (sched_add_one_packet instance (PL_server 0) p p' pkt0
              (mk_packet (pkt_opaque pkt0) (pkt_flags pkt0) 0
                 (request_wire PROTOCOL_BINARY_CMD_COLLECTIONS_GET_MANIFEST 0
                    (host_bytes 4 (pkt_opaque pkt0)) 0 [] [] [])
                 cookie (hrtime instance)) Hp Ha) as (Hq & _).
  eexists. split; [exact Hq|].
  cbn [kh_span pkt_opaque]. split.
  - rewrite request_wire_length by apply host_bytes_length. reflexivity.
  - unfold request_wire. cbn [length Nat.add app]. rewrite !app_nil_r.
    reflexivity.
Qed.

Lemma request_wire_self_describing (opaque flags extlen cookie start opcode vb cas : Z)
    (q frame extras keyarea : list byte) :
  length q = 4%nat ->
  extlen = Z.of_nat (length frame + length extras) ->
  (length frame + length extras <= 8)%nat ->
  Z.of_nat (length keyarea) < 65536 ->
  self_describing
    (mk_packet opaque flags extlen
       (request_wire opcode vb q cas frame extras keyarea) cookie start).
Proof.
  intros Hq He Hf Hk. unfold self_describing. cbn [kh_span pkt_extlen].
  rewrite request_wire_length by exact Hq.
  rewrite request_wire_bodylen by lia.
  rewrite request_wire_keylen by exact Hk.
  unfold sizeof_header. lia.
Qed.

(** X5: the length fields of every request that [lcb_remove], [lcb_touch],
    [lcb_getcid] and [lcb_getmanifest] schedule agree with the buffer.  The
    body length in bytes 8 to 11, most significant first, is the number of
    bytes behind the 24-byte header; the key length in bytes 2 and 3 is the
    number of bytes behind the header and the extras the packet accounts for
    (the durability frame and the expiry).  The key area, or the path, is
    taken to be shorter than 65536 bytes. *)
Theorem scheduled_requests_self_describing (instance instance' : lcb_INSTANCE)
    (cookie : Z) :
  (forall cmd, lcb_remove instance cookie cmd = (LCB_SUCCESS, instance') ->
     Z.of_nat (length (key_area (settings instance) (cmd_base cmd))) < 65536 ->
     exists pl pkt,
       queued_on (cmdq instance') pl = queued_on (cmdq instance) pl ++ [pkt] /\
       self_describing pkt) /\
  (forall cmd, lcb_touch instance cookie cmd = (LCB_SUCCESS, instance') ->
     Z.of_nat (length (key_area (settings instance) (cmd_base cmd))) < 65536 ->
     exists pl pkt,
       queued_on (cmdq instance') pl = queued_on (cmdq instance) pl ++ [pkt] /\
       self_describing pkt) /\
  (forall cmd, lcb_getcid instance cookie cmd = (LCB_SUCCESS, instance') ->
     Z.of_nat (length (getcid_path cmd)) < 65536 ->
     exists pl pkt,
       queued_on (cmdq instance') pl = queued_on (cmdq instance) pl ++ [pkt] /\
       self_describing pkt) /\
  (forall cmd, lcb_getmanifest instance cookie cmd = (LCB_SUCCESS, instance') ->
     exists pl pkt,
       queued_on (cmdq instance') pl = queued_on (cmdq instance) pl ++ [pkt] /\
       self_describing pkt).
Proof.
  repeat apply conj.
  - intros cmd H Hlen.
    destruct (lcb_remove_scheduled _ _ _ _ H Hlen)
      as (cfg & vb & srvix & pl & p & pkt0 & p' & _ & _ & _ & Hp & Ha & ->).
    eexists pl, _. split.
    + exact (proj1 (sched_add_one_packet instance pl p p' pkt0 _ Hp Ha)).
    + apply request_wire_self_describing;
        [apply host_bytes_length | | | exact Hlen];
        unfold frame_of, ffextlen_of; destruct (durability_requested cmd);
        rewrite ?durability_frame_length; cbn [length]; try reflexivity; lia.
  - intros cmd H Hlen.
    destruct (lcb_touch_scheduled _ _ _ _ H Hlen)
      as (cfg & vb & srvix & pl & p & pkt0 & p' & _ & _ & _ & Hp & Ha & ->).
    eexists pl, _. split.
    + exact (proj1 (sched_add_one_packet instance pl p p' pkt0 _ Hp Ha)).
    + apply request_wire_self_describing;
        [apply host_bytes_length | | | exact Hlen];
        rewrite be_bytes_length;
        unfold frame_of, ffextlen_of; destruct (durability_requested cmd);
        rewrite ?durability_frame_length; cbn [length]; try reflexivity; lia.
  - intros cmd H Hlen.
    destruct (lcb_getcid_scheduled _ _ _ _ H Hlen)
      as (p & rest & pkt0 & p' & Hpl & Ha & ->).
    assert (Hp : pl_get (cmdq instance) (PL_server 0) = Some p)
      by (cbn [pl_get]; now rewrite Hpl).
    eexists (PL_server 0), _. split.
    + exact (proj1 (sched_add_one_packet instance _ p p' pkt0 _ Hp Ha)).
    + apply request_wire_self_describing;
        [apply host_bytes_length | reflexivity | cbn [length]; lia | exact Hlen].
  - intros cmd H.
    destruct (lcb_getmanifest_scheduled _ _ _ _ H)
      as (p & rest & pkt0 & p' & Hpl & Ha & ->).
    assert (Hp : pl_get (cmdq instance) (PL_server 0) = Some p)
      by (cbn [pl_get]; now rewrite Hpl).
    eexists (PL_server 0), _. split.
    + exact (proj1 (sched_add_one_packet instance _ p p' pkt0 _ Hp Ha)).
    + apply request_wire_self_describing;
        [apply host_bytes_length | reflexivity | cbn [length]; lia
        | cbn [length]; lia].
Qed.

(** ** What a successful call changes *)

(** X6: a successful [lcb_remove] or [lcb_touch] changes the instance in one
    place.  One pipeline has the new packet behind the packets it had
    scheduled before; every other pipeline, the fallback among them, is as it
    was, and so are the configuration, the number of pipelines, the settings
    and the clock. *)
Theorem key_operation_adds_one_packet (instance instance' : lcb_INSTANCE)
    (cookie : Z) (cmd : lcb_CMDDURABLE) :
  lcb_remove instance cookie cmd = (LCB_SUCCESS, instance') \/
  lcb_touch instance cookie cmd = (LCB_SUCCESS, instance') ->
  exists pl pkt,
    queued_on (cmdq instance') pl = queued_on (cmdq instance) pl ++ [pkt] /\
    (forall r, r <> pl -> pl_get (cmdq instance') r = pl_get (cmdq instance) r) /\
    config (cmdq instance') = config (cmdq instance) /\
    length (pipelines (cmdq instance')) = length (pipelines (cmdq instance)) /\
    settings instance' = settings instance /\
    supports_syncreplication instance' = supports_syncreplication instance /\
    hrtime instance' = hrtime instance.
Proof.
  intros [H|H];
    [apply lcb_remove_frame in H | apply lcb_touch_frame in H];
    destruct H as (pl & p & pkt0 & p' & pkt & Hp & Ha & -> & _);
    exists pl, pkt; exact (sched_add_one_packet instance pl p p' pkt0 pkt Hp Ha).
Qed.

(** X7: [lcb_getcid] and [lcb_getmanifest] always schedule on the first
    pipeline of the queue, whatever the names are.  After a successful call
    the first pipeline has the new packet behind the packets it had scheduled
    before; every other pipeline and the rest of the instance are as they
    were. *)
Theorem collections_requests_go_to_first_pipeline (instance instance' : lcb_INSTANCE)
    (cookie : Z) :
  (forall cmd, lcb_getcid instance cookie cmd = (LCB_SUCCESS, instance') ->
     exists pkt, one_packet_added instance instance' (PL_server 0) pkt) /\
  (forall cmd, lcb_getmanifest instance cookie cmd = (LCB_SUCCESS, instance') ->
     exists pkt, one_packet_added instance instance' (PL_server 0) pkt).
Proof.
  split; intros cmd H;
    [apply lcb_getcid_frame in H | apply lcb_getmanifest_frame in H];
    destruct H as (p & pkt0 & p' & pkt & Hp & Ha & -> & _);
    exists pkt; exact (sched_add_one_packet instance _ p p' pkt0 pkt Hp Ha).
Qed.

(** X8: the packet that a successful [lcb_remove], [lcb_touch], [lcb_getcid]
    or [lcb_getmanifest] schedules carries the cookie the caller passed and,
    as its start time, the reading of the clock at the call. *)
Theorem scheduled_packet_carries_cookie (instance instance' : lcb_INSTANCE)
    (cookie : Z) :
  (forall cmd, lcb_remove instance cookie cmd = (LCB_SUCCESS, instance') ->
     exists pl pkt,
       queued_on (cmdq instance') pl = queued_on (cmdq instance) pl ++ [pkt] /\
       reqdata_cookie pkt = cookie /\ reqdata_start pkt = gethrtime instance) /\
  (forall cmd, lcb_touch instance cookie cmd = (LCB_SUCCESS, instance') ->
     exists pl pkt,
       queued_on (cmdq instance') pl = queued_on (cmdq instance) pl ++ [pkt] /\
       reqdata_cookie pkt = cookie /\ reqdata_start pkt = gethrtime instance) /\
  (forall cmd, lcb_getcid instance cookie cmd = (LCB_SUCCESS, instance') ->
     exists pl pkt,
       queued_on (cmdq instance') pl = queued_on (cmdq instance) pl ++ [pkt] /\
       reqdata_cookie pkt = cookie /\ reqdata_start pkt = gethrtime instance) /\
  (forall cmd, lcb_getmanifest instance cookie cmd = (LCB_SUCCESS, instance') ->
     exists pl pkt,
       queued_on (cmdq instance') pl = queued_on (cmdq instance) pl ++ [pkt] /\
       reqdata_cookie pkt = cookie /\ reqdata_start pkt = gethrtime instance).
Proof.
  repeat apply conj; intros cmd H.
  - apply lcb_remove_frame in H.
    destruct H as (pl & p & pkt0 & p' & pkt & Hp & Ha & -> & Hc & Hs).
    exists pl, pkt. split; [|now split].
    exact (proj1 (sched_add_one_packet instance pl p p' pkt0 pkt Hp Ha)).
  - apply lcb_touch_frame in H.
    destruct H as (pl & p & pkt0 & p' & pkt & Hp & Ha & -> & Hc & Hs).
    exists pl, pkt. split; [|now split].
    exact (proj1 (sched_add_one_packet instance pl p p' pkt0 pkt Hp Ha)).
  - apply lcb_getcid_frame in H.
    destruct H as (p & pkt0 & p' & pkt & Hp & Ha & -> & Hc & Hs).
    exists (PL_server 0), pkt. split; [|now split].
    exact (proj1 (sched_add_one_packet instance _ p p' pkt0 pkt Hp Ha)).
  - apply lcb_getmanifest_frame in H.
    destruct H as (p & pkt0 & p' & pkt & Hp & Ha & -> & Hc & Hs).
    exists (PL_server 0), pkt. split; [|now split].
    exact (proj1 (sched_add_one_packet instance _ p p' pkt0 pkt Hp Ha)).
Qed.

(** X9: when the collection requests go through.  [lcb_getmanifest] returns
    [LCB_SUCCESS] exactly when the instance has a configuration, collections
    are enabled, the queue has a pipeline and the first pipeline can allocate
    a packet; [lcb_getcid] needs in addition that the scope and the
    collection are both given and non-empty. *)
Theorem collections_requests_succeed_iff (instance : lcb_INSTANCE) (cookie : Z) :
  (forall cmd,
     fst (lcb_getmanifest instance cookie cmd) = LCB_SUCCESS <->
     is_null (config (cmdq instance)) = false /\
     use_collections (settings instance) = true /\
     exists p rest, pipelines (cmdq instance) = p :: rest /\
                    mcreq_allocate_packet p <> None) /\
  (forall cmd,
     fst (lcb_getcid instance cookie cmd) = LCB_SUCCESS <->
     is_null (config (cmdq instance)) = false /\
     use_collections (settings instance) = true /\
     (exists s, scope cmd = Some s /\ s <> []) /\
     (exists c, collection cmd = Some c /\ c <> []) /\
     exists p rest, pipelines (cmdq instance) = p :: rest /\
                    mcreq_allocate_packet p <> None).
Proof.
  split; intros cmd.
  - unfold lcb_getmanifest, npipelines.
    destruct (is_null (config (cmdq instance)));
      [split; [discriminate | now intros (H & _)]|].
    destruct (use_collections (settings instance));
      [|split; [discriminate | now intros (_ & H & _)]].
    destruct (pipelines (cmdq instance)) as [|p rest];
      [split; [discriminate | now intros (_ & _ & p & rest & H & _)]|].
    cbn [negb length].
    destruct (Z.ltb_spec (Z.of_nat (S (length rest))) 1) as [Hl|Hl]; [lia|].
    destruct (mcreq_allocate_packet p) as [[pkt p']|] eqn:Ha.
    + split; [intros _|reflexivity].
      repeat split. exists p, rest. split; [reflexivity|]. rewrite Ha. discriminate.
    + split; [discriminate|].
      intros (_ & _ & q & rest' & Hq & Hn). inversion Hq; subst.
      now elim Hn.
  - unfold lcb_getcid, npipelines, nscope, ncollection.
    destruct (is_null (config (cmdq instance)));
      [split; [discriminate | now intros (H & _)]|].
    destruct (use_collections (settings instance));
      [|split; [discriminate | now intros (_ & H & _)]].
    cbn [negb].
    destruct (scope cmd) as [[|s0 s]|];
      try (split; [discriminate | intros (_ & _ & (s' & Hs & Hn) & _)];
           inversion Hs; subst; now elim Hn);
      try (split; [discriminate | intros (_ & _ & (s' & Hs & Hn) & _)];
           discriminate).
    destruct (collection cmd) as [[|c0 c]|];
      try (split; [discriminate | intros (_ & _ & _ & (c' & Hc & Hn) & _)];
           inversion Hc; subst; now elim Hn);
      try (split; [discriminate | intros (_ & _ & _ & (c' & Hc & Hn) & _)];
           discriminate).
    cbn [name_len is_null length].
    destruct (Z.eqb_spec (Z.of_nat (S (length s))) 0) as [E|_]; [lia|].
    destruct (Z.eqb_spec (Z.of_nat (S (length c))) 0) as [E|_]; [lia|].
    cbn [orb].
    destruct (pipelines (cmdq instance)) as [|p rest];
      [split; [discriminate | now intros (_ & _ & _ & _ & p & rest & H & _)]|].
    cbn [length].
    destruct (Z.ltb_spec (Z.of_nat (S (length rest))) 1) as [Hl|Hl]; [lia|].
    destruct (mcreq_allocate_packet p) as [[pkt p']|] eqn:Ha.
    + split; [intros _|reflexivity].
      split; [reflexivity|]. split; [reflexivity|].
      split; [exists (s0 :: s); split; [reflexivity|discriminate]|].
      split; [exists (c0 :: c); split; [reflexivity|discriminate]|].
      exists p, rest. split; [reflexivity|]. rewrite Ha. discriminate.
    + split; [discriminate|].
      intros (_ & _ & _ & _ & q & rest' & Hq & Hn). inversion Hq; subst.
      now elim Hn.
Qed.

(** ** Commands built through the setters *)

Lemma cmdremove_built_timeout (calls : list cmdremove_call) (cmd : lcb_CMDREMOVE) :
  dur_timeout cmd = 0 ->
  dur_timeout (fold_left cmdremove_call_run calls cmd) = 0.
Proof.
  revert cmd; induction calls as [|c calls IH]; intros cmd H; [exact H|].
  cbn [fold_left]. apply IH. now destruct c.
Qed.

Lemma cmdtouch_built_timeout (calls : list cmdtouch_call) (cmd : lcb_CMDTOUCH) :
  dur_timeout cmd = 0 ->
  dur_timeout (fold_left cmdtouch_call_run calls cmd) = 0.
Proof.
  revert cmd; induction calls as [|c calls IH]; intros cmd H; [exact H|].
  cbn [fold_left]. apply IH. now destruct c.
Qed.

(** X10: there is no setter for the durability timeout, and
    [lcb_cmdremove_durability] and [lcb_cmdtouch_durability] set it to zero.
    So whatever setters a client calls on a created command, in whatever
    order, a durable request that [lcb_remove] or [lcb_touch] schedules for
    it has the frame [(1 << 4) | 3], the level, 0, 0 behind the header: the
    timeout on the wire is always zero. *)
Theorem built_durable_requests_have_zero_timeout (instance instance' : lcb_INSTANCE)
    (cookie : Z) :
  (forall calls,
     durability_requested (cmdremove_built calls) = true ->
     lcb_remove instance cookie (cmdremove_built calls) = (LCB_SUCCESS, instance') ->
     exists pl pkt,
       queued_on (cmdq instance') pl = queued_on (cmdq instance) pl ++ [pkt] /\
       span 24 4 (kh_span pkt)
       = [Z.lor (Z.shiftl 1 4) 3; level_value (dur_level (cmdremove_built calls));
          0; 0]) /\
  (forall calls,
     durability_requested (cmdtouch_built calls) = true ->
     lcb_touch instance cookie (cmdtouch_built calls) = (LCB_SUCCESS, instance') ->
     exists pl pkt,
       queued_on (cmdq instance') pl = queued_on (cmdq instance) pl ++ [pkt] /\
       span 24 4 (kh_span pkt)
       = [Z.lor (Z.shiftl 1 4) 3; level_value (dur_level (cmdtouch_built calls));
          0; 0]).
Proof.
  split; intros calls Hd H.
  - apply lcb_remove_success in H.
    destruct H as (pl & p & pkt0 & p' & pkt & hdr & _ & _ & Hq & _ & Hk & _).
    exists pl, pkt. split; [exact Hq|].
    rewrite Hk, Hd. unfold span. rewrite skipn_packet_header.
    unfold durability_frame, cmdremove_built.
    now rewrite cmdremove_built_timeout.
  - apply lcb_touch_success in H.
    destruct H as (pl & p & pkt0 & p' & pkt & hdr & _ & _ & Hq & _ & Hk & _).
    exists pl, pkt. split; [exact Hq|].
    rewrite Hk. unfold touch_extras. rewrite Hd. unfold span.
    rewrite skipn_packet_header.
    unfold durability_frame, cmdtouch_built.
    now rewrite cmdtouch_built_timeout.
Qed.

Lemma cmdremove_built_key (calls : list cmdremove_call) (cmd : lcb_CMDREMOVE) :
  cmd_key (cmd_base cmd) = [] ->
  (forall key, In (Remove_key key) calls -> key = []) ->
  cmd_key (cmd_base (fold_left cmdremove_call_run calls cmd)) = [].
Proof.
  revert cmd; induction calls as [|c calls IH]; intros cmd H Hin; [exact H|].
  cbn [fold_left]. apply IH.
  - destruct c; try exact H. apply Hin. now left.
  - intros key Hk. apply Hin. now right.
Qed.

Lemma cmdtouch_built_key (calls : list cmdtouch_call) (cmd : lcb_CMDTOUCH) :
  cmd_key (cmd_base cmd) = [] ->
  (forall key, In (Touch_key key) calls -> key = []) ->
  cmd_key (cmd_base (fold_left cmdtouch_call_run calls cmd)) = [].
Proof.
  revert cmd; induction calls as [|c calls IH]; intros cmd H Hin; [exact H|].
  cbn [fold_left]. apply IH.
  - destruct c; try exact H. apply Hin. now left.
  - intros key Hk. apply Hin. now right.
Qed.

(** X11: a created command has no key, and only the key setter gives it one.
    Whatever other setters a client calls, a command whose key was never set,
    or only ever set to an empty buffer, is turned down by [lcb_remove] and
    [lcb_touch] with [LCB_EMPTY_KEY]; the instance is left as it was. *)
Theorem built_without_key_rejected (instance : lcb_INSTANCE) (cookie : Z) :
  (forall calls,
     (forall key, In (Remove_key key) calls -> key = []) ->
     lcb_remove instance cookie (cmdremove_built calls) = (LCB_EMPTY_KEY, instance)) /\
  (forall calls,
     (forall key, In (Touch_key key) calls -> key = []) ->
     lcb_touch instance cookie (cmdtouch_built calls) = (LCB_EMPTY_KEY, instance)).
Proof.
  split; intros calls Hin.
  - unfold lcb_remove, cmdremove_built.
    now rewrite (cmdremove_built_key calls cmd_zero eq_refl Hin).
  - unfold lcb_touch, cmdtouch_built.
    now rewrite (cmdtouch_built_key calls cmd_zero eq_refl Hin).
Qed.

(** ** The path of a collection *)

Lemma dotless_prefix (a b c d : list byte) :
  ~ In 46 a -> ~ In 46 c -> a ++ 46 :: b = c ++ 46 :: d -> a = c /\ b = d.
Proof.
  revert c; induction a as [|x a IH]; intros [|y c] Ha Hc H.
  - inversion H. now split.
  - inversion H; subst. elim Hc. now left.
  - inversion H; subst. elim Ha. now left.
  - inversion H; subst.
    destruct (IH c) as (-> & ->); auto.
    + intros Hi. apply Ha. now right.
    + intros Hi. apply Hc. now right.
Qed.

(** X12: the path that [lcb_getcid] sends determines the names it was built
    from, as long as the scope names hold no dot: two commands whose paths
    are equal then have the same scope bytes and the same collection
    bytes. *)
Theorem getcid_path_determines_names (cmd1 cmd2 : lcb_CMDGETCID) :
  ~ In 46 (name_bytes (scope cmd1)) ->
  ~ In 46 (name_bytes (scope cmd2)) ->
  getcid_path cmd1 = getcid_path cmd2 ->
  name_bytes (scope cmd1) = name_bytes (scope cmd2) /\
  name_bytes (collection cmd1) = name_bytes (collection cmd2).
Proof.
  unfold getcid_path. intros H1 H2 H.
  rewrite !app_nil_l, <- !app_assoc in H.
  now apply dotless_prefix.
Qed.

(** ** The callbacks of the smoke tests *)

Lemma swrap_small (x : Z) : - 2147483648 <= x < 2147483648 -> swrap 32 x = x.
Proof.
  intros H. unfold swrap. change (2 ^ (32 - 1)) with 2147483648.
  change (2 ^ 32) with 4294967296. rewrite Z.mod_small; lia.
Qed.

Lemma touch_callbacks_app (a b : list lcb_RESPTOUCH) (st : smoke_state) :
  touch_callbacks (a ++ b) st = touch_callbacks b (touch_callbacks a st).
Proof. apply fold_left_app. Qed.

Lemma failed_responses_app (a b : list lcb_RESPTOUCH) :
  failed_responses (a ++ b) = failed_responses a ++ failed_responses b.
Proof. apply filter_app. Qed.

(** One callback, at a response that succeeded and at one that did not. *)
Lemma touch_callback_success (r : lcb_RESPTOUCH) (st : smoke_state) :
  rc r = LCB_SUCCESS ->
  0 < rv_counter (rvbufs st (resp_cookie r)) ->
  touch_callback r st
  = mk_smoke
      (fun a =>
         if a =? resp_cookie r
         then let rv := rvbufs st (resp_cookie r) in
              mk_rvbuf (rv_error rv) (rv_operation rv) (rv_bytes rv) (resp_key r)
                (rv_cas rv) (rv_flags rv) (swrap 32 (rv_counter rv - 1))
                (rv_errorCount rv)
         else rvbufs st a)
      (failed_expectations st)
      (if lcb_STATUS_eqb LCB_SUCCESS LCB_ERR_TIMEOUT
       then S (stderr_lines st) else stderr_lines st).
Proof.
  intros Hr Hc. unfold touch_callback, rvbuf_setError, rvbuf_setKey,
    lcb_resptouch_cookie, lcb_resptouch_status, lcb_resptouch_key.
  cbn [snd]. rewrite Hr. cbn [lcb_STATUS_eqb negb].
  destruct (Z.ltb_spec 0 (rv_counter (rvbufs st (resp_cookie r)))); [|lia].
  reflexivity.
Qed.

Lemma touch_callback_failure (r : lcb_RESPTOUCH) (st : smoke_state) :
  rc r <> LCB_SUCCESS ->
  0 < rv_counter (rvbufs st (resp_cookie r)) ->
  touch_callback r st
  = mk_smoke
      (fun a =>
         if a =? resp_cookie r
         then let rv := rvbufs st (resp_cookie r) in
              mk_rvbuf (rc r) (rv_operation rv) (rv_bytes rv) (resp_key r)
                (rv_cas rv) (rv_flags rv) (swrap 32 (rv_counter rv - 1))
                (wrap 32 (rv_errorCount rv + 1))
         else rvbufs st a)
      (S (failed_expectations st))
      (if lcb_STATUS_eqb (rc r) LCB_ERR_TIMEOUT
       then S (stderr_lines st) else stderr_lines st).
Proof.
  intros Hr Hc. unfold touch_callback, rvbuf_setError, rvbuf_setKey,
    lcb_resptouch_cookie, lcb_resptouch_status, lcb_resptouch_key.
  cbn [snd].
  destruct (Z.ltb_spec 0 (rv_counter (rvbufs st (resp_cookie r)))); [|lia].
  destruct (rc r); try (now elim Hr); reflexivity.
Qed.

(** X13: the bookkeeping of [touch_callback] over a run of responses.  When
    the responses all carry the address of one [rvbuf] as their cookie and
    that [rvbuf] counts at least as many outstanding requests as there are
    responses, then after the callbacks: the counter has gone down by the
    number of responses; the error count has gone up by the number of
    responses that did not succeed; the error is the status of the last such
    response, and is what it was if all succeeded, so a later success does
    not clear it; the key is the key of the last response; one expectation
    has failed for each response that did not succeed and none for the
    counter; and the [rvbuf]s at other addresses are as they were. *)
Theorem touch_callbacks_account (resps : list lcb_RESPTOUCH) (st : smoke_state)
    (rv : Z) :
  (forall r, In r resps -> resp_cookie r = rv) ->
  Z.of_nat (length resps) <= rv_counter (rvbufs st rv) < 2147483648 ->
  0 <= rv_errorCount (rvbufs st rv) < 4294967296 ->
  rv_counter (rvbufs (touch_callbacks resps st) rv)
  = rv_counter (rvbufs st rv) - Z.of_nat (length resps) /\
  rv_errorCount (rvbufs (touch_callbacks resps st) rv)
  = wrap 32 (rv_errorCount (rvbufs st rv)
             + Z.of_nat (length (failed_responses resps))) /\
  rv_error (rvbufs (touch_callbacks resps st) rv)
  = last (map rc (failed_responses resps)) (rv_error (rvbufs st rv)) /\
  rv_key (rvbufs (touch_callbacks resps st) rv)
  = last (map resp_key resps) (rv_key (rvbufs st rv)) /\
  failed_expectations (touch_callbacks resps st)
  = (failed_expectations st + length (failed_responses resps))%nat /\
  forall a, a <> rv -> rvbufs (touch_callbacks resps st) a = rvbufs st a.
Proof.
  induction resps as [|r resps IH] using rev_ind; intros Hc Hn He.
  - cbn. repeat apply conj; auto; try lia.
    rewrite wrap_small; [lia | change (2 ^ 32) with 4294967296; lia].
  - rewrite length_app, Nat2Z.inj_add in Hn. cbn [length] in Hn.
    assert (Hr : resp_cookie r = rv) by (apply Hc, in_or_app; right; now left).
    destruct IH as (Ic & Ie & Ir & Ik & If & Io);
      [intros x Hx; apply Hc, in_or_app; now left | lia | exact He |].
    rewrite touch_callbacks_app, failed_responses_app, !map_app, !length_app.
    cbn [touch_callbacks fold_left map]. fold (touch_callbacks resps st).
    set (s1 := touch_callbacks resps st) in *.
    assert (Hpos : 0 < rv_counter (rvbufs s1 (resp_cookie r)))
      by (rewrite Hr, Ic; lia).
    rewrite last_last.
    destruct (lcb_STATUS_eqb (rc r) LCB_SUCCESS) eqn:Hs.
    + assert (Hrc : rc r = LCB_SUCCESS) by (destruct (rc r); now try discriminate).
      rewrite (touch_callback_success r s1 Hrc Hpos).
      unfold failed_responses at 2 4 6. cbn [filter]. rewrite Hs. cbn [negb map length].
      cbn [rvbufs failed_expectations]. rewrite Hr, Z.eqb_refl.
      cbn [rv_counter rv_errorCount rv_error rv_key].
      rewrite swrap_small, Ic by lia.
      rewrite app_nil_r, !Nat.add_0_r.
      repeat apply conj; auto; try lia.
      intros a Ha. destruct (Z.eqb_spec a rv); [contradiction|]. now apply Io.
    + assert (Hrc : rc r <> LCB_SUCCESS) by (intros E; rewrite E in Hs; discriminate).
      rewrite (touch_callback_failure r s1 Hrc Hpos).
      unfold failed_responses at 2 4 6. cbn [filter]. rewrite Hs. cbn [negb map length].
      cbn [rvbufs failed_expectations]. rewrite Hr, Z.eqb_refl.
      cbn [rv_counter rv_errorCount rv_error rv_key].
      rewrite swrap_small, Ic by lia.
      rewrite last_last, Ie.
      repeat apply conj; auto; try lia.
      * unfold wrap. rewrite Zplus_mod_idemp_l. f_equal. lia.
      * intros a Ha. destruct (Z.eqb_spec a rv); [contradiction|]. now apply Io.
Qed.

(** ** The formatting helper of the logger *)

Lemma to_char_range (x : Z) : -128 <= to_char x <= CHAR_MAX.
Proof.
  unfold to_char, CHAR_MAX, swrap, wrap. destruct char_is_signed.
  - change (2 ^ (8 - 1)) with 128. change (2 ^ 8) with 256.
    pose proof (Z.mod_pos_bound (x + 128) 256). lia.
  - change (2 ^ 8) with 256. pose proof (Z.mod_pos_bound x 256). lia.
Qed.

Lemma to_char_0 : to_char 0 = 0.
Proof. unfold to_char. now destruct char_is_signed. Qed.

Lemma CHAR_MAX_nonneg : 0 <= CHAR_MAX.
Proof. unfold CHAR_MAX. destruct char_is_signed; lia. Qed.

(** What the loop has done when it returns. *)
Lemma wrapped_vsnprintf_loop_returns (fuel n : nat) (buf buf' : print_buf)
    (calls calls' : list libc_call) (rc : Z) :
  wrapped_vsnprintf_loop fuel n buf calls = (calls', Some (rc, buf')) ->
  out_size buf <= CHAR_MAX ->
  out_ptr buf <> 0 ->
  need_free buf = 0 ->
  in_ptr buf' = in_ptr buf /\ in_size buf' = in_size buf /\
  (exists more, calls' = calls ++ more) /\
  ((rc < 0 /\ out_ptr buf' = 0 /\ out_size buf' = 0 /\ need_free buf' = 0) \/
   (0 <= rc /\ rc < out_size buf' /\ out_size buf' <= CHAR_MAX /\
    need_free buf' = 1 /\ out_ptr buf' <> 0)).
Proof.
  revert n buf calls.
  induction fuel as [|fuel IH]; intros n buf calls H Hs Hp Hf; [discriminate|].
  cbn [wrapped_vsnprintf_loop] in H.
  destruct (Z.ltb_spec (vsnprintf n (out_ptr buf) (to_size_t (out_size buf))) 0)
    as [Hneg|Hpos].
  { inversion H; subst; clear H. cbn. rewrite to_char_0.
    repeat apply conj; auto.
    all: try (eexists; rewrite <- ?app_assoc; reflexivity). }
  destruct (Z.ltb_spec (vsnprintf n (out_ptr buf) (to_size_t (out_size buf)))
              (out_size buf)) as [Hfit|Hbig].
  { inversion H; subst; clear H. cbn.
    repeat apply conj; auto.
    all: try (eexists; reflexivity).
    all: try (right; repeat apply conj; auto; lia). }
  cbn [out_ptr out_size set_out_size set_out_ptr in_ptr in_size need_free] in H.
  destruct (Z.eqb_spec (realloc n (out_ptr buf) (to_size_t (to_char (out_size buf * 2))))
              0) as [Hnull|Hnew].
  { inversion H; subst; clear H. cbn. rewrite to_char_0.
    repeat apply conj; auto.
    all: try (eexists; rewrite <- ?app_assoc; reflexivity).
    all: try (left; repeat split; lia). }
  apply IH in H; cbn; auto; [|apply to_char_range].
  cbn in H. destruct H as (Hi & Hz & (more & Hm) & Hr).
  repeat apply conj; auto.
  eexists. rewrite Hm, <- !app_assoc. reflexivity.
Qed.

(** What [wrapped_vsnprintf] has done when it returns. *)
Lemma wrapped_vsnprintf_returns (fuel : nat) (buf buf' : print_buf)
    (calls : list libc_call) (rc : Z) :
  wrapped_vsnprintf fuel buf = (calls, Some (rc, buf')) ->
  in_ptr buf' = in_ptr buf /\ in_size buf' = in_size buf /\
  ((rc < 0 /\ out_ptr buf' = 0 /\ out_size buf' = 0 /\ need_free buf' = 0) \/
   (0 <= rc /\ rc < out_size buf' /\ out_size buf' <= CHAR_MAX /\
    need_free buf' = 0 /\ out_ptr buf' = in_ptr buf /\
    calls = [Vsnprintf (in_ptr buf) (to_size_t (to_char (in_size buf)))]) \/
   (0 <= rc /\ rc < out_size buf' /\ out_size buf' <= CHAR_MAX /\
    need_free buf' = 1 /\ out_ptr buf' <> 0 /\
    exists more,
      calls = [Vsnprintf (in_ptr buf) (to_size_t (to_char (in_size buf)));
               Malloc (to_size_t (to_char (to_size_t (in_size buf * 2))))] ++ more)).
Proof.
  unfold wrapped_vsnprintf.
  cbn [out_ptr out_size set_out_size set_out_ptr set_need_free in_ptr in_size
       need_free].
  destruct (Z.ltb_spec (vsnprintf 0 (in_ptr buf) (to_size_t (to_char (in_size buf)))) 0)
    as [Hneg|Hpos].
  { intros H; inversion H; subst; clear H. cbn. rewrite to_char_0.
    repeat apply conj; auto. }
  destruct (Z.ltb_spec (vsnprintf 0 (in_ptr buf) (to_size_t (to_char (in_size buf))))
              (to_char (in_size buf))) as [Hfit|Hbig].
  { intros H; inversion H; subst; clear H. cbn.
    repeat apply conj; auto. right. left.
    repeat apply conj; auto. apply to_char_range. }
  destruct (Z.eqb_spec (malloc (to_size_t (to_char (to_size_t (in_size buf * 2))))) 0)
    as [Hnull|Hnew].
  { intros H; inversion H; subst; clear H. cbn. rewrite to_char_0.
    repeat apply conj; auto. left. repeat split; auto; lia. }
  intros H. apply wrapped_vsnprintf_loop_returns in H; cbn; auto;
    [|apply to_char_range].
  cbn in H. destruct H as (Hi & Hz & (more & Hm) & [Hr|Hr]).
  - repeat apply conj; auto.
  - repeat apply conj; auto. right. right.
    destruct Hr as (H0 & H1 & H2 & H3 & H4).
    repeat apply conj; auto. exists more. exact Hm.
Qed.

(** X14: whenever [wrapped_vsnprintf] returns a negative value, whether
    [vsnprintf] failed on the caller's buffer or on a heap buffer, or
    [malloc] or [realloc] returned [NULL], the descriptor it leaves has
    [out_ptr] null, [out_size] zero and [need_free] zero: there is nothing
    for the caller to read or to free.  The caller's [in_ptr] and [in_size]
    are as they were. *)
Theorem wrapped_vsnprintf_error_resets (fuel : nat) (buf buf' : print_buf)
    (calls : list libc_call) (rc : Z) :
  wrapped_vsnprintf fuel buf = (calls, Some (rc, buf')) ->
  rc < 0 ->
  out_ptr buf' = 0 /\ out_size buf' = 0 /\ need_free buf' = 0 /\
  in_ptr buf' = in_ptr buf /\ in_size buf' = in_size buf.
Proof.
  intros H Hrc. apply wrapped_vsnprintf_returns in H.
  destruct H as (Hi & Hz & [(_ & Hp & Hs & Hf)|[(H0 & _)|(H0 & _)]]);
    [repeat apply conj; assumption | lia | lia].
Qed.

(** X15: [out_size] is a [char], so a length that [wrapped_vsnprintf]
    returns is below a [char]: whenever it returns a value that is not
    negative, that value is less than [out_size], and [out_size] is at most
    127 where [char] is signed and 255 where it is not, however large the
    caller's buffer is.  A text of 127 (or 255) characters or more is never
    returned. *)
Theorem wrapped_vsnprintf_length_below_char (fuel : nat) (buf buf' : print_buf)
    (calls : list libc_call) (rc : Z) :
  wrapped_vsnprintf fuel buf = (calls, Some (rc, buf')) ->
  0 <= rc ->
  rc < out_size buf' /\ out_size buf' <= CHAR_MAX /\
  rc < (if char_is_signed then 127 else 255).
Proof.
  intros H Hrc. apply wrapped_vsnprintf_returns in H.
  destruct H as (_ & _ & [(H0 & _)|[(_ & Hl & Hs & _)|(_ & Hl & Hs & _)]]);
    try lia; unfold CHAR_MAX in *; destruct char_is_signed;
    repeat apply conj; lia.
Qed.

(** X16: [need_free] tells the caller who owns the text.  When
    [wrapped_vsnprintf] returns a value that is not negative, either
    [need_free] is 0, [out_ptr] is the caller's own buffer and the C library
    was called once, for [vsnprintf], so nothing was allocated; or
    [need_free] is 1, [out_ptr] is not null and the run began with
    [vsnprintf] on the caller's buffer and a [malloc]. *)
Theorem need_free_tells_owner (fuel : nat) (buf buf' : print_buf)
    (calls : list libc_call) (rc : Z) :
  wrapped_vsnprintf fuel buf = (calls, Some (rc, buf')) ->
  0 <= rc ->
  (need_free buf' = 0 /\ out_ptr buf' = in_ptr buf /\
   calls = [Vsnprintf (in_ptr buf) (to_size_t (to_char (in_size buf)))]) \/
  (need_free buf' = 1 /\ out_ptr buf' <> 0 /\
   exists more,
     calls = [Vsnprintf (in_ptr buf) (to_size_t (to_char (in_size buf)));
              Malloc (to_size_t (to_char (to_size_t (in_size buf * 2))))] ++ more).
Proof.
  intros H Hrc. apply wrapped_vsnprintf_returns in H.
  destruct H as (_ & _ & [(H0 & _)|[(_ & _ & _ & Hf & Hp & Hc)
                                    |(_ & _ & _ & Hf & Hp & Hc)]]);
    try lia; [left | right]; repeat apply conj; assumption.
Qed.

Lemma wrapped_vsnprintf_loop_spins (fuel n : nat) (buf : print_buf)
    (calls : list libc_call) :
  (forall k ptr size, CHAR_MAX <= vsnprintf k ptr size) ->
  (forall k ptr size, realloc k ptr size <> 0) ->
  out_size buf <= CHAR_MAX ->
  snd (wrapped_vsnprintf_loop fuel n buf calls) = None /\
  length (fst (wrapped_vsnprintf_loop fuel n buf calls))
  = (length calls + 2 * fuel)%nat.
Proof.
  intros Hv Hr. revert n buf calls.
  induction fuel as [|fuel IH]; intros n buf calls Hs.
  - cbn. split; [reflexivity | lia].
  - cbn [wrapped_vsnprintf_loop].
    pose proof (Hv n (out_ptr buf) (to_size_t (out_size buf))) as Hl.
    pose proof CHAR_MAX_nonneg as H0.
    destruct (Z.ltb_spec (vsnprintf n (out_ptr buf) (to_size_t (out_size buf))) 0);
      [lia|].
    destruct (Z.ltb_spec (vsnprintf n (out_ptr buf) (to_size_t (out_size buf)))
                (out_size buf)); [lia|].
    cbn [out_ptr out_size set_out_size set_out_ptr in_ptr in_size need_free].
    destruct (Z.eqb_spec (realloc n (out_ptr buf)
                            (to_size_t (to_char (out_size buf * 2)))) 0) as [E|_];
      [now apply Hr in E|].
    match goal with
    | |- snd (wrapped_vsnprintf_loop fuel ?m ?b ?c) = None /\ _ =>
        destruct (IH m b c) as (I1 & I2); [cbn; apply to_char_range|]
    end.
    split; [exact I1|]. rewrite I2, !length_app. cbn [length]. lia.
Qed.

(** X17: a long text makes [wrapped_vsnprintf] spin.  If [vsnprintf] reports
    a length of 127 characters or more where [char] is signed, 255 or more
    where it is not, and the allocator never returns [NULL], then the
    function does not return, whatever the caller's buffer is: after any
    number of iterations of its loop it is still running, and it has called
    [vsnprintf] and [realloc] once more in each. *)
Theorem wrapped_vsnprintf_long_text_spins (fuel : nat) (buf : print_buf) :
  (forall k ptr size, CHAR_MAX <= vsnprintf k ptr size) ->
  (forall size, malloc size <> 0) ->
  (forall k ptr size, realloc k ptr size <> 0) ->
  snd (wrapped_vsnprintf fuel buf) = None /\
  length (fst (wrapped_vsnprintf fuel buf)) = (2 + 2 * fuel)%nat.
Proof.
  intros Hv Hm Hr. unfold wrapped_vsnprintf.
  cbn [out_ptr out_size set_out_size set_out_ptr set_need_free in_ptr in_size
       need_free].
  pose proof (Hv O (in_ptr buf) (to_size_t (to_char (in_size buf)))) as Hl.
  pose proof CHAR_MAX_nonneg as H0.
  pose proof (to_char_range (in_size buf)) as Hc.
  destruct (Z.ltb_spec (vsnprintf 0 (in_ptr buf) (to_size_t (to_char (in_size buf)))) 0);
    [lia|].
  destruct (Z.ltb_spec (vsnprintf 0 (in_ptr buf) (to_size_t (to_char (in_size buf))))
              (to_char (in_size buf))); [lia|].
  destruct (Z.eqb_spec (malloc (to_size_t (to_char (to_size_t (in_size buf * 2))))) 0)
    as [E|_]; [now apply Hm in E|].
  match goal with
  | |- snd (wrapped_vsnprintf_loop fuel ?m ?b ?c) = None /\ _ =>
      destruct (wrapped_vsnprintf_loop_spins fuel m b c Hv Hr) as (I1 & I2);
        [cbn; apply to_char_range|]
  end.
  split; [exact I1|]. rewrite I2. reflexivity.
Qed.

Lemma wrapped_vsnprintf_loop_extends (fuel n : nat) (buf : print_buf)
    (calls : list libc_call) :
  exists more, fst (wrapped_vsnprintf_loop fuel n buf calls) = calls ++ more.
Proof.
  revert n buf calls. induction fuel as [|fuel IH]; intros n buf calls.
  - exists []. cbn. now rewrite app_nil_r.
  - cbn [wrapped_vsnprintf_loop].
    destruct (_ <? 0); [eexists; cbn [fst]; rewrite <- app_assoc; reflexivity|].
    destruct (_ <? _); [eexists; reflexivity|].
    destruct (_ =? 0); [eexists; cbn [fst]; rewrite <- !app_assoc; reflexivity|].
    match goal with
    | |- exists more, fst (wrapped_vsnprintf_loop fuel ?m ?b ?c) = _ =>
        destruct (IH m b c) as (more & Hm)
    end.
    eexists. rewrite Hm, <- !app_assoc. reflexivity.
Qed.

(** X18: the size that [vsnprintf] is given for the caller's buffer.  It goes
    through the [char] member [out_size].  For a buffer of at most 127
    bytes (255 where [char] is unsigned) it is the size of the buffer.  Where
    [char] is signed and the size of the buffer leaves a remainder of 128 or
    more modulo 256, [out_size] is negative and [vsnprintf] is given a size
    larger than the buffer: it may write behind its end. *)
Theorem size_given_for_callers_buffer (fuel : nat) (buf : print_buf) :
  8 <= size_bits ->
  (0 <= in_size buf <= CHAR_MAX ->
   hd_error (fst (wrapped_vsnprintf fuel buf))
   = Some (Vsnprintf (in_ptr buf) (in_size buf))) /\
  (char_is_signed = true ->
   128 <= in_size buf mod 256 ->
   0 <= in_size buf < 2 ^ size_bits - 128 ->
   exists size,
     hd_error (fst (wrapped_vsnprintf fuel buf))
     = Some (Vsnprintf (in_ptr buf) size) /\
     in_size buf < size).
Proof.
  intros Hb.
  assert (Hpow : 256 <= 2 ^ size_bits).
  { change 256 with (2 ^ 8). apply Z.pow_le_mono_r; lia. }
  assert (Hhd : hd_error (fst (wrapped_vsnprintf fuel buf))
                = Some (Vsnprintf (in_ptr buf) (to_size_t (to_char (in_size buf))))).
  { unfold wrapped_vsnprintf.
    cbn [out_ptr out_size set_out_size set_out_ptr set_need_free in_ptr in_size
         need_free].
    destruct (_ <? 0); [reflexivity|].
    destruct (_ <? _); [reflexivity|].
    destruct (_ =? 0); [reflexivity|].
    match goal with
    | |- hd_error (fst (wrapped_vsnprintf_loop fuel ?m ?b ?c)) = _ =>
        destruct (wrapped_vsnprintf_loop_extends fuel m b c) as (more & ->)
    end.
    reflexivity. }
  rewrite Hhd. split.
  - intros Hs. do 3 f_equal.
    unfold to_size_t, to_char, CHAR_MAX, swrap, wrap in *.
    destruct char_is_signed.
    + change (2 ^ (8 - 1)) with 128. change (2 ^ 8) with 256.
      rewrite (Z.mod_small (in_size buf + 128)) by lia.
      rewrite Z.mod_small; lia.
    + change (2 ^ 8) with 256.
      rewrite (Z.mod_small (in_size buf)) by lia.
      rewrite Z.mod_small; lia.
  - intros Hc Hm Hs. eexists. split; [reflexivity|].
    unfold to_size_t, to_char, swrap, wrap. rewrite Hc.
    change (2 ^ (8 - 1)) with 128. change (2 ^ 8) with 256.
    pose proof (Z.mod_pos_bound (in_size buf) 256 ltac:(lia)) as Hr.
    pose proof (Z.div_mod (in_size buf) 256 ltac:(lia)) as Hd.
    assert (E : (in_size buf + 128) mod 256 = in_size buf mod 256 - 128).
    { symmetry. apply (Z.mod_unique _ _ (in_size buf / 256 + 1)); lia. }
    rewrite E.
    assert (E2 : (in_size buf mod 256 - 128 - 128) mod 2 ^ size_bits
                 = 2 ^ size_bits + in_size buf mod 256 - 256).
    { symmetry. apply (Z.mod_unique _ _ (-1)); lia. }
    rewrite E2. lia.
Qed.

Lemma to_char_small (x : Z) : 0 <= x <= CHAR_MAX -> to_char x = x.
Proof.
  unfold to_char, CHAR_MAX, swrap, wrap. destruct char_is_signed; intros H.
  - change (2 ^ (8 - 1)) with 128. change (2 ^ 8) with 256.
    rewrite Z.mod_small; lia.
  - change (2 ^ 8) with 256. rewrite Z.mod_small; lia.
Qed.

Lemma to_size_t_small (x : Z) : 8 <= size_bits -> 0 <= x < 256 -> to_size_t x = x.
Proof.
  intros Hb Hx. unfold to_size_t, wrap. apply Z.mod_small.
  assert (256 <= 2 ^ size_bits)
    by (change 256 with (2 ^ 8); apply Z.pow_le_mono_r; lia).
  lia.
Qed.

(** X19: the fallback to the heap, where it works.  Let the caller's buffer
    have at most 63 bytes, let [vsnprintf] report a length that does not fit
    it but is less than twice its size, and let [malloc] return a buffer.
    Then [wrapped_vsnprintf] returns that length after one iteration of its
    loop, with [out_ptr] the buffer from [malloc], [out_size] twice the size
    of the caller's buffer and [need_free] set; it has called [vsnprintf] on
    the caller's buffer, [malloc] and [vsnprintf] on the new buffer, each
    with the size of the buffer it was given, and nothing else. *)
Theorem wrapped_vsnprintf_falls_back_to_heap (fuel : nat) (buf : print_buf)
    (len : Z) :
  8 <= size_bits ->
  (forall k ptr size, vsnprintf k ptr size = len) ->
  0 <= in_size buf <= 63 ->
  in_size buf <= len < in_size buf * 2 ->
  malloc (in_size buf * 2) <> 0 ->
  wrapped_vsnprintf (S fuel) buf
  = ([Vsnprintf (in_ptr buf) (in_size buf); Malloc (in_size buf * 2);
      Vsnprintf (malloc (in_size buf * 2)) (in_size buf * 2)],
     Some (len,
           mk_print_buf (in_ptr buf) (in_size buf) (malloc (in_size buf * 2))
             (in_size buf * 2) 1)).
Proof.
  intros Hb Hv Hs Hl Hm.
  assert (Hmax : 127 <= CHAR_MAX) by (unfold CHAR_MAX; destruct char_is_signed; lia).
  unfold wrapped_vsnprintf.
  cbn [out_ptr out_size set_out_size set_out_ptr set_need_free in_ptr in_size
       need_free].
  repeat first [ rewrite (to_char_small (in_size buf)) by lia
               | rewrite (to_char_small (in_size buf * 2)) by lia
               | rewrite (to_size_t_small (in_size buf)) by lia
               | rewrite (to_size_t_small (in_size buf * 2)) by lia ].
  rewrite Hv.
  destruct (Z.ltb_spec len 0); [lia|].
  destruct (Z.ltb_spec len (in_size buf)); [lia|].
  destruct (Z.eqb_spec (malloc (in_size buf * 2)) 0); [contradiction|].
  cbn [wrapped_vsnprintf_loop out_ptr out_size set_out_size set_out_ptr
       set_need_free in_ptr in_size need_free].
  repeat first [ rewrite (to_char_small (in_size buf)) by lia
               | rewrite (to_char_small (in_size buf * 2)) by lia
               | rewrite (to_size_t_small (in_size buf)) by lia
               | rewrite (to_size_t_small (in_size buf * 2)) by lia ].
  rewrite Hv.
  destruct (Z.ltb_spec len 0); [lia|].
  destruct (Z.ltb_spec len (in_size buf * 2)); [|lia].
  unfold set_need_free, set_out_ptr, set_out_size.
  cbn [out_ptr out_size in_ptr in_size need_free].
  rewrite (to_char_small (in_size buf * 2)) by lia.
  reflexivity.
Qed.

(** ** The version of a real cluster *)

Lemma memcmp_differs_false (a b : list byte) (n : nat) :
  memcmp_differs a b n = false -> firstn n a = firstn n b.
Proof.
  revert a b; induction n as [|n IH]; intros a b H; [reflexivity|].
  destruct a as [|x a], b as [|y b]; try discriminate.
  cbn [memcmp_differs] in H. apply orb_false_iff in H. destruct H as (Hx & Hr).
  apply negb_false_iff, Z.eqb_eq in Hx. subst y.
  cbn [firstn]. f_equal. now apply IH.
Qed.

(** X20: [statsCallback] never passes [VERSION_UNKNOWN] on.  Whenever it
    calls [setServerVersion], it does so on the environment the cookie points
    to, with one of the nine versions 4.0 to 7.0, and the response was a
    success, came from a server and had the key "version"; for any other
    response the version of the environment is not touched. *)
Theorem stats_callback_sets_known_version (resp : lcb_RESPSTATS) (me : Z)
    (version : ServerVersion) :
  In (Set_server_version me version) (statsCallback resp) ->
  version <> VERSION_UNKNOWN /\
  me = stats_cookie resp /\
  stats_rc resp = LCB_SUCCESS /\
  stats_server resp <> None /\
  stats_key resp = STAT_VERSION.
Proof.
  unfold statsCallback.
  destruct (lcb_STATUS_eqb LCB_SUCCESS (stats_rc resp)) eqn:Hrc; cbn [negb];
    [|intros [H|[]]; discriminate].
  destruct (stats_server resp) as [srv|] eqn:Hsrv; cbn [is_null]; [|intros []].
  destruct (Z.of_nat (length (stats_key resp)) =? 0); [intros []|].
  destruct (Z.eqb_spec (Z.of_nat (length (stats_key resp))) (8 - 1)) as [Hlen|Hlen];
    cbn [negb orb]; [|intros []].
  destruct (memcmp_differs (stats_key resp) STAT_VERSION (Z.to_nat (8 - 1))) eqn:Hcmp;
    [intros []|].
  intros Hin.
  assert (Hkey : stats_key resp = STAT_VERSION).
  { apply memcmp_differs_false in Hcmp.
    rewrite firstn_all2 in Hcmp by lia.
    rewrite Hcmp. reflexivity. }
  assert (Hs : stats_rc resp = LCB_SUCCESS)
    by (destruct (stats_rc resp); now try discriminate).
  assert (Hv : version <> VERSION_UNKNOWN /\ me = stats_cookie resp).
  { match type of Hin with
    | In _ (match ?v with VERSION_UNKNOWN => _ | _ => _ end) => destruct v
    end; cbn [In] in Hin;
      repeat match goal with H : _ \/ _ |- _ => destruct H end;
      try contradiction; try discriminate;
      match goal with
      | H : Set_server_version _ _ = Set_server_version _ _ |- _ => inversion H
      end; split; (discriminate || reflexivity). }
  destruct Hv. repeat apply conj; auto. discriminate.
Qed.

(** X21: the version is read off two characters.  Take two responses that
    differ in their values only, both values longer than two bytes and
    agreeing in their first and in their third byte.  Then [statsCallback]
    makes the same calls of [setServerVersion] for both, on the same
    environment and with the same version: the second byte, which is the dot
    of "6.5", and everything behind the third have no part in the version.
    The lines it logs do show the whole value and so may differ. *)
Theorem version_read_from_two_characters (rc : lcb_STATUS) (cookie : Z)
    (server : option (list byte)) (key value1 value2 : list byte) :
  (2 < length value1)%nat ->
  (2 < length value2)%nat ->
  nth 0 value1 0 = nth 0 value2 0 ->
  nth 2 value1 0 = nth 2 value2 0 ->
  versions_set (statsCallback (mk_respstats rc cookie server key value1))
  = versions_set (statsCallback (mk_respstats rc cookie server key value2)).
Proof.
  intros H1 H2 E0 E2. unfold statsCallback.
  cbn [stats_rc stats_cookie stats_server stats_key stats_value].
  destruct (Z.ltb_spec 2 (Z.of_nat (length value1))); [|lia].
  destruct (Z.ltb_spec 2 (Z.of_nat (length value2))); [|lia].
  rewrite E0, E2.
  destruct (negb (lcb_STATUS_eqb LCB_SUCCESS rc)); [reflexivity|].
  destruct (is_null server); [reflexivity|].
  destruct (Z.of_nat (length key) =? 0); [reflexivity|].
  destruct (_ || _); [reflexivity|].
  destruct (version_of _ _); reflexivity.
Qed.

(** ** Operations one after the other *)

Lemma pl_ref_eq_dec (a b : pl_ref) : {a = b} + {a <> b}.
Proof. decide equality. apply Nat.eq_dec. Qed.

Lemma one_packet_added_extends (before after : lcb_INSTANCE) (pl : pl_ref)
    (pkt : mc_PACKET) (r : pl_ref) :
  one_packet_added before after pl pkt ->
  exists added,
    queued_on (cmdq after) r = queued_on (cmdq before) r ++ added /\
    (length added <= 1)%nat.
Proof.
  intros (Hq & Ho & _).
  destruct (pl_ref_eq_dec r pl) as [->|Hr].
  - exists [pkt]. split; [exact Hq | apply Nat.le_refl].
  - exists []. unfold queued_on. rewrite (Ho r Hr), app_nil_r.
    split; [reflexivity | apply Nat.le_0_l].
Qed.

Lemma operation_run_extends (instance : lcb_INSTANCE) (op : operation) (r : pl_ref) :
  exists added,
    queued_on (cmdq (snd (operation_run instance op))) r
    = queued_on (cmdq instance) r ++ added /\
    (length added <= 1)%nat.
Proof.
  assert (Hsame : forall i, i = instance ->
            exists added,
              queued_on (cmdq i) r = queued_on (cmdq instance) r ++ added /\
              (length added <= 1)%nat).
  { intros i ->. exists []. rewrite app_nil_r.
    split; [reflexivity | apply Nat.le_0_l]. }
  destruct (operation_run instance op) as [st instance'] eqn:E. cbn [snd].
  assert (Hf : st <> LCB_SUCCESS -> instance' = instance).
  { intros Hst. destruct op; cbn [operation_run] in E.
    - rewrite <- (lcb_remove_failure instance cookie cmd); rewrite E; auto.
    - rewrite <- (lcb_touch_failure instance cookie cmd); rewrite E; auto.
    - rewrite <- (lcb_getcid_failure instance cookie cmd); rewrite E; auto.
    - rewrite <- (lcb_getmanifest_failure instance cookie cmd); rewrite E; auto. }
  destruct (lcb_STATUS_eqb st LCB_SUCCESS) eqn:Hs.
  - assert (st = LCB_SUCCESS) by (destruct st; now try discriminate). subst st.
    destruct op; cbn [operation_run] in E.
    + apply lcb_remove_frame in E.
      destruct E as (pl & p & pkt0 & p' & pkt & Hp & Ha & -> & _).
      exact (one_packet_added_extends _ _ _ _ r
               (sched_add_one_packet instance pl p p' pkt0 pkt Hp Ha)).
    + apply lcb_touch_frame in E.
      destruct E as (pl & p & pkt0 & p' & pkt & Hp & Ha & -> & _).
      exact (one_packet_added_extends _ _ _ _ r
               (sched_add_one_packet instance pl p p' pkt0 pkt Hp Ha)).
    + apply lcb_getcid_frame in E.
      destruct E as (p & pkt0 & p' & pkt & Hp & Ha & -> & _).
      exact (one_packet_added_extends _ _ _ _ r
               (sched_add_one_packet instance _ p p' pkt0 pkt Hp Ha)).
    + apply lcb_getmanifest_frame in E.
      destruct E as (p & pkt0 & p' & pkt & Hp & Ha & -> & _).
      exact (one_packet_added_extends _ _ _ _ r
               (sched_add_one_packet instance _ p p' pkt0 pkt Hp Ha)).
  - apply Hsame, Hf. intros ->. discriminate.
Qed.

(** X22: scheduled packets are kept, and kept in order.  Whatever
    operations a client calls one after the other ([lcb_remove],
    [lcb_touch], [lcb_getcid], [lcb_getmanifest], in any order and whether
    they succeed or not), on every pipeline the packets that were scheduled
    before are still there afterwards, in the same order and in front of
    the new ones; and no pipeline has gained more packets than there were
    calls. *)
Theorem scheduled_packets_are_kept_in_order (ops : list operation)
    (instance : lcb_INSTANCE) (r : pl_ref) :
  exists added,
    queued_on (cmdq (operations_run instance ops)) r
    = queued_on (cmdq instance) r ++ added /\
    (length added <= length ops)%nat.
Proof.
  revert instance. induction ops as [|op ops IH]; intros instance.
  - exists []. cbn. rewrite app_nil_r. split; [reflexivity | apply Nat.le_refl].
  - cbn [operations_run fold_left].
    destruct (operation_run_extends instance op r) as (a1 & H1 & L1).
    destruct (IH (snd (operation_run instance op))) as (a2 & H2 & L2).
    exists (a1 ++ a2). unfold operations_run in H2. rewrite H2, H1, <- app_assoc.
    split; [reflexivity|]. rewrite length_app. cbn [length]. lia.
Qed.

End Client.

(** * The claims at sample inputs

    The host is little-endian, [MCREQ_F_NOCID] is bit 10, the fallback option
    bit 0 and [LCB_RESP_F_ERRINFO] bit 5. *)

(** C1 at a durable remove on a cluster with synchronous replication: the
    one scheduled packet starts with 0x80. *)
Lemma scheduled_magic_is_REQ_witness :
  exists pl pkt,
    queued_on
      (cmdq (snd (lcb_remove true 10 0 sample_instance 77 sample_durable_cmd))) pl
    = queued_on (cmdq sample_instance) pl ++ [pkt] /\
    span 0 1 (kh_span pkt) = [PROTOCOL_BINARY_REQ] /\
    span 0 1 (kh_span pkt) <> [PROTOCOL_BINARY_AREQ].
Proof.
  apply (scheduled_magic_is_REQ true 10 0 sample_garbage sample_instance _ 77
           sample_durable_cmd).
  left. vm_compute. reflexivity.
Defined.

(** C2 at key "k", expiry 300, majority durability and no timeout: the frame
    is 0x13, 1, 0, 0 and the expiry 0, 0, 1, 44; the key area is the tag of
    collection 0 and the key. *)
Lemma durability_frame_on_wire_witness :
  (exists pl pkt hdr,
     queued_on
       (cmdq (snd (lcb_remove true 10 0 sample_instance 77 sample_durable_cmd))) pl
     = queued_on (cmdq sample_instance) pl ++ [pkt] /\
     length hdr = 24%nat /\
     kh_span pkt = hdr ++ [19; 1] ++ [0; 0] ++ [0; 107]) /\
  (exists pl pkt hdr,
     queued_on
       (cmdq (snd (lcb_touch true 10 0 sample_garbage sample_instance 77
                     sample_durable_cmd))) pl
     = queued_on (cmdq sample_instance) pl ++ [pkt] /\
     length hdr = 24%nat /\
     kh_span pkt = hdr ++ [19; 1] ++ [0; 0] ++ [0; 0; 1; 44] ++ [0; 107]) /\
  (exists pl pkt hdr,
     queued_on
       (cmdq (snd (lcb_touch true 10 0 sample_garbage sample_instance 77
                     sample_plain_cmd))) pl
     = queued_on (cmdq sample_instance) pl ++ [pkt] /\
     length hdr = 24%nat /\
     kh_span pkt = hdr ++ [0; 0; 1; 44] ++ [0; 107]).
Proof.
  repeat apply conj.
  - apply (proj1 (durability_frame_on_wire true 10 0 sample_garbage
                    sample_instance _ 77 sample_durable_cmd));
      vm_compute; reflexivity.
  - apply (proj1 (proj2 (durability_frame_on_wire true 10 0 sample_garbage
                           sample_instance _ 77 sample_durable_cmd)));
      vm_compute; reflexivity.
  - apply (proj2 (proj2 (durability_frame_on_wire true 10 0 sample_garbage
                           sample_instance _ 77 sample_plain_cmd)));
      vm_compute; reflexivity.
Defined.

(** C3 at scope "app" and collection "users": the key is "app.users", nine
    bytes. *)
Lemma getcid_packet_carries_path_witness :
  exists pkt,
    queued_on
      (cmdq (snd (lcb_getcid true 10 sample_instance 77 sample_getcid_cmd)))
      (PL_server 0)
    = queued_on (cmdq sample_instance) (PL_server 0) ++ [pkt] /\
    skipn 24 (kh_span pkt) = [97; 112; 112] ++ [46] ++ [117; 115; 101; 114; 115] /\
    Z.land (pkt_flags pkt) (MCREQ_F_NOCID 10) = MCREQ_F_NOCID 10 /\
    MCREQ_F_NOCID 10 <> 0 /\
    be_val (span 2 2 (kh_span pkt)) = 9 /\
    be_val (span 8 4 (kh_span pkt)) = 9.
Proof.
  apply (getcid_packet_carries_path true 10 sample_instance _ 77 sample_getcid_cmd);
    vm_compute; reflexivity.
Defined.

(** C3 fails on a path of 65536 bytes: the lookup is scheduled, and the key
    length field of its packet holds 0. *)
Lemma getcid_long_path_counterexample :
  fst (lcb_getcid true 10 sample_instance 77 long_getcid_cmd) = LCB_SUCCESS /\
  0 < nscope long_getcid_cmd /\
  0 < ncollection long_getcid_cmd /\
  Z.of_nat (length (getcid_path long_getcid_cmd)) = 65536 /\
  map (fun pkt => be_val (span 2 2 (kh_span pkt)))
    (queued_on (cmdq (snd (lcb_getcid true 10 sample_instance 77 long_getcid_cmd)))
       (PL_server 0))
  = [0].
Proof. repeat apply conj; vm_compute; reflexivity. Qed.

(** C4 at a configured client with collections on. *)
Lemma getcid_empty_names_einval_witness :
  lcb_getcid true 10 sample_instance 77 sample_empty_getcid_cmd
  = (LCB_EINVAL, sample_instance).
Proof.
  apply (getcid_empty_names_einval true 10 sample_instance 77
           sample_empty_getcid_cmd); reflexivity.
Defined.

(** C4 fails where an earlier guard answers first: without a configuration
    the status is [LCB_CLIENT_ETMPFAIL], with collections switched off it is
    [LCB_NOT_SUPPORTED]. *)
Lemma getcid_empty_names_counterexample :
  nscope sample_empty_getcid_cmd = 0 /\
  ncollection sample_empty_getcid_cmd = 0 /\
  lcb_getcid true 10 unconfigured_instance 77 sample_empty_getcid_cmd
  = (LCB_CLIENT_ETMPFAIL, unconfigured_instance) /\
  lcb_getcid true 10 plain_instance 77 sample_empty_getcid_cmd
  = (LCB_NOT_SUPPORTED, plain_instance) /\
  LCB_CLIENT_ETMPFAIL <> LCB_EINVAL /\
  LCB_NOT_SUPPORTED <> LCB_EINVAL.
Proof. repeat apply conj; try reflexivity; discriminate. Qed.

(** C5 at a configured client with collections on and no pipeline. *)
Lemma zero_pipelines_no_matching_server_witness :
  lcb_getmanifest true empty_queue_instance 77 tt
  = (LCB_NO_MATCHING_SERVER, empty_queue_instance) /\
  lcb_getcid true 10 empty_queue_instance 77 sample_getcid_cmd
  = (LCB_NO_MATCHING_SERVER, empty_queue_instance).
Proof.
  split.
  - apply (proj1 (zero_pipelines_no_matching_server true 10 empty_queue_instance 77
                    eq_refl eq_refl eq_refl)).
  - apply (proj2 (zero_pipelines_no_matching_server true 10 empty_queue_instance 77
                    eq_refl eq_refl eq_refl)); reflexivity.
Defined.

(** C5 fails where an earlier guard answers first: a queue without pipelines
    gets [LCB_CLIENT_ETMPFAIL] when there is no configuration,
    [LCB_NOT_SUPPORTED] when collections are off, and [lcb_getcid] gets
    [LCB_EINVAL] for empty names. *)
Lemma zero_pipelines_counterexample :
  npipelines (cmdq unconfigured_instance) = 0 /\
  lcb_getmanifest true unconfigured_instance 77 tt
  = (LCB_CLIENT_ETMPFAIL, unconfigured_instance) /\
  lcb_getcid true 10 unconfigured_instance 77 sample_getcid_cmd
  = (LCB_CLIENT_ETMPFAIL, unconfigured_instance) /\
  npipelines (cmdq empty_queue_plain_instance) = 0 /\
  lcb_getmanifest true empty_queue_plain_instance 77 tt
  = (LCB_NOT_SUPPORTED, empty_queue_plain_instance) /\
  npipelines (cmdq empty_queue_instance) = 0 /\
  lcb_getcid true 10 empty_queue_instance 77 sample_empty_getcid_cmd
  = (LCB_EINVAL, empty_queue_instance) /\
  LCB_CLIENT_ETMPFAIL <> LCB_NO_MATCHING_SERVER /\
  LCB_NOT_SUPPORTED <> LCB_NO_MATCHING_SERVER /\
  LCB_EINVAL <> LCB_NO_MATCHING_SERVER.
Proof. repeat apply conj; try reflexivity; discriminate. Qed.

(** C6 at a configured client with collections off. *)
Lemma collections_disabled_not_supported_witness :
  lcb_getcid true 10 plain_instance 77 sample_getcid_cmd
  = (LCB_NOT_SUPPORTED, plain_instance) /\
  lcb_getmanifest true plain_instance 77 tt = (LCB_NOT_SUPPORTED, plain_instance).
Proof.
  split.
  - apply (proj1 (collections_disabled_not_supported true 10 plain_instance 77
                    eq_refl eq_refl)).
  - apply (proj2 (collections_disabled_not_supported true 10 plain_instance 77
                    eq_refl eq_refl)).
Defined.

(** C6 fails on a client that has no configuration yet: collections are off
    and the status is [LCB_CLIENT_ETMPFAIL]. *)
Lemma collections_disabled_counterexample :
  use_collections (settings unconfigured_instance) = false /\
  lcb_getcid true 10 unconfigured_instance 77 sample_getcid_cmd
  = (LCB_CLIENT_ETMPFAIL, unconfigured_instance) /\
  lcb_getmanifest true unconfigured_instance 77 tt
  = (LCB_CLIENT_ETMPFAIL, unconfigured_instance) /\
  LCB_CLIENT_ETMPFAIL <> LCB_NOT_SUPPORTED.
Proof. repeat apply conj; try reflexivity; discriminate. Qed.

(** C7 at a pipeline that cannot allocate, a command without a key and a
    cluster without synchronous replication. *)
Lemma scheduling_errors_are_atomic_witness :
  snd (lcb_remove true 10 0 starved_instance 77 sample_plain_cmd) = starved_instance /\
  snd (lcb_touch true 10 0 sample_garbage starved_instance 77 sample_plain_cmd)
  = starved_instance /\
  snd (lcb_getcid true 10 starved_instance 77 sample_getcid_cmd) = starved_instance /\
  snd (lcb_getmanifest true starved_instance 77 tt) = starved_instance /\
  lcb_remove true 10 0 legacy_instance 77 sample_durable_cmd
  = (LCB_NOT_SUPPORTED, legacy_instance) /\
  lcb_touch true 10 0 sample_garbage legacy_instance 77 sample_durable_cmd
  = (LCB_NOT_SUPPORTED, legacy_instance).
Proof.
  destruct (scheduling_errors_are_atomic true 10 0 sample_garbage starved_instance 77)
    as (Hr & Ht & Hc & Hm & _).
  destruct (scheduling_errors_are_atomic true 10 0 sample_garbage legacy_instance 77)
    as (_ & _ & _ & _ & Hd).
  repeat apply conj.
  - apply Hr. vm_compute. discriminate.
  - apply Ht. vm_compute. discriminate.
  - apply Hc. vm_compute. discriminate.
  - apply Hm. vm_compute. discriminate.
  - apply (Hd sample_durable_cmd); reflexivity.
  - apply (Hd sample_durable_cmd); reflexivity.
Defined.

(** C8 at the three builders, on either byte order of the host. *)
Lemma opaque_on_wire_witness :
  opaque_tracked true sample_instance
    (snd (lcb_getcid true 10 sample_instance 77 sample_getcid_cmd)) /\
  opaque_tracked true sample_instance
    (snd (lcb_remove true 10 0 sample_instance 77 sample_durable_cmd)) /\
  opaque_tracked false sample_instance
    (snd (lcb_touch false 10 0 sample_garbage sample_instance 77 sample_plain_cmd)).
Proof.
  repeat apply conj.
  - apply (proj1 (opaque_on_wire true 10 0 sample_garbage sample_instance _ 77)
             sample_getcid_cmd).
    vm_compute. reflexivity.
  - apply (proj1 (proj2 (opaque_on_wire true 10 0 sample_garbage sample_instance _ 77))
             sample_durable_cmd).
    vm_compute. reflexivity.
  - apply (proj2 (proj2 (opaque_on_wire false 10 0 sample_garbage sample_instance _ 77))
             sample_plain_cmd).
    vm_compute. reflexivity.
Defined.

(** C9 at a durable command without a key, on a cluster that could not carry
    the durability frame: the empty key is what is reported. *)
Lemma empty_key_rejected_witness :
  lcb_remove true 10 0 legacy_instance 77 sample_empty_key_cmd
  = (LCB_EMPTY_KEY, legacy_instance) /\
  lcb_touch true 10 0 sample_garbage legacy_instance 77 sample_empty_key_cmd
  = (LCB_EMPTY_KEY, legacy_instance).
Proof.
  apply (empty_key_rejected true 10 0 sample_garbage legacy_instance 77
           sample_empty_key_cmd).
  reflexivity.
Defined.

(** C10 at a response whose flags are 0: the caller's string and length stay
    as they were, although a string could be looked up. *)
Lemma error_accessors_need_errinfo_witness :
  lcb_respremove_error_context 5 sample_error_string sample_resp sample_out
  = (LCB_KEY_ENOENT, sample_out) /\
  lcb_respremove_error_ref 5 sample_error_string sample_resp sample_out
  = (LCB_KEY_ENOENT, sample_out) /\
  lcb_resptouch_error_context 5 sample_error_string sample_resp sample_out
  = (LCB_KEY_ENOENT, sample_out) /\
  lcb_resptouch_error_ref 5 sample_error_string sample_resp sample_out
  = (LCB_KEY_ENOENT, sample_out).
Proof.
  apply (proj1 (error_accessors_need_errinfo 5 sample_error_string
                  sample_error_string sample_resp sample_out)).
  reflexivity.
Defined.

(** * The further properties at sample inputs *)

(** X1 at a durable remove of key "k". *)
Lemma remove_request_layout_witness :
  exists cfg pl pkt,
    config (cmdq sample_instance) = Some cfg /\
    queued_on
      (cmdq (snd (lcb_remove true 10 0 sample_instance 77 sample_durable_cmd))) pl
    = queued_on (cmdq sample_instance) pl ++ [pkt] /\
    kh_span pkt
    = request_wire PROTOCOL_BINARY_CMD_DELETE
        (fst (lcbvb_map_key cfg (cmd_key (cmd_base sample_durable_cmd))))
        (host_bytes true 4 (pkt_opaque pkt)) (cmd_cas (cmd_base sample_durable_cmd))
        (frame_of sample_durable_cmd) []
        (key_area (settings sample_instance) (cmd_base sample_durable_cmd)).
Proof.
  apply (remove_request_layout true 10 0 sample_instance _ 77 sample_durable_cmd);
    vm_compute; reflexivity.
Defined.

(** X2 at a durable touch of key "k" on a host with the most significant
    byte first. *)
Lemma touch_request_layout_witness :
  exists cfg pl pkt,
    config (cmdq sample_instance) = Some cfg /\
    queued_on
      (cmdq (snd (lcb_touch false 10 0 sample_garbage sample_instance 77
                    sample_durable_cmd))) pl
    = queued_on (cmdq sample_instance) pl ++ [pkt] /\
    kh_span pkt
    = request_wire PROTOCOL_BINARY_CMD_TOUCH
        (fst (lcbvb_map_key cfg (cmd_key (cmd_base sample_durable_cmd))))
        (host_bytes false 4 (pkt_opaque pkt)) 0
        (frame_of sample_durable_cmd)
        (be_bytes 4 (cmd_exptime (cmd_base sample_durable_cmd)))
        (key_area (settings sample_instance) (cmd_base sample_durable_cmd)).
Proof.
  apply (touch_request_layout false 10 0 sample_garbage sample_instance _ 77
           sample_durable_cmd);
    vm_compute; reflexivity.
Defined.

(** X3 at scope "app" and collection "users". *)
Lemma getcid_request_layout_witness :
  exists pkt,
    queued_on (cmdq (snd (lcb_getcid true 10 sample_instance 77 sample_getcid_cmd)))
      (PL_server 0)
    = queued_on (cmdq sample_instance) (PL_server 0) ++ [pkt] /\
    kh_span pkt
    = request_wire PROTOCOL_BINARY_CMD_COLLECTIONS_GET_CID 0
        (host_bytes true 4 (pkt_opaque pkt)) 0 [] []
        (name_bytes (scope sample_getcid_cmd) ++ [46]
         ++ name_bytes (collection sample_getcid_cmd)).
Proof.
  apply (getcid_request_layout true 10 sample_instance _ 77 sample_getcid_cmd);
    vm_compute; reflexivity.
Defined.

(** X4 at the sample instance. *)
Lemma getmanifest_request_layout_witness :
  exists pkt,
    queued_on (cmdq (snd (lcb_getmanifest true sample_instance 77 tt))) (PL_server 0)
    = queued_on (cmdq sample_instance) (PL_server 0) ++ [pkt] /\
    length (kh_span pkt) = 24%nat /\
    kh_span pkt
    = [PROTOCOL_BINARY_REQ; PROTOCOL_BINARY_CMD_COLLECTIONS_GET_MANIFEST]
      ++ repeat 0 10 ++ host_bytes true 4 (pkt_opaque pkt) ++ repeat 0 8.
Proof.
  apply (getmanifest_request_layout true sample_instance _ 77 tt).
  vm_compute. reflexivity.
Defined.

(** X5 at the four builders. *)
Lemma scheduled_requests_self_describing_witness :
  (exists pl pkt,
     queued_on
       (cmdq (snd (lcb_remove true 10 0 sample_instance 77 sample_durable_cmd))) pl
     = queued_on (cmdq sample_instance) pl ++ [pkt] /\
     self_describing pkt) /\
  (exists pl pkt,
     queued_on
       (cmdq (snd (lcb_touch true 10 0 sample_garbage sample_instance 77
                     sample_durable_cmd))) pl
     = queued_on (cmdq sample_instance) pl ++ [pkt] /\
     self_describing pkt) /\
  (exists pl pkt,
     queued_on
       (cmdq (snd (lcb_getcid true 10 sample_instance 77 sample_getcid_cmd))) pl
     = queued_on (cmdq sample_instance) pl ++ [pkt] /\
     self_describing pkt) /\
  (exists pl pkt,
     queued_on (cmdq (snd (lcb_getmanifest true sample_instance 77 tt))) pl
     = queued_on (cmdq sample_instance) pl ++ [pkt] /\
     self_describing pkt).
Proof.
  repeat apply conj.
  - apply (proj1 (scheduled_requests_self_describing true 10 0 sample_garbage
                    sample_instance _ 77) sample_durable_cmd);
      vm_compute; reflexivity.
  - apply (proj1 (proj2 (scheduled_requests_self_describing true 10 0 sample_garbage
                           sample_instance _ 77)) sample_durable_cmd);
      vm_compute; reflexivity.
  - apply (proj1 (proj2 (proj2 (scheduled_requests_self_describing true 10 0
                                  sample_garbage sample_instance _ 77)))
             sample_getcid_cmd);
      vm_compute; reflexivity.
  - apply (proj2 (proj2 (proj2 (scheduled_requests_self_describing true 10 0
                                  sample_garbage sample_instance _ 77))) tt).
    vm_compute. reflexivity.
Defined.

(** X6 at a plain touch. *)
Lemma key_operation_adds_one_packet_witness :
  exists pl pkt,
    one_packet_added sample_instance
      (snd (lcb_touch true 10 0 sample_garbage sample_instance 77 sample_plain_cmd))
      pl pkt.
Proof.
  apply (key_operation_adds_one_packet true 10 0 sample_garbage sample_instance _ 77
           sample_plain_cmd).
  right. vm_compute. reflexivity.
Defined.

(** X7 at both collection requests. *)
Lemma collections_requests_go_to_first_pipeline_witness :
  (exists pkt,
     one_packet_added sample_instance
       (snd (lcb_getcid true 10 sample_instance 77 sample_getcid_cmd))
       (PL_server 0) pkt) /\
  (exists pkt,
     one_packet_added sample_instance
       (snd (lcb_getmanifest true sample_instance 77 tt)) (PL_server 0) pkt).
Proof.
  split.
  - apply (proj1 (collections_requests_go_to_first_pipeline true 10 sample_instance
                    _ 77) sample_getcid_cmd).
    vm_compute. reflexivity.
  - apply (proj2 (collections_requests_go_to_first_pipeline true 10 sample_instance
                    _ 77) tt).
    vm_compute. reflexivity.
Defined.

(** X8 at the four builders, with cookie 77 and the clock at 1000. *)
Lemma scheduled_packet_carries_cookie_witness :
  (exists pl pkt,
     queued_on
       (cmdq (snd (lcb_remove true 10 0 sample_instance 77 sample_plain_cmd))) pl
     = queued_on (cmdq sample_instance) pl ++ [pkt] /\
     reqdata_cookie pkt = 77 /\ reqdata_start pkt = 1000) /\
  (exists pl pkt,
     queued_on
       (cmdq (snd (lcb_touch true 10 0 sample_garbage sample_instance 77
                     sample_plain_cmd))) pl
     = queued_on (cmdq sample_instance) pl ++ [pkt] /\
     reqdata_cookie pkt = 77 /\ reqdata_start pkt = 1000) /\
  (exists pl pkt,
     queued_on
       (cmdq (snd (lcb_getcid true 10 sample_instance 77 sample_getcid_cmd))) pl
     = queued_on (cmdq sample_instance) pl ++ [pkt] /\
     reqdata_cookie pkt = 77 /\ reqdata_start pkt = 1000) /\
  (exists pl pkt,
     queued_on (cmdq (snd (lcb_getmanifest true sample_instance 77 tt))) pl
     = queued_on (cmdq sample_instance) pl ++ [pkt] /\
     reqdata_cookie pkt = 77 /\ reqdata_start pkt = 1000).
Proof.
  repeat apply conj.
  - apply (proj1 (scheduled_packet_carries_cookie true 10 0 sample_garbage
                    sample_instance _ 77) sample_plain_cmd).
    vm_compute. reflexivity.
  - apply (proj1 (proj2 (scheduled_packet_carries_cookie true 10 0 sample_garbage
                           sample_instance _ 77)) sample_plain_cmd).
    vm_compute. reflexivity.
  - apply (proj1 (proj2 (proj2 (scheduled_packet_carries_cookie true 10 0
                                  sample_garbage sample_instance _ 77)))
             sample_getcid_cmd).
    vm_compute. reflexivity.
  - apply (proj2 (proj2 (proj2 (scheduled_packet_carries_cookie true 10 0
                                  sample_garbage sample_instance _ 77))) tt).
    vm_compute. reflexivity.
Defined.

(** X9: both requests go through on the sample instance, and on the
    instance whose pipeline cannot allocate they do not. *)
Lemma collections_requests_succeed_iff_witness :
  fst (lcb_getmanifest true sample_instance 77 tt) = LCB_SUCCESS /\
  fst (lcb_getcid true 10 sample_instance 77 sample_getcid_cmd) = LCB_SUCCESS /\
  fst (lcb_getcid true 10 starved_instance 77 sample_getcid_cmd) <> LCB_SUCCESS.
Proof.
  repeat apply conj.
  - apply (proj1 (collections_requests_succeed_iff true 10 sample_instance 77) tt).
    repeat split. exists sample_pipeline, []. split; [reflexivity|].
    vm_compute. discriminate.
  - apply (proj2 (collections_requests_succeed_iff true 10 sample_instance 77)
             sample_getcid_cmd).
    repeat split.
    + exists [97; 112; 112]. split; [reflexivity | discriminate].
    + exists [117; 115; 101; 114; 115]. split; [reflexivity | discriminate].
    + exists sample_pipeline, []. split; [reflexivity|]. vm_compute. discriminate.
  - intros H.
    apply (proj2 (collections_requests_succeed_iff true 10 starved_instance 77)
             sample_getcid_cmd) in H.
    destruct H as (_ & _ & _ & _ & p & rest & Hp & Ha).
    inversion Hp; subst. apply Ha. reflexivity.
Defined.

(** X10 at the calls key "k", majority durability, CAS 5 or expiry 300. *)
Lemma built_durable_requests_have_zero_timeout_witness :
  (exists pl pkt,
     queued_on
       (cmdq (snd (lcb_remove true 10 0 sample_instance 77
                     (cmdremove_built sample_remove_calls)))) pl
     = queued_on (cmdq sample_instance) pl ++ [pkt] /\
     span 24 4 (kh_span pkt) = [19; 1; 0; 0]) /\
  (exists pl pkt,
     queued_on
       (cmdq (snd (lcb_touch true 10 0 sample_garbage sample_instance 77
                     (cmdtouch_built sample_touch_calls)))) pl
     = queued_on (cmdq sample_instance) pl ++ [pkt] /\
     span 24 4 (kh_span pkt) = [19; 1; 0; 0]).
Proof.
  split.
  - apply (proj1 (built_durable_requests_have_zero_timeout true 10 0 sample_garbage
                    sample_instance _ 77) sample_remove_calls);
      vm_compute; reflexivity.
  - apply (proj2 (built_durable_requests_have_zero_timeout true 10 0 sample_garbage
                    sample_instance _ 77) sample_touch_calls);
      vm_compute; reflexivity.
Defined.

(** X11 at calls that set everything but a key. *)
Lemma built_without_key_rejected_witness :
  lcb_remove true 10 0 sample_instance 77 (cmdremove_built keyless_remove_calls)
  = (LCB_EMPTY_KEY, sample_instance) /\
  lcb_touch true 10 0 sample_garbage sample_instance 77
    (cmdtouch_built keyless_touch_calls)
  = (LCB_EMPTY_KEY, sample_instance).
Proof.
  split.
  - apply (proj1 (built_without_key_rejected true 10 0 sample_garbage
                    sample_instance 77) keyless_remove_calls).
    simpl. intros key [H|[H|[H|[]]]]; try discriminate. now inversion H.
  - apply (proj2 (built_without_key_rejected true 10 0 sample_garbage
                    sample_instance 77) keyless_touch_calls).
    simpl. intros key [H|[H|[]]]; discriminate.
Defined.

(** X12 at two commands for "app.users", one of which was given its names
    through the setters. *)
Lemma getcid_path_determines_names_witness :
  name_bytes (scope sample_getcid_cmd)
  = name_bytes (scope (snd (lcb_cmdgetcid_scope sample_getcid_cmd
                              (Some [97; 112; 112])))) /\
  name_bytes (collection sample_getcid_cmd)
  = name_bytes (collection (snd (lcb_cmdgetcid_scope sample_getcid_cmd
                                   (Some [97; 112; 112])))).
Proof.
  apply (getcid_path_determines_names sample_getcid_cmd
           (snd (lcb_cmdgetcid_scope sample_getcid_cmd (Some [97; 112; 112])))).
  - simpl. intros [H|[H|[H|[]]]]; discriminate.
  - simpl. intros [H|[H|[H|[]]]]; discriminate.
  - reflexivity.
Defined.

(** X13 at three responses, the second of which failed: the counter is at
    zero, one error is counted and kept, the key is that of the last
    response. *)
Lemma touch_callbacks_account_witness :
  rv_counter
    (rvbufs (touch_callbacks LCB_CLIENT_ETMPFAIL sample_responses sample_smoke_state) 64)
  = 3 - 3 /\
  rv_errorCount
    (rvbufs (touch_callbacks LCB_CLIENT_ETMPFAIL sample_responses sample_smoke_state) 64)
  = wrap 32 (0 + 1) /\
  rv_error
    (rvbufs (touch_callbacks LCB_CLIENT_ETMPFAIL sample_responses sample_smoke_state) 64)
  = LCB_KEY_ENOENT /\
  rv_key
    (rvbufs (touch_callbacks LCB_CLIENT_ETMPFAIL sample_responses sample_smoke_state) 64)
  = [99] /\
  failed_expectations
    (touch_callbacks LCB_CLIENT_ETMPFAIL sample_responses sample_smoke_state)
  = 1%nat /\
  forall a, a <> 64 ->
    rvbufs (touch_callbacks LCB_CLIENT_ETMPFAIL sample_responses sample_smoke_state) a
    = rvbufs sample_smoke_state a.
Proof.
  apply (touch_callbacks_account LCB_CLIENT_ETMPFAIL sample_responses
           sample_smoke_state 64).
  - simpl. intros r [H|[H|[H|[]]]]; subst r; reflexivity.
  - simpl. lia.
  - simpl. lia.
Defined.

(** X14 at a text of 150 characters, a buffer of 100 bytes, a signed [char]
    and a [realloc] that fails: the call returns -1 and the descriptor is
    reset. *)
Lemma wrapped_vsnprintf_error_resets_witness :
  exists calls rc buf',
    wrapped_vsnprintf true 64 (sample_vsnprintf 150) sample_malloc failing_realloc
      5 sample_print_buf
    = (calls, Some (rc, buf')) /\
    rc = -1 /\
    out_ptr buf' = 0 /\ out_size buf' = 0 /\ need_free buf' = 0 /\
    in_ptr buf' = in_ptr sample_print_buf /\
    in_size buf' = in_size sample_print_buf.
Proof.
  eexists _, _, _.
  split; [vm_compute; reflexivity|]. split; [reflexivity|].
  eapply (wrapped_vsnprintf_error_resets true 64 (sample_vsnprintf 150)
            sample_malloc failing_realloc 5 sample_print_buf);
    [vm_compute; reflexivity | lia].
Defined.

(** X15 at a text of 150 characters, a buffer of 100 bytes and an unsigned
    [char]: 150 is returned, with a buffer of 200 bytes. *)
Lemma wrapped_vsnprintf_length_below_char_witness :
  exists calls buf',
    wrapped_vsnprintf false 64 (sample_vsnprintf 150) sample_malloc sample_realloc
      5 sample_print_buf
    = (calls, Some (150, buf')) /\
    150 < out_size buf' /\ out_size buf' <= CHAR_MAX false /\ 150 < 255.
Proof.
  eexists _, _.
  split; [vm_compute; reflexivity|].
  eapply (wrapped_vsnprintf_length_below_char false 64 (sample_vsnprintf 150)
            sample_malloc sample_realloc 5 sample_print_buf);
    [vm_compute; reflexivity | lia].
Defined.

(** X16 at a text of 20 characters and a buffer of 100 bytes: the text is in
    the caller's buffer and nothing was allocated. *)
Lemma need_free_tells_owner_witness :
  exists calls buf',
    wrapped_vsnprintf true 64 (sample_vsnprintf 20) sample_malloc sample_realloc
      5 sample_print_buf
    = (calls, Some (20, buf')) /\
    ((need_free buf' = 0 /\ out_ptr buf' = in_ptr sample_print_buf /\
      calls = [Vsnprintf (in_ptr sample_print_buf)
                 (to_size_t 64 (to_char true (in_size sample_print_buf)))]) \/
     (need_free buf' = 1 /\ out_ptr buf' <> 0 /\
      exists more,
        calls = [Vsnprintf (in_ptr sample_print_buf)
                   (to_size_t 64 (to_char true (in_size sample_print_buf)));
                 Malloc (to_size_t 64
                           (to_char true
                              (to_size_t 64 (in_size sample_print_buf * 2))))]
                ++ more)).
Proof.
  eexists _, _.
  split; [vm_compute; reflexivity|].
  eapply (need_free_tells_owner true 64 (sample_vsnprintf 20) sample_malloc
            sample_realloc 5 sample_print_buf);
    [vm_compute; reflexivity | lia].
Defined.

(** X17 at a text of 300 characters: after five iterations the function is
    still running and has made twelve calls. *)
Lemma wrapped_vsnprintf_long_text_spins_witness :
  snd (wrapped_vsnprintf true 64 (sample_vsnprintf 300) sample_malloc sample_realloc
         5 sample_print_buf) = None /\
  length (fst (wrapped_vsnprintf true 64 (sample_vsnprintf 300) sample_malloc
                 sample_realloc 5 sample_print_buf)) = 12%nat.
Proof.
  apply (wrapped_vsnprintf_long_text_spins true 64 (sample_vsnprintf 300)
           sample_malloc sample_realloc 5 sample_print_buf).
  - intros k ptr size. unfold CHAR_MAX, sample_vsnprintf. lia.
  - intros size. unfold sample_malloc. lia.
  - intros k ptr size. unfold sample_realloc. lia.
Defined.

(** X18 at a buffer of 100 bytes, and at one of 200 bytes where [char] is
    signed. *)
Lemma size_given_for_callers_buffer_witness :
  hd_error (fst (wrapped_vsnprintf true 64 (sample_vsnprintf 20) sample_malloc
                   sample_realloc 5 sample_print_buf))
  = Some (Vsnprintf 512 100) /\
  exists size,
    hd_error (fst (wrapped_vsnprintf true 64 (sample_vsnprintf 20) sample_malloc
                     sample_realloc 5 wide_print_buf))
    = Some (Vsnprintf 512 size) /\
    200 < size.
Proof.
  split.
  - apply (proj1 (size_given_for_callers_buffer true 64 (sample_vsnprintf 20)
                    sample_malloc sample_realloc 5 sample_print_buf ltac:(lia))).
    unfold CHAR_MAX. simpl. lia.
  - apply (proj2 (size_given_for_callers_buffer true 64 (sample_vsnprintf 20)
                    sample_malloc sample_realloc 5 wide_print_buf ltac:(lia))).
    + reflexivity.
    + vm_compute. discriminate.
    + vm_compute. split; [discriminate | reflexivity].
Defined.

(** X19 at a text of 80 characters and a buffer of 50 bytes. *)
Lemma wrapped_vsnprintf_falls_back_to_heap_witness :
  wrapped_vsnprintf true 64 (sample_vsnprintf 80) sample_malloc sample_realloc
    1 small_print_buf
  = ([Vsnprintf 512 50; Malloc 100; Vsnprintf 4096 100],
     Some (80, mk_print_buf 512 50 4096 100 1)).
Proof.
  apply (wrapped_vsnprintf_falls_back_to_heap true 64 (sample_vsnprintf 80)
           sample_malloc sample_realloc 0 small_print_buf 80).
  - lia.
  - reflexivity.
  - simpl. lia.
  - simpl. lia.
  - unfold sample_malloc. lia.
Defined.

(** X20 at the version "6.6.0". *)
Lemma stats_callback_sets_known_version_witness :
  VERSION_65 <> VERSION_UNKNOWN /\
  32 = stats_cookie sample_stats /\
  stats_rc sample_stats = LCB_SUCCESS /\
  stats_server sample_stats <> None /\
  stats_key sample_stats = STAT_VERSION.
Proof.
  apply (stats_callback_sets_known_version true sample_stats 32 VERSION_65).
  vm_compute. left. reflexivity.
Defined.

(** X21 at the values "6.6.0" and "6x6": version 6.5 is set for both, and
    the lines logged differ. *)
Lemma version_read_from_two_characters_witness :
  versions_set (statsCallback true sample_stats)
  = versions_set (statsCallback true sample_stats_short) /\
  versions_set (statsCallback true sample_stats) = [(32, VERSION_65)] /\
  statsCallback true sample_stats <> statsCallback true sample_stats_short.
Proof.
  split; [|split; [reflexivity | vm_compute; discriminate]].
  apply (version_read_from_two_characters true LCB_SUCCESS 32 (Some [110; 49])
           STAT_VERSION [54; 46; 54; 46; 48] [54; 120; 54]).
  - simpl. lia.
  - simpl. lia.
  - reflexivity.
  - reflexivity.
Defined.

(** X22 at a touch, a remove without a key and a collection lookup: the
    first pipeline has its old packets in front of at most three new ones. *)
Lemma scheduled_packets_are_kept_in_order_witness :
  exists added,
    queued_on
      (cmdq (operations_run true 10 0 sample_garbage sample_instance
               sample_operations)) (PL_server 0)
    = queued_on (cmdq sample_instance) (PL_server 0) ++ added /\
    (length added <= length sample_operations)%nat.
Proof.
  apply (scheduled_packets_are_kept_in_order true 10 0 sample_garbage
           sample_operations sample_instance (PL_server 0)).
Defined.
